(** * Sahyogi: prompt construction and response normalisation

    A shallow embedding of the two services of the repository,
    [generate_analogy.py] (class [LocalAnalogyService] and the endpoint
    [generate_local_analogy]) and [personalized_exercise.py] (class
    [PersonalizedExerciseService] and the endpoint
    [generate_personalized_exercises]), followed by the properties that the
    specification states about them.

    Conventions of the embedding.
    - A Python [str] is a [string]: the sequence of the bytes of its UTF-8
      encoding.  Searching, slicing, splitting on a newline and JSON
      scanning act on ASCII delimiters and are the same on code points and
      on UTF-8 bytes.  [strip] removes the white space of Unicode, each
      character by its encoding.  [lower] puts in lower case the characters
      whose lower case holds an ASCII letter; the services only search a
      lower-cased text for ASCII words or compare it with one.
    - The decoder of [json] depends on two limits of the interpreter that
      runs it, the longest integer literal that [int] converts and the
      depth of nesting that the call stack has room for: they are the
      fields of [Json.Interpreter], and the properties hold for every
      value of them.
    - A Python value built from JSON, or a [dict] handed to a caller, is a
      [pyval]; a [dict] keeps its insertion order.
    - The hosted model is an oracle: the answer to the n-th request is a
      function of n and of the prompt.  A computation threads the log of the
      prompts sent so far and returns a value or raises an exception, of
      which only the message, [str(e)], is kept. *)

From Stdlib Require Import String Ascii List ZArith Lia Bool DecimalString.
Import ListNotations.
Local Open Scope list_scope.
Local Open Scope string_scope.

(* ===================================================================== *)
(** ** Python strings *)
(* ===================================================================== *)

Module PyStr.

Definition DQ : ascii := "034"%char.
Definition LF : ascii := "010"%char.

(** The string of one line feed. *)
Definition nl : string := String LF "".

(** A string of one double quote, and a quoted string. *)
Definition dq : string := String DQ "".
Definition quoted (s : string) : string := dq ++ s ++ dq.

Definition code (c : ascii) : Z := Z.of_N (N_of_ascii c).

Definition in_range (lo hi : Z) (c : ascii) : bool :=
  ((lo <=? code c) && (code c <=? hi))%Z.

Definition byte (n : Z) : ascii := ascii_of_N (Z.to_N n).

(** The UTF-8 encoding of a code point (a lone surrogate takes the
    three-byte form). *)
Definition utf8 (uni : Z) : string :=
  if (uni <? 128)%Z then String (byte uni) ""
  else if (uni <? 2048)%Z then
    String (byte (192 + uni / 64)) (String (byte (128 + uni mod 64)) "")
  else if (uni <? 65536)%Z then
    String (byte (224 + uni / 4096))
      (String (byte (128 + (uni / 64) mod 64))
         (String (byte (128 + uni mod 64)) ""))
  else
    String (byte (240 + uni / 262144))
      (String (byte (128 + (uni / 4096) mod 64))
         (String (byte (128 + (uni / 64) mod 64))
            (String (byte (128 + uni mod 64)) ""))).

(** [str.lower()].  In the ASCII range it acts on the letters A to Z.  Two
    characters outside that range have a lower case that holds an ASCII
    letter: U+0130, the dotted capital I, becomes "i" followed by U+0307,
    and U+212A, the Kelvin sign, becomes "k".  The lower case of every
    other character is outside the ASCII range, as the character is; such
    a character is kept as it is. *)
Definition lower_char (c : ascii) : ascii :=
  if in_range 65 90 c then ascii_of_N (N_of_ascii c + 32) else c.

Fixpoint lower (s : string) : string :=
  match s with
  | "" => ""
  | String a s1 =>
      match s1 with
      | "" => String (lower_char a) ""
      | String b s2 =>
          if String a (String b "") =? utf8 304
          then "i" ++ utf8 775 ++ lower s2
          else
            match s2 with
            | "" => String (lower_char a) (lower s1)
            | String c s3 =>
                if String a (String b (String c "")) =? utf8 8490
                then String "k" (lower s3)
                else String (lower_char a) (lower s1)
            end
      end
  end.

(** The code points of the white space of [str.strip()] and of
    [str.isspace()]: TAB, LF, VT, FF, CR, FS, GS, RS, US and the space;
    U+0085, U+00A0, U+1680, U+2000 to U+200A, U+2028, U+2029, U+202F,
    U+205F and U+3000. *)
Definition whitespace : list Z :=
  [9; 10; 11; 12; 13; 28; 29; 30; 31; 32; 133; 160; 5760;
   8192; 8193; 8194; 8195; 8196; 8197; 8198; 8199; 8200; 8201; 8202;
   8232; 8233; 8239; 8287; 12288]%Z.

(** The white space characters, each as its encoding. *)
Definition spaces : list string := map utf8 whitespace.

(** [w] is the encoding of a white space character. *)
Definition isspace (w : string) : bool := existsb (String.eqb w) spaces.

(** [s.lstrip()]: a white space character takes one, two or three
    bytes. *)
Fixpoint lstrip (s : string) : string :=
  match s with
  | "" => ""
  | String a s1 =>
      if isspace (String a "") then lstrip s1
      else
        match s1 with
        | "" => s
        | String b s2 =>
            if isspace (String a (String b "")) then lstrip s2
            else
              match s2 with
              | "" => s
              | String c s3 =>
                  if isspace (String a (String b (String c "")))
                  then lstrip s3
                  else s
              end
        end
  end.

(** [s.rstrip()]: the text up to the first place from which there is
    white space only. *)
Fixpoint rstrip (s : string) : string :=
  match s with
  | "" => ""
  | String c s' => if lstrip s =? "" then "" else String c (rstrip s')
  end.

Definition strip (s : string) : string := rstrip (lstrip s).

(** [s.startswith(p)] *)
Fixpoint startswith (p s : string) : bool :=
  match p, s with
  | "", _ => true
  | String _ _, "" => false
  | String a p', String b s' => Ascii.eqb a b && startswith p' s'
  end.

(** [sub in s] *)
Fixpoint contains (sub s : string) : bool :=
  startswith sub s ||
  match s with
  | "" => false
  | String _ s' => contains sub s'
  end.

(** [s.find(sub)]: the lowest index where [sub] starts, or -1. *)
Fixpoint find_from (sub s : string) (i : Z) : Z :=
  if startswith sub s then i
  else match s with
       | "" => (-1)%Z
       | String _ s' => find_from sub s' (i + 1)%Z
       end.

Definition find (sub s : string) : Z := find_from sub s 0.

(** [s.rfind(sub)]: the highest index where [sub] starts, or -1. *)
Fixpoint rfind_from (sub s : string) (i : Z) : Z :=
  match s with
  | "" => if startswith sub "" then i else (-1)%Z
  | String _ s' =>
      let r := rfind_from sub s' (i + 1)%Z in
      if (r =? -1)%Z then (if startswith sub s then i else (-1)%Z) else r
  end.

Definition rfind (sub s : string) : Z := rfind_from sub s 0.

(** [s[a:b]], with Python's treatment of negative and out-of-range
    bounds. *)
Definition slice (s : string) (a b : Z) : string :=
  let n := Z.of_nat (String.length s) in
  let norm (i : Z) := (if i <? 0 then Z.max (i + n) 0 else Z.min i n)%Z in
  substring (Z.to_nat (norm a)) (Z.to_nat (norm b - norm a)) s.

(** [s.split(sep)] for a separator of one character. *)
Fixpoint split (sep : ascii) (s : string) : list string :=
  match s with
  | "" => [""]
  | String c s' =>
      if Ascii.eqb c sep then "" :: split sep s'
      else match split sep s' with
           | [] => [String c ""]
           | h :: t => String c h :: t
           end
  end.

(** [sep.join(l)] *)
Fixpoint join (sep : string) (l : list string) : string :=
  match l with
  | [] => ""
  | [x] => x
  | x :: l' => x ++ sep ++ join sep l'
  end.

(** [str(n)] for an [int]. *)
Definition str_of_int (n : Z) : string :=
  NilZero.string_of_int (Z.to_int n).

End PyStr.

(* ===================================================================== *)
(** ** Python dictionaries and values *)
(* ===================================================================== *)

Module Dict.

(** A [dict] with keys of type [str], in insertion order. *)
Definition t (V : Type) : Type := list (string * V).

Fixpoint get {V : Type} (k : string) (d : t V) : option V :=
  match d with
  | [] => None
  | (k', v) :: d' => if String.eqb k k' then Some v else get k d'
  end.

(** [d[k] = v]: an existing key keeps its place and takes the new value. *)
Fixpoint set {V : Type} (k : string) (v : V) (d : t V) : t V :=
  match d with
  | [] => [(k, v)]
  | (k', v') :: d' =>
      if String.eqb k k' then (k', v) :: d' else (k', v') :: set k v d'
  end.

(** [k in d] *)
Definition mem {V : Type} (k : string) (d : t V) : bool :=
  match get k d with Some _ => true | None => false end.

(** [d.get(k, default)] *)
Definition get_default {V : Type} (k : string) (dflt : V) (d : t V) : V :=
  match get k d with Some v => v | None => dflt end.

End Dict.

(** The values that [json.loads] returns and that the services put in
    their envelopes.  A [float] is kept as the literal it was read from. *)
#[local] Set Warnings "-register-all".
Inductive pyval : Type :=
| PyNone
| PyBool (b : bool)
| PyInt (n : Z)
| PyFloat (literal : string)
| PyStr (s : string)
| PyList (l : list pyval)
| PyDict (d : list (string * pyval)).

Module PyVal.

(** [type(v).__name__] *)
Definition type_name (v : pyval) : string :=
  match v with
  | PyNone => "NoneType"
  | PyBool _ => "bool"
  | PyInt _ => "int"
  | PyFloat _ => "float"
  | PyStr _ => "str"
  | PyList _ => "list"
  | PyDict _ => "dict"
  end.

(** The message of the [AttributeError] of [v.get] when [v] has no [get]. *)
Definition no_attribute_get (v : pyval) : string :=
  "'" ++ type_name v ++ "' object has no attribute 'get'".

(** Reading a field at the type that a dataclass declares for it:
    [d.get(k, default)] when it is a [str], an [int], a list of [str]. *)
Definition get_str (k dflt : string) (d : Dict.t pyval) : option string :=
  match Dict.get k d with
  | None => Some dflt
  | Some (PyStr s) => Some s
  | Some _ => None
  end.

Definition get_int (k : string) (dflt : Z) (d : Dict.t pyval) : option Z :=
  match Dict.get k d with
  | None => Some dflt
  | Some (PyInt n) => Some n
  | Some _ => None
  end.

Fixpoint str_list (l : list pyval) : option (list string) :=
  match l with
  | [] => Some []
  | PyStr s :: l' =>
      match str_list l' with
      | Some r => Some (s :: r)
      | None => None
      end
  | _ :: _ => None
  end.

Definition get_str_list (k : string) (dflt : list string) (d : Dict.t pyval)
    : option (list string) :=
  match Dict.get k d with
  | None => Some dflt
  | Some (PyList l) => str_list l
  | Some _ => None
  end.

Definition is_empty {V : Type} (d : Dict.t V) : bool :=
  match d with [] => true | _ :: _ => false end.

End PyVal.

(* ===================================================================== *)
(** ** The decoder of the [json] module *)
(* ===================================================================== *)

Module Json.
Import PyStr.

(** What the decoder depends on in the interpreter that runs it.
    [int_max_str_digits] is [sys.get_int_max_str_digits()]: [int] refuses
    a literal of more digits, and 0 lifts the limit (the default is 4300).
    [nesting_limit] is the number of objects and arrays, one inside the
    other, that the scanner can enter before the recursion limit of the
    interpreter is met; it depends on [sys.getrecursionlimit()] and on
    the depth of the stack at the call of [json.loads]. *)
Class Interpreter : Type := {
  int_max_str_digits : nat;
  nesting_limit : nat
}.

(** What a scanning function gives: the value read and the text after it,
    or [json.JSONDecodeError], or an exception of another class, of which
    the message is kept: the [ValueError] of [int] on a literal beyond the
    limit and the [RecursionError] of the scanner.  [OutOfFuel] belongs to
    the embedding only: [scan_complete] shows that [loads] never meets
    it. *)
Inductive scanned (A : Type) : Type :=
| Scanned (a : A) (rest : string)
| JSONDecodeError
| LimitError (msg : string)
| OutOfFuel.
Arguments Scanned {A} a rest.
Arguments JSONDecodeError {A}.
Arguments LimitError {A} msg.
Arguments OutOfFuel {A}.

Fixpoint drop (n : nat) (s : string) : string :=
  match n, s with
  | O, _ => s
  | S _, "" => ""
  | S n', String _ s' => drop n' s'
  end.

(** [WHITESPACE = re.compile(r'[ \t\n\r]*')] *)
Definition is_ws (c : ascii) : bool :=
  Ascii.eqb c " " || Ascii.eqb c "009" || Ascii.eqb c "010" || Ascii.eqb c "013".

Fixpoint skip_ws (s : string) : string :=
  match s with
  | "" => ""
  | String c s' => if is_ws c then skip_ws s' else s
  end.

Definition is_digit (c : ascii) : bool := in_range 48 57 c.

Fixpoint span_digits (s : string) : string * string :=
  match s with
  | "" => ("", "")
  | String c s' =>
      if is_digit c
      then let (d, r) := span_digits s' in (String c d, r)
      else ("", s)
  end.

Fixpoint int_of_digits (acc : Z) (d : string) : Z :=
  match d with
  | "" => acc
  | String c d' => int_of_digits (10 * acc + (code c - 48))%Z d'
  end.

(** [NUMBER_RE]: an optional minus sign and either a zero or a digit from
    1 to 9 followed by digits; then, optionally, a point and at least one
    digit; then, optionally, e or E, an optional sign and at least one
    digit.  [match_number] takes the longest match at the head of [s].
    Without fraction and exponent the value is an [int], else a [float]. *)
Definition match_integer (s : string) : option (string * string) :=
  match s with
  | "" => None
  | String c s' =>
      if Ascii.eqb c "0" then Some ("0", s')
      else if is_digit c
      then let (d, r) := span_digits s' in Some (String c d, r)
      else None
  end.

Definition match_frac (s : string) : string * string :=
  match s with
  | String c s' =>
      if Ascii.eqb c "."
      then match span_digits s' with
           | ("", _) => ("", s)
           | (d, r) => (String c d, r)
           end
      else ("", s)
  | "" => ("", s)
  end.

Definition match_sign (s : string) : string * string :=
  match s with
  | String c s' =>
      if Ascii.eqb c "-" || Ascii.eqb c "+" then (String c "", s') else ("", s)
  | "" => ("", s)
  end.

Definition match_exp (s : string) : string * string :=
  match s with
  | String c s' =>
      if Ascii.eqb c "e" || Ascii.eqb c "E"
      then let (sg, s'') := match_sign s' in
           match span_digits s'' with
           | ("", _) => ("", s)
           | (d, r) => (String c (sg ++ d), r)
           end
      else ("", s)
  | "" => ("", s)
  end.

(** The token that [NUMBER_RE] matches: the integer part with its sign,
    or the literal of a [float]. *)
Inductive number : Type :=
| Integer (negative : bool) (digits : string)
| Float (literal : string).

Definition match_number (s : string) : option (number * string) :=
  let (neg, s1) :=
    match s with
    | String c s' => if Ascii.eqb c "-" then (true, s') else (false, s)
    | "" => (false, s)
    end in
  match match_integer s1 with
  | None => None
  | Some (integer, r1) =>
      let (frac, r2) := match_frac r1 in
      let (exp, r3) := match_exp r2 in
      if String.eqb frac "" && String.eqb exp ""
      then Some (Integer neg integer, r3)
      else Some (Float ((if neg then "-" else "") ++ integer ++ frac ++ exp), r3)
  end.

(** The messages of the two exceptions of the interpreter. *)
Definition int_limit_message (limit digits : nat) : string :=
  "Exceeds the limit (" ++ str_of_int (Z.of_nat limit)
  ++ " digits) for integer string conversion: value has "
  ++ str_of_int (Z.of_nat digits)
  ++ " digits; use sys.set_int_max_str_digits() to increase the limit".

Definition recursion_message (container : string) : string :=
  "maximum recursion depth exceeded while decoding a JSON " ++ container
  ++ " from a unicode string".

Definition hex_digit (c : ascii) : option Z :=
  if in_range 48 57 c then Some (code c - 48)%Z
  else if in_range 97 102 c then Some (code c - 87)%Z
  else if in_range 65 70 c then Some (code c - 55)%Z
  else None.

(** [_decode_uXXXX]: the four hexadecimal digits at the head of [s]. *)
Definition decode_uXXXX (s : string) : option Z :=
  match s with
  | String a (String b (String c (String d _))) =>
      match hex_digit a, hex_digit b, hex_digit c, hex_digit d with
      | Some x, Some y, Some z, Some w =>
          Some (((x * 16 + y) * 16 + z) * 16 + w)%Z
      | _, _, _, _ => None
      end
  | _ => None
  end.

(** [chr(uni)], as UTF-8. *)
Definition chr (uni : Z) : string := utf8 uni.

(** The table [BACKSLASH] of the one-character escapes. *)
Definition BACKSLASH (esc : ascii) : option ascii :=
  if Ascii.eqb esc DQ then Some DQ
  else if Ascii.eqb esc "\" then Some "\"%char
  else if Ascii.eqb esc "/" then Some "/"%char
  else if Ascii.eqb esc "b" then Some "008"%char
  else if Ascii.eqb esc "f" then Some "012"%char
  else if Ascii.eqb esc "n" then Some "010"%char
  else if Ascii.eqb esc "r" then Some "013"%char
  else if Ascii.eqb esc "t" then Some "009"%char
  else None.

(** [scanstring(s, end, strict=True)], from the character after the opening
    quote; [acc] is the text decoded so far. *)
Fixpoint scanstring (fuel : nat) (s : string) (acc : string) : scanned string :=
  match fuel with
  | O => OutOfFuel
  | S fuel' =>
      match s with
      | "" => JSONDecodeError
      | String c s' =>
          if Ascii.eqb c DQ then Scanned acc s'
          else if Ascii.eqb c "\" then
            match s' with
            | "" => JSONDecodeError
            | String esc s'' =>
                if Ascii.eqb esc "u" then
                  match decode_uXXXX s'' with
                  | None => JSONDecodeError
                  | Some uni =>
                      let s3 := drop 4 s'' in
                      if (55296 <=? uni)%Z && (uni <=? 56319)%Z
                         && startswith "\u" s3
                      then
                        match decode_uXXXX (drop 2 s3) with
                        | None => JSONDecodeError
                        | Some uni2 =>
                            if (56320 <=? uni2)%Z && (uni2 <=? 57343)%Z
                            then scanstring fuel' (drop 6 s3)
                                   (acc ++ chr (65536 + ((uni - 55296) * 1024
                                                         + (uni2 - 56320))))
                            else scanstring fuel' s3 (acc ++ chr uni)
                        end
                      else scanstring fuel' s3 (acc ++ chr uni)
                  end
                else
                  match BACKSLASH esc with
                  | None => JSONDecodeError
                  | Some ch => scanstring fuel' s'' (acc ++ String ch "")
                  end
            end
          else if (code c <? 32)%Z then JSONDecodeError
          else scanstring fuel' s' (acc ++ String c "")
      end
  end.

(** What [json.loads] does with a text: it returns a value, it raises
    [json.JSONDecodeError], or it raises the [ValueError] or the
    [RecursionError] of a limit of the interpreter. *)
Inductive outcome : Type :=
| Decoded (obj : pyval)
| DecodeError
| OtherError (msg : string).

Section Decoder.

Context {interpreter : Interpreter}.

(** [int(digits)], with the sign of the literal. *)
Definition parse_int (negative : bool) (digits : string) (rest : string)
    : scanned pyval :=
  if negb (int_max_str_digits =? 0)%nat
     && (int_max_str_digits <? String.length digits)%nat
  then LimitError (int_limit_message int_max_str_digits (String.length digits))
  else Scanned (PyInt ((if negative then -1 else 1) * int_of_digits 0 digits)%Z)
         rest.

(** [scan_once] of the scanner, with the loops of the objects and of the
    arrays: [object_pairs] is entered after the opening quote of a key, and
    [array_items] at the first character of a value.  [room] is the number
    of objects and arrays that can still be entered, one inside the other:
    the scanner enters one more at each '{' and each '[', and raises
    [RecursionError] where there is no room. *)
Fixpoint scan_once (fuel room : nat) (s : string) {struct fuel} : scanned pyval :=
  match fuel with
  | O => OutOfFuel
  | S fuel' =>
      match s with
      | "" => JSONDecodeError
      | String nextchar s' =>
          if Ascii.eqb nextchar DQ then
            match scanstring fuel' s' "" with
            | Scanned str r => Scanned (PyStr str) r
            | JSONDecodeError => JSONDecodeError
            | LimitError msg => LimitError msg
            | OutOfFuel => OutOfFuel
            end
          else if Ascii.eqb nextchar "{" then
            match room with
            | O => LimitError (recursion_message "object")
            | S room' =>
                match skip_ws s' with
                | "" => JSONDecodeError
                | String c r =>
                    if Ascii.eqb c "}" then Scanned (PyDict []) r
                    else if Ascii.eqb c DQ then object_pairs fuel' room' r []
                    else JSONDecodeError
                end
            end
          else if Ascii.eqb nextchar "[" then
            match room with
            | O => LimitError (recursion_message "array")
            | S room' =>
                match skip_ws s' with
                | "" => JSONDecodeError
                | String c r =>
                    if Ascii.eqb c "]" then Scanned (PyList []) r
                    else array_items fuel' room' (String c r) []
                end
            end
          else if Ascii.eqb nextchar "n" && startswith "null" s
          then Scanned PyNone (drop 4 s)
          else if Ascii.eqb nextchar "t" && startswith "true" s
          then Scanned (PyBool true) (drop 4 s)
          else if Ascii.eqb nextchar "f" && startswith "false" s
          then Scanned (PyBool false) (drop 5 s)
          else
            match match_number s with
            | Some (Integer negative digits, r) => parse_int negative digits r
            | Some (Float literal, r) => Scanned (PyFloat literal) r
            | None =>
                if Ascii.eqb nextchar "N" && startswith "NaN" s
                then Scanned (PyFloat "NaN") (drop 3 s)
                else if Ascii.eqb nextchar "I" && startswith "Infinity" s
                then Scanned (PyFloat "Infinity") (drop 8 s)
                else if Ascii.eqb nextchar "-" && startswith "-Infinity" s
                then Scanned (PyFloat "-Infinity") (drop 9 s)
                else JSONDecodeError
            end
      end
  end

with object_pairs (fuel room : nat) (s : string) (pairs : Dict.t pyval)
       {struct fuel} : scanned pyval :=
  match fuel with
  | O => OutOfFuel
  | S fuel' =>
      match scanstring fuel' s "" with
      | OutOfFuel => OutOfFuel
      | JSONDecodeError => JSONDecodeError
      | LimitError msg => LimitError msg
      | Scanned key r =>
          match skip_ws r with
          | "" => JSONDecodeError
          | String c r1 =>
              if Ascii.eqb c ":" then
                match scan_once fuel' room (skip_ws r1) with
                | OutOfFuel => OutOfFuel
                | JSONDecodeError => JSONDecodeError
                | LimitError msg => LimitError msg
                | Scanned value r2 =>
                    let pairs' := Dict.set key value pairs in
                    match skip_ws r2 with
                    | "" => JSONDecodeError
                    | String c2 r3 =>
                        if Ascii.eqb c2 "}" then Scanned (PyDict pairs') r3
                        else if Ascii.eqb c2 "," then
                          match skip_ws r3 with
                          | "" => JSONDecodeError
                          | String c3 r4 =>
                              if Ascii.eqb c3 DQ
                              then object_pairs fuel' room r4 pairs'
                              else JSONDecodeError
                          end
                        else JSONDecodeError
                    end
                end
              else JSONDecodeError
          end
      end
  end

with array_items (fuel room : nat) (s : string) (values : list pyval)
       {struct fuel} : scanned pyval :=
  match fuel with
  | O => OutOfFuel
  | S fuel' =>
      match scan_once fuel' room s with
      | OutOfFuel => OutOfFuel
      | JSONDecodeError => JSONDecodeError
      | LimitError msg => LimitError msg
      | Scanned value r =>
          let values' := (values ++ [value])%list in
          match skip_ws r with
          | "" => JSONDecodeError
          | String c r1 =>
              if Ascii.eqb c "]" then Scanned (PyList values') r1
              else if Ascii.eqb c ","
              then array_items fuel' room (skip_ws r1) values'
              else JSONDecodeError
          end
      end
  end.

(** [JSONDecoder.decode]: white space, one value, white space, the end. *)
Definition decode (fuel : nat) (s : string) : scanned pyval :=
  match scan_once fuel nesting_limit (skip_ws s) with
  | Scanned obj r =>
      match skip_ws r with
      | "" => Scanned obj ""
      | String _ _ => JSONDecodeError
      end
  | e => e
  end.

(** [json.loads(s)] *)
Definition loads (s : string) : outcome :=
  match decode (2 * String.length s + 2) s with
  | Scanned obj _ => Decoded obj
  | LimitError msg => OtherError msg
  | JSONDecodeError | OutOfFuel => DecodeError
  end.

End Decoder.

End Json.

(* ===================================================================== *)
(** ** The model collaborator and the computations that call it *)
(* ===================================================================== *)

Module Model.

(** The outcome of a call: a value, or an exception with its message. *)
Inductive result (A : Type) : Type :=
| Return (a : A)
| Raise (msg : string).
Arguments Return {A} a.
Arguments Raise {A} msg.

(** The prompts sent to the model so far, oldest first. *)
Definition Log : Type := list string.

Definition M (A : Type) : Type := Log -> result A * Log.

Definition ret {A : Type} (a : A) : M A := fun log => (Return a, log).

Definition raise {A : Type} (msg : string) : M A := fun log => (Raise msg, log).

Definition bind {A B : Type} (c : M A) (k : A -> M B) : M B :=
  fun log =>
    match c log with
    | (Return a, log') => k a log'
    | (Raise msg, log') => (Raise msg, log')
    end.

(** [try: c except Exception as e: handler(str(e))] *)
Definition try_except {A : Type} (c : M A) (handler : string -> M A) : M A :=
  fun log =>
    match c log with
    | (Return a, log') => (Return a, log')
    | (Raise msg, log') => handler msg log'
    end.

Definition lift {A : Type} (r : result A) : M A := fun log => (r, log).

(** The model: the text of the answer to the n-th request, or the
    exception that the request raises. *)
Definition oracle : Type := nat -> string -> result string.

(** [self.model.generate_content(prompt).text] *)
Definition generate_content (model : oracle) (prompt : string) : M string :=
  fun log => (model (List.length log) prompt, (log ++ [prompt])%list).

(** The prompts that a computation sends when it starts from [log]. *)
Definition sent {A : Type} (c : M A) (log : Log) : list string :=
  skipn (List.length log) (snd (c log)).

End Model.

Declare Scope py_scope.
Delimit Scope py_scope with py.
Notation "x <- c ;; k" := (Model.bind c (fun x => k))
  (at level 61, c at next level, right associativity) : py_scope.
Notation "' pat <- c ;; k" := (Model.bind c (fun x => match x with pat => k end))
  (at level 61, pat pattern, c at next level, right associativity) : py_scope.

(* ===================================================================== *)
(** ** generate_analogy.py *)
(* ===================================================================== *)

Module GenerateAnalogy.
Import PyStr Model.
Local Open Scope py_scope.

Record StudentContext : Type := {
  student_id : string;
  name : string;
  grade : Z;
  region : string;
  local_language : string;
  cultural_context : string;
  familiar_concepts : list string
}.

Record AnalogyRequest : Type := {
  student_context : StudentContext;
  question : string;
  subject : string;
  topic : string;
  complexity_level : string;
  preferred_language : string
}.

(** An entry of [self.regional_contexts]. *)
Record RegionalInfo : Type := {
  common_concepts : list string;
  occupations : list string;
  festivals : list string;
  food : list string
}.

Definition regional_contexts : Dict.t RegionalInfo :=
  [("rural_india",
    {| common_concepts := ["farming"; "village market"; "bullock cart"; "monsoon";
                           "harvest"; "cattle"; "well"; "temple"];
       occupations := ["farmer"; "shopkeeper"; "teacher"; "blacksmith"; "weaver"];
       festivals := ["Diwali"; "Holi"; "harvest festival"];
       food := ["rice"; "wheat"; "dal"; "curry"; "chapati"] |});
   ("urban_india",
    {| common_concepts := ["traffic"; "metro"; "mall"; "apartment"; "office";
                           "smartphone"; "internet"];
       occupations := ["engineer"; "doctor"; "business person"; "teacher"; "driver"];
       festivals := ["Diwali"; "Christmas"; "New Year"];
       food := ["street food"; "restaurant"; "fast food"; "traditional meals"] |});
   ("tribal_areas",
    {| common_concepts := ["forest"; "tribal dance"; "traditional crafts"; "nature";
                           "community gathering"];
       occupations := ["hunter"; "gatherer"; "craft maker"; "traditional healer"];
       festivals := ["harvest ceremonies"; "tribal festivals"];
       food := ["forest produce"; "traditional recipes"; "wild vegetables"] |})].

Definition _get_cultural_key (cultural_context region : string) : string :=
  let cultural_lower := lower cultural_context in
  let region_lower := lower region in
  if contains "tribal" cultural_lower || contains "adivasi" cultural_lower
  then "tribal_areas"
  else if contains "urban" cultural_lower || contains "city" cultural_lower
  then "urban_india"
  else "rural_india".

(** The f-strings of the service, one list entry per source line. *)
Definition detection_prompt (question : string) : string :=
  join nl
    ["";
     "            Analyze the following text and determine the language it's written in:";
     "            " ++ quoted question;
     "            ";
     "            Respond with just the language name (e.g., " ++ quoted "Hindi" ++ ", " ++ quoted "Bengali" ++ ", " ++ quoted "Tamil" ++ ", " ++ quoted "English" ++ ", etc.)";
     "            "].

Definition translation_prompt (detected_language question : string) : string :=
  join nl
    ["";
     "                Translate the following " ++ detected_language ++ " text to English:";
     "                " ++ quoted question;
     "                ";
     "                Provide only the English translation without any additional text.";
     "                "].

Definition analogy_prompt (req : AnalogyRequest) (regional_info : RegionalInfo)
    (translated_question : string) : string :=
  let context := student_context req in
  join nl
    ["";
     "        You are an expert teacher who specializes in creating culturally relevant analogies for students. ";
     "        ";
     "        STUDENT CONTEXT:";
     "        - Name: " ++ name context;
     "        - Grade: " ++ str_of_int (grade context);
     "        - Region: " ++ region context;
     "        - Local Language: " ++ local_language context;
     "        - Cultural Context: " ++ cultural_context context;
     "        - Familiar Concepts: " ++ join ", " (familiar_concepts context);
     "        ";
     "        REGIONAL/CULTURAL INFORMATION:";
     "        - Common local concepts: " ++ join ", " (common_concepts regional_info);
     "        - Local occupations: " ++ join ", " (occupations regional_info);
     "        - Local festivals: " ++ join ", " (festivals regional_info);
     "        - Local food: " ++ join ", " (food regional_info);
     "        ";
     "        QUESTION TO EXPLAIN: " ++ quoted translated_question;
     "        SUBJECT: " ++ subject req;
     "        TOPIC: " ++ topic req;
     "        COMPLEXITY LEVEL: " ++ complexity_level req;
     "        ";
     "        TASK:";
     "        Create a detailed, culturally relevant analogy that explains the concept in the question using:";
     "        1. Local and familiar concepts from the student's environment";
     "        2. Everyday experiences the student can relate to";
     "        3. Simple language appropriate for grade " ++ str_of_int (grade context);
     "        4. Step-by-step explanation building from familiar to unfamiliar";
     "        5. Examples from local culture, geography, or daily life";
     "        ";
     "        STRUCTURE YOUR RESPONSE AS:";
     "        1. **Simple Explanation**: Start with a basic explanation in simple terms";
     "        2. **Local Analogy**: Provide a detailed analogy using familiar local concepts";
     "        3. **Connection**: Clearly connect the analogy back to the original concept";
     "        4. **Example**: Give a practical example from the student's local environment";
     "        5. **Summary**: Summarize the key learning points";
     "        ";
     "        Make sure the analogy is:";
     "        - Culturally sensitive and appropriate";
     "        - Age-appropriate for grade " ++ str_of_int (grade context);
     "        - Easy to understand and remember";
     "        - Relevant to the student's daily life experience";
     "        "].

Definition response_translation_prompt (response preferred_language : string)
    : string :=
  join nl
    ["";
     "                Translate the following English text to " ++ preferred_language ++ ", maintaining the structure and cultural references:";
     "                ";
     "                " ++ quoted response;
     "                ";
     "                Make sure to:";
     "                1. Keep the educational structure intact";
     "                2. Maintain cultural references and analogies";
     "                3. Use appropriate language level for a grade school student";
     "                4. Preserve the key learning concepts";
     "                ";
     "                Provide only the translated text.";
     "                "].

(** [regional_contexts[key]], which raises [KeyError] on a missing key. *)
Definition subscript (key : string) (d : Dict.t RegionalInfo) : M RegionalInfo :=
  match Dict.get key d with
  | Some v => ret v
  | None => raise ("'" ++ key ++ "'")
  end.

Definition success_envelope (req : AnalogyRequest)
    (detected_language translated_question final_response generated_at : string)
    : pyval :=
  PyDict
    [("success", PyBool true);
     ("student_id", PyStr (student_id (student_context req)));
     ("original_question", PyStr (question req));
     ("detected_language", PyStr detected_language);
     ("translated_question", PyStr translated_question);
     ("subject", PyStr (subject req));
     ("topic", PyStr (topic req));
     ("analogy", PyStr final_response);
     ("cultural_context", PyStr (cultural_context (student_context req)));
     ("region", PyStr (region (student_context req)));
     ("generated_at", PyStr generated_at)].

Definition failure_envelope (error student_id : string) : pyval :=
  PyDict
    [("success", PyBool false);
     ("error", PyStr error);
     ("student_id", PyStr student_id)].

Section LocalAnalogyService.

(** [self.model], and the value of [datetime.now().isoformat()]. *)
Variable model : oracle.
Variable now : string.

Definition _process_question (question preferred_language : string)
    : M (string * string) :=
  try_except
    (detection_response <- generate_content model (detection_prompt question) ;;
     let detected_language := strip detection_response in
     if negb (lower detected_language =? "english")
     then
       translation_response <-
         generate_content model (translation_prompt detected_language question) ;;
       let translated_question := strip translation_response in
       ret (detected_language, translated_question)
     else
       ret (detected_language, question))
    (fun e => ret ("English", question)).

Definition _create_analogy (req : AnalogyRequest) (translated_question : string)
    : M string :=
  let context := student_context req in
  let cultural_key :=
    _get_cultural_key (cultural_context context) (region context) in
  default <- subscript "rural_india" regional_contexts ;;
  let regional_info := Dict.get_default cultural_key default regional_contexts in
  generate_content model (analogy_prompt req regional_info translated_question).

Definition _translate_response
    (response preferred_language detected_language : string) : M string :=
  try_except
    (if negb (lower preferred_language =? "english")
        && negb (lower detected_language =? "english")
     then
       translation_response <-
         generate_content model
           (response_translation_prompt response preferred_language) ;;
       ret (strip translation_response)
     else ret response)
    (fun e => ret response).

Definition generate_analogy (analogy_request : AnalogyRequest) : M pyval :=
  try_except
    ('(detected_language, translated_question) <-
       _process_question (question analogy_request)
         (preferred_language analogy_request) ;;
     analogy_response <- _create_analogy analogy_request translated_question ;;
     final_response <-
       _translate_response analogy_response
         (preferred_language analogy_request) detected_language ;;
     ret (success_envelope analogy_request detected_language
            translated_question final_response now))
    (fun e =>
       ret (failure_envelope e (student_id (student_context analogy_request)))).

Definition get_supported_languages : list string :=
  ["English"; "Hindi"; "Bengali"; "Tamil"; "Telugu"; "Marathi";
   "Gujarati"; "Kannada"; "Malayalam"; "Punjabi"; "Odia"; "Assamese"].

End LocalAnalogyService.

(** What the endpoint returns: the [dict] of a refused request, or the
    request object.  A request object whose fields do not have the types
    that the dataclasses declare is outside the embedding: [Untyped]. *)
Inductive endpoint_result : Type :=
| Envelope (e : pyval)
| Built (r : AnalogyRequest)
| Untyped.

Definition typed_student_context (context_data : Dict.t pyval)
    : option StudentContext :=
  match PyVal.get_str "student_id" "" context_data,
        PyVal.get_str "name" "" context_data,
        PyVal.get_int "grade" 1 context_data,
        PyVal.get_str "region" "Rural India" context_data,
        PyVal.get_str "local_language" "Hindi" context_data,
        PyVal.get_str "cultural_context" "rural" context_data,
        PyVal.get_str_list "familiar_concepts" [] context_data with
  | Some i, Some n, Some g, Some r, Some l, Some c, Some f =>
      Some {| student_id := i; name := n; grade := g; region := r;
              local_language := l; cultural_context := c;
              familiar_concepts := f |}
  | _, _, _, _, _, _, _ => None
  end.

Definition typed_analogy_request (student_context : StudentContext)
    (data : Dict.t pyval) : option AnalogyRequest :=
  match PyVal.get_str "question" "" data,
        PyVal.get_str "subject" "General" data,
        PyVal.get_str "topic" "Basic Concepts" data,
        PyVal.get_str "complexity_level" "simple" data,
        PyVal.get_str "preferred_language" "English" data with
  | Some q, Some s, Some t, Some c, Some p =>
      Some {| student_context := student_context; question := q; subject := s;
              topic := t; complexity_level := c; preferred_language := p |}
  | _, _, _, _, _ => None
  end.

Definition generate_local_analogy (data : Dict.t pyval) : M endpoint_result :=
  if PyVal.is_empty data
     || negb (Dict.mem "student_context" data)
     || negb (Dict.mem "question" data)
  then
    ret (Envelope
           (PyDict [("success", PyBool false);
                    ("error", PyStr "Student context and question are required")]))
  else
    match Dict.get "student_context" data with
    | None => raise "'student_context'"
    | Some (PyDict context_data) =>
        match typed_student_context context_data with
        | Some student_context =>
            match typed_analogy_request student_context data with
            | Some analogy_request => ret (Built analogy_request)
            | None => ret Untyped
            end
        | None => ret Untyped
        end
    | Some v => raise (PyVal.no_attribute_get v)
    end.

End GenerateAnalogy.

(* ===================================================================== *)
(** ** personalized_exercise.py *)
(* ===================================================================== *)

Module PersonalizedExercise.
Import PyStr Model.
Local Open Scope py_scope.

Record StudentProfile : Type := {
  student_id : string;
  name : string;
  grade : Z;
  learning_level : string;
  learning_style : string;
  weaknesses : list string;
  strengths : list string;
  language_preference : string
}.

Record ExerciseRequest : Type := {
  student_profile : StudentProfile;
  subject : string;
  topic : string;
  difficulty_level : string;
  exercise_count : Z;
  exercise_types : list string
}.

Definition _create_exercise_prompt (req : ExerciseRequest) : string :=
  let student := student_profile req in
  join nl
    ["";
     "        You are an expert educational content creator. Generate " ++ str_of_int (exercise_count req) ++ " personalized practice exercises for a student with the following profile:";
     "";
     "        STUDENT PROFILE:";
     "        - Name: " ++ name student;
     "        - Grade: " ++ str_of_int (grade student);
     "        - Learning Level: " ++ learning_level student;
     "        - Learning Style: " ++ learning_style student;
     "        - Primary Language: " ++ language_preference student;
     "        - Weaknesses: " ++ join ", " (weaknesses student);
     "        - Strengths: " ++ join ", " (strengths student);
     "";
     "        EXERCISE REQUIREMENTS:";
     "        - Subject: " ++ subject req;
     "        - Topic: " ++ topic req;
     "        - Difficulty Level: " ++ difficulty_level req;
     "        - Exercise Types: " ++ join ", " (exercise_types req);
     "";
     "        PERSONALIZATION GUIDELINES:";
     "        1. Target the student's identified weaknesses while building on their strengths";
     "        2. Adapt to their learning style:";
     "           - Visual: Include diagrams, charts, or visual elements";
     "           - Auditory: Include sound-based or rhythm-based elements";
     "           - Kinesthetic: Include hands-on or movement-based activities";
     "           - Reading/Writing: Focus on text-based exercises";
     "        3. Use appropriate complexity for their learning level";
     "        4. If language preference is not English, provide translations or explanations in their preferred language";
     "        5. Create scaffolded exercises that gradually increase in difficulty";
     "";
     "        OUTPUT FORMAT:";
     "        Provide the response as a JSON object with the following structure:";
     "        {";
     "            " ++ quoted "exercises" ++ ": [";
     "                {";
     "                    " ++ quoted "id" ++ ": 1,";
     "                    " ++ quoted "type" ++ ": " ++ quoted "exercise_type" ++ ",";
     "                    " ++ quoted "question" ++ ": " ++ quoted "exercise question/prompt" ++ ",";
     "                    " ++ quoted "options" ++ ": [" ++ quoted "option1" ++ ", " ++ quoted "option2" ++ ", " ++ quoted "option3" ++ ", " ++ quoted "option4" ++ "] (for multiple choice),";
     "                    " ++ quoted "correct_answer" ++ ": " ++ quoted "correct answer or explanation" ++ ",";
     "                    " ++ quoted "explanation" ++ ": " ++ quoted "detailed explanation of the solution" ++ ",";
     "                    " ++ quoted "difficulty" ++ ": " ++ quoted "beginner/intermediate/advanced" ++ ",";
     "                    " ++ quoted "learning_objective" ++ ": " ++ quoted "what this exercise aims to teach" ++ ",";
     "                    " ++ quoted "personalization_notes" ++ ": " ++ quoted "how this addresses student's specific needs";
     "                }";
     "            ]";
     "        }";
     "";
     "        Generate exercises that are engaging, age-appropriate, and specifically designed to help this student overcome their weaknesses while leveraging their learning style.";
     "        "].

(** The record that the fallback makes of a line. *)
Definition fallback_exercise (req : ExerciseRequest) (exercise_count : Z)
    (line : string) : Dict.t pyval :=
  [("id", PyInt (exercise_count + 1));
   ("type", PyStr match exercise_types req with
                  | t :: _ => t
                  | [] => "short_answer"
                  end);
   ("question", PyStr line);
   ("correct_answer", PyStr "Answer will be provided by teacher");
   ("explanation", PyStr "Detailed explanation will be provided");
   ("difficulty", PyStr (difficulty_level req));
   ("learning_objective", PyStr ("Practice " ++ topic req ++ " concepts"));
   ("personalization_notes",
    PyStr ("Adapted for " ++ learning_style (student_profile req)
           ++ " learning style"))].

(** The state of the loop of [_create_fallback_exercises]. *)
Record fallback_state : Type := {
  exercises : list pyval;
  current_exercise : Dict.t pyval;
  count : Z
}.

(** One turn of [for line in lines]. *)
Definition fallback_step (req : ExerciseRequest) (st : fallback_state)
    (line : string) : fallback_state :=
  let line := strip line in
  if negb (line =? "") && (count st <? exercise_count req)%Z then
    if PyVal.is_empty (current_exercise st) then
      let current_exercise := fallback_exercise req (count st) line in
      {| exercises := (exercises st ++ [PyDict current_exercise])%list;
         current_exercise := [];
         count := (count st + 1)%Z |}
    else st
  else st.

Definition _create_fallback_exercises (text : string) (req : ExerciseRequest)
    : list pyval :=
  let lines := split LF (strip text) in
  exercises
    (fold_left (fallback_step req) lines
       {| exercises := []; current_exercise := []; count := 0 |}).

(** The handler of the source is [except json.JSONDecodeError]: another
    exception of [json.loads] goes to the caller. *)
Definition _parse_exercises_response {interpreter : Json.Interpreter}
    (response_text : string) (req : ExerciseRequest) : result pyval :=
  let start_idx := find "{" response_text in
  let end_idx := (rfind "}" response_text + 1)%Z in
  if negb (start_idx =? -1)%Z && negb (end_idx =? 0)%Z then
    let json_str := slice response_text start_idx end_idx in
    match Json.loads json_str with
    | Json.Decoded (PyDict parsed_data) =>
        Return (Dict.get_default "exercises" (PyList []) parsed_data)
    | Json.Decoded parsed_data => Raise (PyVal.no_attribute_get parsed_data)
    | Json.DecodeError =>
        Return (PyList (_create_fallback_exercises response_text req))
    | Json.OtherError msg => Raise msg
    end
  else Return (PyList (_create_fallback_exercises response_text req)).

Definition success_envelope (req : ExerciseRequest) (exercises : pyval)
    (generated_at : string) : pyval :=
  PyDict
    [("success", PyBool true);
     ("student_id", PyStr (student_id (student_profile req)));
     ("subject", PyStr (subject req));
     ("topic", PyStr (topic req));
     ("exercises", exercises);
     ("generated_at", PyStr generated_at);
     ("personalization_factors",
      PyDict
        [("learning_level", PyStr (learning_level (student_profile req)));
         ("learning_style", PyStr (learning_style (student_profile req)));
         ("targeted_weaknesses",
          PyList (map PyStr (weaknesses (student_profile req))))])].

Definition failure_envelope (error student_id : string) : pyval :=
  PyDict
    [("success", PyBool false);
     ("error", PyStr error);
     ("student_id", PyStr student_id)].

Section PersonalizedExerciseService.

Context {interpreter : Json.Interpreter}.

(** [self.model], and the value of [datetime.now().isoformat()]. *)
Variable model : oracle.
Variable now : string.

Definition generate_exercises (exercise_request : ExerciseRequest) : M pyval :=
  try_except
    (let prompt := _create_exercise_prompt exercise_request in
     response <- generate_content model prompt ;;
     exercises <- lift (_parse_exercises_response response exercise_request) ;;
     ret (success_envelope exercise_request exercises now))
    (fun e =>
       ret (failure_envelope e (student_id (student_profile exercise_request)))).

End PersonalizedExerciseService.

(** What the endpoint returns: the pair of a response and a status code,
    or the request object ([Untyped] as for the analogy endpoint). *)
Inductive endpoint_result (Response : Type) : Type :=
| Responded (body : Response) (status : Z)
| Built (r : ExerciseRequest)
| Untyped.
Arguments Responded {Response} body status.
Arguments Built {Response} r.
Arguments Untyped {Response}.

Definition typed_student_profile (profile_data : Dict.t pyval)
    : option StudentProfile :=
  match PyVal.get_str "student_id" "" profile_data,
        PyVal.get_str "name" "" profile_data,
        PyVal.get_int "grade" 1 profile_data,
        PyVal.get_str "learning_level" "beginner" profile_data,
        PyVal.get_str "learning_style" "visual" profile_data,
        PyVal.get_str_list "weaknesses" [] profile_data,
        PyVal.get_str_list "strengths" [] profile_data,
        PyVal.get_str "language_preference" "English" profile_data with
  | Some i, Some n, Some g, Some l, Some s, Some w, Some t, Some p =>
      Some {| student_id := i; name := n; grade := g; learning_level := l;
              learning_style := s; weaknesses := w; strengths := t;
              language_preference := p |}
  | _, _, _, _, _, _, _, _ => None
  end.

Definition typed_exercise_request (student_profile : StudentProfile)
    (data : Dict.t pyval) : option ExerciseRequest :=
  match PyVal.get_str "subject" "Mathematics" data,
        PyVal.get_str "topic" "Basic Operations" data,
        PyVal.get_str "difficulty_level" "beginner" data,
        PyVal.get_int "exercise_count" 5 data,
        PyVal.get_str_list "exercise_types" ["multiple_choice"] data with
  | Some s, Some t, Some d, Some c, Some e =>
      Some {| student_profile := student_profile; subject := s; topic := t;
              difficulty_level := d; exercise_count := c; exercise_types := e |}
  | _, _, _, _, _ => None
  end.

Section Endpoint.

(** [flask.jsonify]: the response object made of a payload, or the
    exception that the call raises. *)
Variable Response : Type.
Variable jsonify : pyval -> result Response.

Definition generate_personalized_exercises (data : Dict.t pyval)
    : M (endpoint_result Response) :=
  try_except
    (if PyVal.is_empty data || negb (Dict.mem "student_profile" data)
     then
       body <- lift (jsonify
                       (PyDict [("success", PyBool false);
                                ("error", PyStr "Student profile is required")])) ;;
       ret (Responded body 400)
     else
       match Dict.get "student_profile" data with
       | None => raise "'student_profile'"
       | Some (PyDict profile_data) =>
           match typed_student_profile profile_data with
           | Some student_profile =>
               match typed_exercise_request student_profile data with
               | Some exercise_request => ret (Built exercise_request)
               | None => ret Untyped
               end
           | None => ret Untyped
           end
       | Some v => raise (PyVal.no_attribute_get v)
       end)
    (fun e =>
       body <- lift (jsonify (PyDict [("success", PyBool false);
                                      ("error", PyStr e)])) ;;
       ret (Responded body 500)).

End Endpoint.

End PersonalizedExercise.

(* ===================================================================== *)
(** ** Definitions for the statements *)
(* ===================================================================== *)

Import PyStr Model.

(** The classifier as the specification words it: both strings are put in
    lower case and both are searched. *)
Definition spec_cultural_key (cultural_context region : string) : string :=
  let c := lower cultural_context in
  let r := lower region in
  if contains "tribal" c || contains "adivasi" c
     || contains "tribal" r || contains "adivasi" r
  then "tribal_areas"
  else if contains "urban" c || contains "city" c
          || contains "urban" r || contains "city" r
  then "urban_india"
  else "rural_india".

(** The regional information that [_create_analogy] puts in its prompt. *)
Definition regional_info_of (req : GenerateAnalogy.AnalogyRequest)
    : GenerateAnalogy.RegionalInfo :=
  let context := GenerateAnalogy.student_context req in
  match Dict.get
          (GenerateAnalogy._get_cultural_key
             (GenerateAnalogy.cultural_context context)
             (GenerateAnalogy.region context))
          GenerateAnalogy.regional_contexts with
  | Some info => info
  | None => {| GenerateAnalogy.common_concepts := [];
               GenerateAnalogy.occupations := [];
               GenerateAnalogy.festivals := [];
               GenerateAnalogy.food := [] |}
  end.

(** The lines that the fallback reads: the text is trimmed and split at
    the line feeds, each line is trimmed, the empty ones are left out. *)
Definition nonempty_trimmed_lines (text : string) : list string :=
  filter (fun line => negb (line =? "")) (map strip (split LF (strip text))).

(** What the fallback loop appends from the state in which [emitted]
    records were made: one record per line while the number of records is
    below [exercise_count]. *)
Fixpoint emit_from (req : PersonalizedExercise.ExerciseRequest) (emitted : Z)
    (lines : list string) : list pyval :=
  match lines with
  | [] => []
  | line :: lines' =>
      if (emitted <? PersonalizedExercise.exercise_count req)%Z
      then PyDict (PersonalizedExercise.fallback_exercise req emitted line)
             :: emit_from req (emitted + 1) lines'
      else []
  end.

(** What [json.loads] does with the text from its first '{' to its last
    '}': [None] where the parser takes the fallback, that is where the
    text lacks one of the two braces or [json.loads] raises
    [json.JSONDecodeError] on the slice; otherwise the value decoded, or
    the exception of another class that [json.loads] raises. *)
Definition embedded_json {interpreter : Json.Interpreter} (text : string)
    : option (result pyval) :=
  if negb (find "{" text =? -1)%Z && negb (rfind "}" text + 1 =? 0)%Z
  then match Json.loads (slice text (find "{" text) (rfind "}" text + 1)) with
       | Json.Decoded obj => Some (Return obj)
       | Json.DecodeError => None
       | Json.OtherError msg => Some (Raise msg)
       end
  else None.

(** A text of white space only: white space characters, one after the
    other. *)
Inductive white : string -> Prop :=
| white_nil : white ""
| white_cons (w s : string) : In w spaces -> white s -> white (w ++ s).

Definition starts_with_space (s : string) : Prop :=
  exists w r, In w spaces /\ s = w ++ r.

Definition ends_with_space (s : string) : Prop :=
  exists l w, In w spaces /\ s = l ++ w.

(** [t] is [s] trimmed: [s] is [t] between two texts of white space, and
    [t] neither starts nor ends with a white space character. *)
Definition trimmed_to (s t : string) : Prop :=
  (exists l r, white l /\ white r /\ s = l ++ t ++ r)
  /\ ~ starts_with_space t /\ ~ ends_with_space t.

(** The messages of the exceptions of [json.loads] that are not
    [json.JSONDecodeError]: the [RecursionError] of an object or of an
    array nested beyond the limit, and the [ValueError] of an integer
    literal of more digits than the limit, where there is one. *)
Definition limit_message {interpreter : Json.Interpreter} (msg : string)
    : Prop :=
  msg = Json.recursion_message "object"
  \/ msg = Json.recursion_message "array"
  \/ exists digits,
       (0 < Json.int_max_str_digits < digits)%nat
       /\ msg = Json.int_limit_message Json.int_max_str_digits digits.

(** [len(v)] of a list or of a [dict]. *)
Definition py_len (v : pyval) : option Z :=
  match v with
  | PyList l => Some (Z.of_nat (List.length l))
  | PyDict d => Some (Z.of_nat (List.length d))
  | _ => None
  end.

(* ===================================================================== *)
(** ** Sample inputs *)
(* ===================================================================== *)

(** A model that names the language, between a no-break space and a line
    feed, and then fails. *)
Definition model_failing_after_detection : oracle :=
  fun n _ =>
    match n with
    | O => Return (utf8 160 ++ "Hindi" ++ nl)
    | S _ => Raise "503 The model is overloaded"
    end.

(** A request mapping without the key 'question', and one without the key
    'student_profile'. *)
Definition data_without_question : Dict.t pyval :=
  [("student_context",
    PyDict [("student_id", PyStr "123"); ("name", PyStr "GURU");
            ("grade", PyInt 5); ("region", PyStr "north india")]);
   ("subject", PyStr "environment")].

Definition data_without_student_profile : Dict.t pyval :=
  [("subject", PyStr "Mathematics"); ("exercise_count", PyInt 5)].

(** A [jsonify] that hands the payload back. *)
Definition jsonify_payload : pyval -> result pyval := fun payload => Return payload.

(** [flask.jsonify] where no application context is active: the call
    looks for the current application and raises [RuntimeError], whose
    message starts with these words.  The module makes no application (the
    line [app = Flask(__name__)] is a comment), so that this is what
    [jsonify] does when the endpoint function is called. *)
Definition jsonify_outside_application_context : pyval -> result pyval :=
  fun _ => Raise "Working outside of application context.".

(** The interpreter of the examples: the limit on integer literals that
    CPython sets by default, and room for 990 objects and arrays one
    inside the other. *)
#[export] Instance cpython : Json.Interpreter :=
  {| Json.int_max_str_digits := 4300; Json.nesting_limit := 990 |}.

(** The request of the script at the end of [generate_analogy.py]. *)
Definition sample_analogy_request : GenerateAnalogy.AnalogyRequest :=
  {| GenerateAnalogy.student_context :=
       {| GenerateAnalogy.student_id := "123";
          GenerateAnalogy.name := "GURU";
          GenerateAnalogy.grade := 5;
          GenerateAnalogy.region := "north india";
          GenerateAnalogy.local_language := "hindi";
          GenerateAnalogy.cultural_context := "rural";
          GenerateAnalogy.familiar_concepts := ["farming"] |};
     GenerateAnalogy.question := "ye barish kyu hoti hai?";
     GenerateAnalogy.subject := "environment";
     GenerateAnalogy.topic := "string";
     GenerateAnalogy.complexity_level := "simple";
     GenerateAnalogy.preferred_language := "hindi" |}.

(** The request of [generate_synthetic_data], with the student id and the
    weaknesses at their declared types, and a count of [n] exercises. *)
Definition sample_exercise_request (n : Z) : PersonalizedExercise.ExerciseRequest :=
  {| PersonalizedExercise.student_profile :=
       {| PersonalizedExercise.student_id := "1234";
          PersonalizedExercise.name := "GURU";
          PersonalizedExercise.grade := 5;
          PersonalizedExercise.learning_level := "beginner";
          PersonalizedExercise.learning_style := "visual";
          PersonalizedExercise.weaknesses := ["focus"];
          PersonalizedExercise.strengths := ["visualization"; "creativity"];
          PersonalizedExercise.language_preference := "Hindi" |};
     PersonalizedExercise.subject := "Mathematics";
     PersonalizedExercise.topic := "Basic Operations";
     PersonalizedExercise.difficulty_level := "beginner";
     PersonalizedExercise.exercise_count := n;
     PersonalizedExercise.exercise_types := ["multiple_choice"] |}.

(** A model that detects English and fails on the next request, and a
    model that always fails. *)
Definition model_failing_on_analogy : oracle :=
  fun n _ =>
    match n with
    | O => Return "English"
    | S _ => Raise "429 Resource has been exhausted"
    end.


(** A model answer that carries two exercises in JSON, after a sentence. *)
Definition two_exercises_text : string :=
  "Here are the exercises:" ++ nl
  ++ "{" ++ quoted "exercises" ++ ": [{" ++ quoted "id" ++ ": 1}, {"
  ++ quoted "id" ++ ": 2}]}".

(** A model answer of five non-empty lines and an empty one, without
    braces. *)
Definition five_lines_text : string :=
  join nl
    ["1. What is 2 + 3?";
     "  2. What is 7 - 4?  ";
     "";
     "3. What is 6 + 1?";
     "4. What is 9 - 5?";
     "5. What is 8 + 2?"].

(** A model that detects Hindi, translates the question, explains, and
    translates the explanation, with white space around its answers: a
    line feed, a no-break space, an ideographic space. *)
Definition model_answering_in_hindi : oracle :=
  fun n _ =>
    match n with
    | 0%nat => Return (" Hindi" ++ nl)
    | 1%nat => Return ("Why does it rain?" ++ utf8 160)
    | 2%nat => Return "Rain is like the water of the well going up and down."
    | _ => Return (utf8 12288 ++ " baarish kuen ke paani jaisi hai.  " ++ nl)
    end.

(** A model that answers every prompt with [two_exercises_text]. *)
Definition model_answering_in_json : oracle := fun _ _ => Return two_exercises_text.

(** The request [req] with another exercise_count. *)
Definition with_count (req : PersonalizedExercise.ExerciseRequest) (n : Z)
    : PersonalizedExercise.ExerciseRequest :=
  {| PersonalizedExercise.student_profile :=
       PersonalizedExercise.student_profile req;
     PersonalizedExercise.subject := PersonalizedExercise.subject req;
     PersonalizedExercise.topic := PersonalizedExercise.topic req;
     PersonalizedExercise.difficulty_level :=
       PersonalizedExercise.difficulty_level req;
     PersonalizedExercise.exercise_count := n;
     PersonalizedExercise.exercise_types :=
       PersonalizedExercise.exercise_types req |}.

(** A model answer of white space only, the no-break space U+00A0 and the
    ideographic space U+3000 included. *)
Definition blank_text : string :=
  "   " ++ nl ++ utf8 160 ++ " " ++ nl ++ utf8 12288 ++ nl.

(** A model answer of two questions with a line between them that holds
    a no-break space only. *)
Definition two_questions_text : string :=
  "Q1" ++ nl ++ utf8 160 ++ nl ++ " Q2" ++ utf8 8195.

(** A model answer in which a pair of braces stands before the JSON
    object. *)
Definition stray_braces_text : string :=
  "Use {curly} braces. {" ++ quoted "exercises" ++ ": [{" ++ quoted "id"
  ++ ": 1}]}".

(** A model answer that carries an integer of [digits] digits in JSON, and
    one that carries [depth] arrays one inside the other. *)
Definition long_integer_text (digits : nat) : string :=
  "{" ++ quoted "exercises" ++ ": ["
  ++ string_of_list_ascii (repeat "1"%char digits) ++ "]}".

Definition deep_arrays_text (depth : nat) : string :=
  "{" ++ quoted "exercises" ++ ": "
  ++ string_of_list_ascii (repeat "["%char depth)
  ++ string_of_list_ascii (repeat "]"%char depth) ++ "}".

(** A model answer in which the only '}' stands before the only '{'. *)
Definition reversed_braces_text : string :=
  "Close } before open {" ++ nl ++ "What is 2 + 3?".

(** The questions of a list of records, in order. *)
Definition question_of (record : pyval) : list string :=
  match record with
  | PyDict fields =>
      match Dict.get "question" fields with
      | Some (PyStr question) => [question]
      | _ => []
      end
  | _ => []
  end.

Definition questions_of (records : list pyval) : list string :=
  flat_map question_of records.

(** [lines] are the non-empty trimmed lines of [text]: the text is
    trimmed, what is left is cut at its line feeds, each piece is trimmed
    and the pieces that are then empty are left out. *)
Definition trimmed_lines (text : string) (lines : list string) : Prop :=
  exists core pieces trimmed,
    trimmed_to text core
    /\ core = join nl pieces
    /\ Forall (fun piece => contains nl piece = false) pieces
    /\ Forall2 trimmed_to pieces trimmed
    /\ lines = filter (fun line => negb (line =? "")) trimmed.

(** The text after the white space character at the head of [s], where
    there is one. *)
Definition after_space (s : string) : option string :=
  match s with
  | "" => None
  | String a s1 =>
      if isspace (String a "") then Some s1
      else
        match s1 with
        | "" => None
        | String b s2 =>
            if isspace (String a (String b "")) then Some s2
            else
              match s2 with
              | "" => None
              | String c s3 =>
                  if isspace (String a (String b (String c "")))
                  then Some s3
                  else None
              end
        end
  end.

(** The bytes of UTF-8: the first byte of a character is below 128 or
    from 192, each following byte is between them. *)
Definition leading (c : ascii) : bool := (code c <? 128)%Z || (192 <=? code c)%Z.

Fixpoint all_bytes (p : ascii -> bool) (s : string) : bool :=
  match s with
  | "" => true
  | String c s' => p c && all_bytes p s'
  end.

Definition one_character (w : string) : bool :=
  match w with
  | "" => false
  | String a t => leading a && all_bytes (fun b => negb (leading b)) t
  end.

(** A text in the ASCII range. *)
Definition ascii_only (s : string) : bool :=
  all_bytes (fun c => (code c <? 128)%Z) s.

(** [lower] on a text in the ASCII range. *)
Fixpoint lower_ascii (s : string) : string :=
  match s with
  | "" => ""
  | String c s' => String (lower_char c) (lower_ascii s')
  end.

(** A line as the fallback keeps it: not empty, without white space at
    either end, without line feed. *)
Definition kept_line (line : string) : Prop :=
  line <> "" /\ ~ starts_with_space line /\ ~ ends_with_space line
  /\ contains nl line = false.

(** The payloads that the docstrings of the endpoints describe, made of a
    request. *)
Definition analogy_payload (req : GenerateAnalogy.AnalogyRequest)
    : Dict.t pyval :=
  let context := GenerateAnalogy.student_context req in
  [("student_context",
    PyDict
      [("student_id", PyStr (GenerateAnalogy.student_id context));
       ("name", PyStr (GenerateAnalogy.name context));
       ("grade", PyInt (GenerateAnalogy.grade context));
       ("region", PyStr (GenerateAnalogy.region context));
       ("local_language", PyStr (GenerateAnalogy.local_language context));
       ("cultural_context", PyStr (GenerateAnalogy.cultural_context context));
       ("familiar_concepts",
        PyList (map PyStr (GenerateAnalogy.familiar_concepts context)))]);
   ("question", PyStr (GenerateAnalogy.question req));
   ("subject", PyStr (GenerateAnalogy.subject req));
   ("topic", PyStr (GenerateAnalogy.topic req));
   ("complexity_level", PyStr (GenerateAnalogy.complexity_level req));
   ("preferred_language", PyStr (GenerateAnalogy.preferred_language req))].

Definition exercise_payload (req : PersonalizedExercise.ExerciseRequest)
    : Dict.t pyval :=
  let profile := PersonalizedExercise.student_profile req in
  [("student_profile",
    PyDict
      [("student_id", PyStr (PersonalizedExercise.student_id profile));
       ("name", PyStr (PersonalizedExercise.name profile));
       ("grade", PyInt (PersonalizedExercise.grade profile));
       ("learning_level", PyStr (PersonalizedExercise.learning_level profile));
       ("learning_style", PyStr (PersonalizedExercise.learning_style profile));
       ("weaknesses",
        PyList (map PyStr (PersonalizedExercise.weaknesses profile)));
       ("strengths",
        PyList (map PyStr (PersonalizedExercise.strengths profile)));
       ("language_preference",
        PyStr (PersonalizedExercise.language_preference profile))]);
   ("subject", PyStr (PersonalizedExercise.subject req));
   ("topic", PyStr (PersonalizedExercise.topic req));
   ("difficulty_level", PyStr (PersonalizedExercise.difficulty_level req));
   ("exercise_count", PyInt (PersonalizedExercise.exercise_count req));
   ("exercise_types",
    PyList (map PyStr (PersonalizedExercise.exercise_types req)))].

(** A mapping whose student context (resp. student profile) is a list. *)
Definition data_with_list_context : Dict.t pyval :=
  [("student_context", PyList [PyStr "GURU"]); ("question", PyStr "Why?")].

Definition data_with_list_profile : Dict.t pyval :=
  [("student_profile", PyList [PyStr "GURU"])].
(* ===================================================================== *)
(** ** Facts on strings *)
(* ===================================================================== *)

Lemma length_append :
  forall a b : string,
    String.length (a ++ b) = (String.length a + String.length b)%nat.
Proof. induction a as [| c a IH]; intros b; cbn; [| rewrite IH]; reflexivity. Qed.

Lemma append_assoc :
  forall a b c : string, (a ++ b) ++ c = a ++ b ++ c.
Proof. induction a as [| x a IH]; intros b c; cbn; [| rewrite IH]; reflexivity. Qed.

Lemma substring_skip :
  forall (pre s : string) (n m : nat),
    substring (String.length pre + n) m (pre ++ s) = substring n m s.
Proof. induction pre as [| c pre IH]; intros s n m; cbn; [| rewrite IH]; reflexivity. Qed.

Lemma substring_prefix :
  forall a b : string, substring 0 (String.length a) (a ++ b) = a.
Proof.
  induction a as [| c a IH]; intros b; cbn.
  - destruct b; reflexivity.
  - now rewrite IH.
Qed.

(** [startswith] and [contains] for a needle of one character. *)
Lemma startswith_char :
  forall (c x : ascii) (s : string),
    startswith (String c "") (String x s) = Ascii.eqb c x.
Proof. intros. cbn. apply andb_true_r. Qed.

Lemma contains_char_cons :
  forall (c x : ascii) (s : string),
    contains (String c "") (String x s)
    = Ascii.eqb c x || contains (String c "") s.
Proof. intros. cbn. now rewrite andb_true_r. Qed.

(** The first occurrence of a character. *)
Lemma find_from_first :
  forall (c : ascii) (pre rest : string) (i : Z),
    contains (String c "") pre = false ->
    find_from (String c "") (pre ++ String c rest) i
    = (i + Z.of_nat (String.length pre))%Z.
Proof.
  intros c pre rest; induction pre as [| x pre IH]; intros i H.
  - cbn. rewrite Ascii.eqb_refl. cbn. lia.
  - rewrite contains_char_cons in H. apply orb_false_iff in H as [Hx Hpre].
    cbn [append find_from]. rewrite startswith_char, Hx.
    rewrite IH by assumption. cbn [String.length]. lia.
Qed.

Lemma find_from_range :
  forall (sub s : string) (i : Z),
    find_from sub s i = (-1)%Z
    \/ (i <= find_from sub s i <= i + Z.of_nat (String.length s))%Z.
Proof.
  intros sub s; induction s as [| x s IH]; intros i.
  - cbn. destruct (startswith sub ""); [right; cbn; lia | now left].
  - cbn [find_from]. destruct (startswith sub (String x s)).
    + right. cbn [String.length]. lia.
    + destruct (IH (i + 1)%Z) as [H | H]; [now left | right].
      cbn [String.length]. lia.
Qed.

(** Where [find] succeeds on a character, the text splits at it. *)
Lemma find_from_split :
  forall (c : ascii) (s : string) (i : Z),
    find_from (String c "") s i <> (-1)%Z ->
    (0 <= i)%Z ->
    exists pre rest,
      s = pre ++ String c rest
      /\ find_from (String c "") s i = (i + Z.of_nat (String.length pre))%Z.
Proof.
  intros c s; induction s as [| x s IH]; intros i H Hi.
  - cbn in H. congruence.
  - cbn [find_from] in H |- *. rewrite startswith_char in H |- *.
    destruct (Ascii.eqb c x) eqn:E.
    + apply Ascii.eqb_eq in E; subst x. exists "", s. cbn. split; [reflexivity | lia].
    + destruct (IH (i + 1)%Z H ltac:(lia)) as (pre & rest & -> & Hf).
      exists (String x pre), rest. split; [reflexivity |].
      rewrite Hf. cbn [String.length]. lia.
Qed.

(** The last occurrence of a character. *)
Lemma rfind_from_absent :
  forall (c : ascii) (s : string) (i : Z),
    contains (String c "") s = false ->
    rfind_from (String c "") s i = (-1)%Z.
Proof.
  intros c s; induction s as [| x s IH]; intros i H; [reflexivity |].
  pose proof H as H'. rewrite contains_char_cons in H'.
  apply orb_false_iff in H' as [Hx Hs].
  cbn [rfind_from]. rewrite IH by assumption. cbv zeta; rewrite Z.eqb_refl.
  now rewrite startswith_char, Hx.
Qed.

Lemma rfind_from_last :
  forall (c : ascii) (pre suf : string) (i : Z),
    contains (String c "") suf = false ->
    (0 <= i)%Z ->
    rfind_from (String c "") (pre ++ String c suf) i
    = (i + Z.of_nat (String.length pre))%Z.
Proof.
  intros c pre suf; induction pre as [| x pre IH]; intros i H Hi.
  - cbn [append rfind_from]. rewrite rfind_from_absent by assumption.
    cbv zeta; rewrite Z.eqb_refl. rewrite startswith_char, Ascii.eqb_refl. cbn. lia.
  - cbn [append rfind_from]. rewrite IH by (assumption || lia).
    destruct (Z.eqb_spec (i + 1 + Z.of_nat (String.length pre)) (-1)); [lia |].
    cbn [String.length]. lia.
Qed.

Lemma rfind_from_range :
  forall (sub s : string) (i : Z),
    (0 <= i)%Z ->
    rfind_from sub s i = (-1)%Z
    \/ (i <= rfind_from sub s i <= i + Z.of_nat (String.length s))%Z.
Proof.
  intros sub s; induction s as [| x s IH]; intros i Hi.
  - cbn. destruct (startswith sub ""); [right; lia | now left].
  - cbn [rfind_from].
    destruct (IH (i + 1)%Z ltac:(lia)) as [H | H].
    + rewrite H. cbv zeta; rewrite Z.eqb_refl.
      destruct (startswith sub (String x s)); [right | now left].
      cbn [String.length]. lia.
    + destruct (Z.eqb_spec (rfind_from sub s (i + 1)) (-1)); [lia |].
      right. cbn [String.length]. lia.
Qed.

(** A slice within the bounds of the text. *)
Lemma slice_within :
  forall (s : string) (a b : Z),
    (0 <= a <= Z.of_nat (String.length s))%Z ->
    (0 <= b <= Z.of_nat (String.length s))%Z ->
    slice s a b = substring (Z.to_nat a) (Z.to_nat (b - a)) s.
Proof.
  intros s a b Ha Hb. unfold slice.
  destruct (Z.ltb_spec a 0); [lia |]. destruct (Z.ltb_spec b 0); [lia |].
  now rewrite !Z.min_l by lia.
Qed.

Lemma slice_middle :
  forall pre mid suf : string,
    slice (pre ++ mid ++ suf)
      (Z.of_nat (String.length pre))
      (Z.of_nat (String.length pre) + Z.of_nat (String.length mid))
    = mid.
Proof.
  intros pre mid suf.
  rewrite slice_within by (rewrite !length_append; lia).
  rewrite Nat2Z.id.
  replace (Z.to_nat (Z.of_nat (String.length pre) + Z.of_nat (String.length mid)
                     - Z.of_nat (String.length pre)))
    with (String.length mid) by lia.
  rewrite <- (Nat.add_0_r (String.length pre)), substring_skip.
  apply substring_prefix.
Qed.

(* ===================================================================== *)
(** ** Facts on white space and on trimming *)
(* ===================================================================== *)

Lemma append_nil_r : forall s : string, s ++ "" = s.
Proof. induction s as [| c s IH]; cbn; [| rewrite IH]; reflexivity. Qed.

(** Two ways of cutting the same text: one of the first parts is a prefix
    of the other. *)
Lemma append_eq_cases :
  forall a b c d : string,
    a ++ b = c ++ d ->
    (exists e, c = a ++ e /\ b = e ++ d) \/ (exists e, a = c ++ e /\ d = e ++ b).
Proof.
  induction a as [| x a IH]; intros b c d H.
  - left. exists c. split; [reflexivity | exact H].
  - destruct c as [| y c].
    + right. exists (String x a). split; [reflexivity | symmetry; exact H].
    + cbn [append] in H. injection H as <- H.
      destruct (IH _ _ _ H) as [(e & -> & ->) | (e & -> & ->)];
        [left | right]; exists e; split; reflexivity.
Qed.

Lemma string_length_ind :
  forall P : string -> Prop,
    (forall s, (forall t, (String.length t < String.length s)%nat -> P t) -> P s) ->
    forall s, P s.
Proof.
  intros P H s.
  assert (G : forall n t, (String.length t < n)%nat -> P t).
  { induction n as [| n IH]; intros t Hlt; [lia |].
    apply H. intros u Hu. apply IH. lia. }
  apply (G (S (String.length s))). lia.
Qed.

Lemma contains_char_append :
  forall (c : ascii) (a b : string),
    contains (String c "") (a ++ b)
    = contains (String c "") a || contains (String c "") b.
Proof.
  intros c; induction a as [| x a IH]; intros b.
  - cbn [append]. destruct b; reflexivity.
  - cbn [append]. rewrite !contains_char_cons, IH. apply orb_assoc.
Qed.

Lemma all_bytes_append :
  forall p a b, all_bytes p (a ++ b) = all_bytes p a && all_bytes p b.
Proof.
  intros p; induction a as [| x a IH]; intros b; cbn; [reflexivity |].
  now rewrite IH, andb_assoc.
Qed.

(** *** The white space characters *)

Lemma isspace_spaces : forall w, isspace w = true <-> In w spaces.
Proof.
  intros w. unfold isspace. rewrite existsb_exists. split.
  - intros (x & Hin & E). apply String.eqb_eq in E. now subst.
  - intros H. exists w. split; [exact H | apply String.eqb_refl].
Qed.

(** Each white space character is the encoding of one character, and the
    line feed is in none but itself. *)
Lemma space_one_character : forall w, In w spaces -> one_character w = true.
Proof.
  assert (H : forallb one_character spaces = true) by (vm_compute; reflexivity).
  intros w Hin. rewrite forallb_forall in H. auto.
Qed.

Lemma space_with_line_feed :
  forall w u v, In w spaces -> w = u ++ String LF v -> u = "" /\ v = "".
Proof.
  assert (H : forallb (fun w => (w =? nl) || negb (contains nl w)) spaces = true)
    by (vm_compute; reflexivity).
  intros w u v Hin E. rewrite forallb_forall in H. specialize (H w Hin).
  assert (C : contains nl w = true).
  { rewrite E. unfold nl. rewrite contains_char_append, contains_char_cons,
      Ascii.eqb_refl. cbn. apply orb_true_r. }
  rewrite C in H. cbn [negb] in H. rewrite orb_false_r in H.
  apply String.eqb_eq in H. rewrite H in E. unfold nl in E.
  destruct u as [| x [| y u]]; cbn in E.
  - injection E as <-. auto.
  - injection E as _ E. discriminate.
  - injection E as _ E. discriminate.
Qed.

Lemma space_nonempty : forall w, In w spaces -> w <> "".
Proof.
  intros w Hin E. apply space_one_character in Hin. rewrite E in Hin.
  discriminate.
Qed.

Lemma space_leading :
  forall w c x, In w spaces -> w = String c x -> leading c = true.
Proof.
  intros w c x Hin ->. apply space_one_character in Hin. cbn in Hin.
  now apply andb_prop in Hin as [H _].
Qed.

Lemma space_following :
  forall w u c x,
    In w spaces -> w = u ++ String c x -> u <> "" -> leading c = false.
Proof.
  intros w u c x Hin -> Hu. apply space_one_character in Hin.
  destruct u as [| a u]; [congruence |]. cbn [append one_character] in Hin.
  apply andb_prop in Hin as [_ H]. rewrite all_bytes_append in H.
  apply andb_prop in H as [_ H]. cbn in H. apply andb_prop in H as [H _].
  now apply negb_true_iff in H.
Qed.

(** *** Texts of white space *)

Lemma white_app : forall a b, white a -> white b -> white (a ++ b).
Proof.
  intros a b Ha Hb. induction Ha as [| w s Hw Hs IH]; [exact Hb |].
  rewrite append_assoc. now constructor.
Qed.

Lemma white_space : forall w, In w spaces -> white w.
Proof.
  intros w H. rewrite <- (append_nil_r w). constructor; [exact H | constructor].
Qed.

Lemma white_first :
  forall s, white s -> s <> "" -> starts_with_space s.
Proof.
  intros s H Hne. destruct H as [| w s Hw Hs]; [congruence |].
  exists w, s. auto.
Qed.

Lemma white_last :
  forall s, white s -> s <> "" -> ends_with_space s.
Proof.
  intros s H. induction H as [| w s Hw Hs IH]; intros Hne; [congruence |].
  destruct s as [| c s].
  - exists "", w. split; [exact Hw | now rewrite append_nil_r].
  - destruct IH as (l & w' & Hw' & E); [discriminate |].
    exists (w ++ l), w'. split; [exact Hw' |].
    now rewrite E, append_assoc.
Qed.

(** A text of white space that ends with a text of white space starts
    with one: white space characters do not overlap. *)
Lemma white_cancel_right :
  forall x, white x -> forall u r, x = u ++ r -> white r -> white u.
Proof.
  intros x H. induction H as [| w x' Hw Hx IH]; intros u r E Hr.
  - destruct u; [constructor | discriminate].
  - destruct (append_eq_cases _ _ _ _ E) as [(e & -> & Ee) | (e & Ew & Er)].
    + constructor; [exact Hw |]. now apply (IH e r).
    + destruct u as [| a u]; [constructor |].
      destruct e as [| c e].
      * rewrite append_nil_r in Ew. subst w. now apply white_space.
      * exfalso.
        assert (Hc : leading c = false)
          by (apply (space_following w (String a u) c e); auto; discriminate).
        destruct (white_first r Hr) as (w' & r' & Hw' & Er');
          [rewrite Er; discriminate |].
        rewrite Er in Er'. destruct w' as [| c' w''];
          [now apply space_nonempty in Hw' |].
        cbn [append] in Er'. injection Er' as -> _.
        rewrite (space_leading _ _ _ Hw' eq_refl) in Hc. discriminate.
Qed.

(** *** [lstrip] *)

Lemma lstrip_step :
  forall s,
    lstrip s = match after_space s with
               | Some rest => lstrip rest
               | None => s
               end.
Proof.
  intros [| a [| b [| c s]]]; [reflexivity | | |]; unfold after_space;
    cbn [lstrip].
  - destruct (isspace (String a "")); reflexivity.
  - destruct (isspace (String a "")); [reflexivity |].
    destruct (isspace (String a (String b ""))); reflexivity.
  - destruct (isspace (String a "")); [reflexivity |].
    destruct (isspace (String a (String b ""))); [reflexivity |].
    destruct (isspace (String a (String b (String c "")))); reflexivity.
Qed.

Lemma after_space_sound :
  forall s rest,
    after_space s = Some rest -> exists w, In w spaces /\ s = w ++ rest.
Proof.
  intros [| a [| b [| c s]]] rest H; unfold after_space in H;
    try discriminate.
  - destruct (isspace (String a "")) eqn:A; [| discriminate].
    injection H as <-. apply isspace_spaces in A. eauto.
  - destruct (isspace (String a "")) eqn:A.
    { injection H as <-. apply isspace_spaces in A.
      exists (String a ""). auto. }
    destruct (isspace (String a (String b ""))) eqn:B; [| discriminate].
    injection H as <-. apply isspace_spaces in B. eauto.
  - destruct (isspace (String a "")) eqn:A.
    { injection H as <-. apply isspace_spaces in A.
      exists (String a ""). auto. }
    destruct (isspace (String a (String b ""))) eqn:B.
    { injection H as <-. apply isspace_spaces in B.
      exists (String a (String b "")). auto. }
    destruct (isspace (String a (String b (String c "")))) eqn:C;
      [| discriminate].
    injection H as <-. apply isspace_spaces in C.
    exists (String a (String b (String c ""))). auto.
Qed.

Lemma after_space_complete :
  forall w rest, In w spaces -> after_space (w ++ rest) = Some rest.
Proof.
  intros w rest H. unfold spaces, whitespace in H. cbn [map In] in H.
  repeat (destruct H as [<- | H]; [vm_compute; reflexivity |]).
  destruct H.
Qed.

Lemma after_space_none :
  forall s, after_space s = None -> ~ starts_with_space s.
Proof.
  intros s H (w & r & Hw & ->).
  rewrite after_space_complete in H by assumption. discriminate.
Qed.

Lemma after_space_shorter :
  forall s rest,
    after_space s = Some rest -> (String.length rest < String.length s)%nat.
Proof.
  intros s rest H. apply after_space_sound in H as (w & Hw & ->).
  apply space_nonempty in Hw. rewrite length_append.
  destruct w; [congruence | cbn; lia].
Qed.

Lemma lstrip_space :
  forall w s, In w spaces -> lstrip (w ++ s) = lstrip s.
Proof.
  intros w s H. rewrite lstrip_step.
  now rewrite after_space_complete by assumption.
Qed.

Lemma lstrip_white : forall l s, white l -> lstrip (l ++ s) = lstrip s.
Proof.
  intros l s H. induction H as [| w l Hw Hl IH]; [reflexivity |].
  now rewrite append_assoc, lstrip_space.
Qed.

Lemma lstrip_fixed : forall s, ~ starts_with_space s -> lstrip s = s.
Proof.
  intros s H. rewrite lstrip_step.
  destruct (after_space s) as [rest |] eqn:E; [| reflexivity].
  apply after_space_sound in E as (w & Hw & ->).
  exfalso. apply H. exists w, rest. auto.
Qed.

(** What [lstrip] removes is white space, and what it leaves does not
    start with white space. *)
Lemma lstrip_splits :
  forall s,
    (exists l, white l /\ s = l ++ lstrip s) /\ ~ starts_with_space (lstrip s).
Proof.
  induction s as [s IH] using string_length_ind.
  rewrite lstrip_step. destruct (after_space s) as [rest |] eqn:E.
  - pose proof (after_space_shorter _ _ E) as L.
    apply after_space_sound in E as (w & Hw & ->).
    destruct (IH rest L) as [(l & Hl & El) Hn]. split; [| exact Hn].
    exists (w ++ l). split; [now constructor |].
    rewrite append_assoc. now rewrite <- El.
  - split; [exists ""; split; [constructor | reflexivity] |].
    now apply after_space_none.
Qed.

Lemma lstrip_empty : forall s, lstrip s = "" <-> white s.
Proof.
  intros s. split.
  - intros E. destruct (lstrip_splits s) as [(l & Hl & El) _].
    rewrite E, append_nil_r in El. now subst.
  - intros H. rewrite <- (append_nil_r s). now rewrite lstrip_white.
Qed.

(** *** [rstrip] *)

Lemma rstrip_splits :
  forall s,
    (exists r, white r /\ s = rstrip s ++ r) /\ ~ ends_with_space (rstrip s).
Proof.
  induction s as [| c s [(r & Hr & Er) Hn]].
  - split; [exists ""; split; [constructor | reflexivity] |].
    intros (l & w & Hw & E). apply space_nonempty in Hw.
    destruct l, w; cbn in E; congruence.
  - cbn [rstrip]. destruct (lstrip (String c s) =? "") eqn:B.
    + apply String.eqb_eq, lstrip_empty in B. split.
      * exists (String c s). split; [exact B | reflexivity].
      * intros (l & w & Hw & E). apply space_nonempty in Hw.
        destruct l, w; cbn in E; congruence.
    + apply String.eqb_neq in B. split.
      * exists r. split; [exact Hr |]. cbn [append]. now rewrite <- Er.
      * intros (l & w & Hw & E). destruct l as [| a l].
        -- apply B, lstrip_empty. cbn [append] in E.
           rewrite Er, <- (append_nil_r (String c (rstrip s ++ r))).
           change (String c (rstrip s ++ r)) with (String c (rstrip s) ++ r).
           rewrite E, append_nil_r. apply white_app; [| exact Hr].
           now apply white_space.
        -- cbn [append] in E. injection E as _ E.
           apply Hn. exists l, w. auto.
Qed.

Lemma rstrip_fixed : forall s, ~ ends_with_space s -> rstrip s = s.
Proof.
  intros s H. destruct (rstrip_splits s) as [(r & Hr & Er) _].
  destruct r as [| c r]; [now rewrite append_nil_r in Er |].
  exfalso. apply H.
  destruct (white_last _ Hr) as (l & w & Hw & E); [discriminate |].
  exists (rstrip s ++ l), w. split; [exact Hw |].
  now rewrite append_assoc, <- E.
Qed.

(** Trimming on the right a text followed by white space. *)
Lemma rstrip_white :
  forall t r, white r -> ~ ends_with_space t -> rstrip (t ++ r) = t.
Proof.
  induction t as [| c t IH]; intros r Hr Hn.
  - cbn [append]. destruct r as [| c r]; [reflexivity |].
    cbn [rstrip]. apply lstrip_empty in Hr. now rewrite Hr.
  - cbn [append rstrip].
    destruct (lstrip (String c (t ++ r)) =? "") eqn:B.
    + exfalso. apply String.eqb_eq, lstrip_empty in B.
      apply Hn, white_last; [| discriminate].
      now apply (white_cancel_right _ B (String c t) r).
    + f_equal. apply IH; [exact Hr |].
      intros (l & w & Hw & ->). apply Hn. exists (String c l), w. auto.
Qed.

(** *** [strip] *)

(** [strip] trims: it removes white space at the two ends, and all of
    it. *)
Lemma strip_trims : forall s, trimmed_to s (strip s).
Proof.
  intros s. unfold strip.
  destruct (lstrip_splits s) as [(l & Hl & El) Hs].
  destruct (rstrip_splits (lstrip s)) as [(r & Hr & Er) He].
  split; [| split].
  - exists l, r. split; [exact Hl |]. split; [exact Hr |].
    now rewrite <- Er.
  - intros (w & x & Hw & E). apply Hs. exists w, (x ++ r). split; [exact Hw |].
    now rewrite Er, E, append_assoc.
  - exact He.
Qed.

(** A text before white space starts as the text does. *)
Lemma starts_with_space_before_white :
  forall t r,
    t <> "" -> white r -> starts_with_space (t ++ r) -> starts_with_space t.
Proof.
  intros t r Hne Hr (w & x & Hw & E).
  destruct (append_eq_cases _ _ _ _ E) as [(e & Ew & Er) | (e & Et & _)].
  - destruct e as [| c e].
    + rewrite append_nil_r in Ew. exists w, "". split; [exact Hw |].
      now rewrite append_nil_r.
    + exfalso.
      assert (Hc : leading c = false)
        by (apply (space_following w t c e); auto).
      destruct (white_first r Hr) as (w' & r' & Hw' & Er');
        [rewrite Er; discriminate |].
      rewrite Er in Er'. destruct w' as [| c' w''];
        [now apply space_nonempty in Hw' |].
      cbn [append] in Er'. injection Er' as -> _.
      rewrite (space_leading _ _ _ Hw' eq_refl) in Hc. discriminate.
  - exists w, e. auto.
Qed.

(** There is one way of trimming a text, and [strip] is it. *)
Lemma trimmed_to_strip : forall s t, trimmed_to s t -> strip s = t.
Proof.
  intros s t [(l & r & Hl & Hr & ->) [Hs He]]. unfold strip.
  rewrite lstrip_white by assumption.
  destruct t as [| c t].
  - cbn [append]. apply lstrip_empty in Hr. now rewrite Hr.
  - rewrite lstrip_fixed.
    + now apply rstrip_white.
    + intros H. apply Hs.
      apply (starts_with_space_before_white _ r); [discriminate | assumption ..].
Qed.

Lemma strip_white : forall s, white s -> strip s = "".
Proof.
  intros s H. unfold strip. apply lstrip_empty in H. now rewrite H.
Qed.

Lemma strip_empty : forall s, strip s = "" -> white s.
Proof.
  intros s H. destruct (strip_trims s) as [(l & r & Hl & Hr & E) _].
  rewrite H in E. cbn [append] in E. rewrite E. now apply white_app.
Qed.

Lemma strip_fixed :
  forall s, ~ starts_with_space s -> ~ ends_with_space s -> strip s = s.
Proof.
  intros s Hs He. apply trimmed_to_strip. split; [| auto].
  exists "", "". repeat split; try constructor. now rewrite append_nil_r.
Qed.

(** What [strip] leaves of a text without a character is without it. *)
Lemma strip_without :
  forall c s,
    contains (String c "") s = false -> contains (String c "") (strip s) = false.
Proof.
  intros c s H. destruct (strip_trims s) as [(l & r & _ & _ & E) _].
  rewrite E, !contains_char_append in H.
  apply orb_false_iff in H as [_ H]. now apply orb_false_iff in H as [H _].
Qed.

(** *** Lines *)

(** No piece of a split holds the separator. *)
Lemma split_without_separator :
  forall sep s piece,
    In piece (split sep s) -> contains (String sep "") piece = false.
Proof.
  intros sep; induction s as [| c s IH]; intros piece H.
  - cbn in H. destruct H as [<- | []]. reflexivity.
  - cbn [split] in H. destruct (Ascii.eqb c sep) eqn:E.
    + destruct H as [<- | H]; [reflexivity | auto].
    + destruct (split sep s) as [| h t] eqn:S.
      * destruct H as [<- | []].
        rewrite contains_char_cons, Ascii.eqb_sym, E. reflexivity.
      * destruct H as [<- | H].
        -- rewrite contains_char_cons, Ascii.eqb_sym, E.
           apply IH. now left.
        -- apply IH. now right.
Qed.

Lemma split_nonempty : forall sep s, split sep s <> [].
Proof.
  intros sep [| c s]; cbn; [discriminate |].
  destruct (Ascii.eqb c sep); [discriminate |].
  destruct (split sep s); discriminate.
Qed.

(** The pieces of a split, joined by the separator, are the text. *)
Lemma join_split :
  forall sep s, join (String sep "") (split sep s) = s.
Proof.
  intros sep; induction s as [| c s IH]; [reflexivity |].
  cbn [split]. pose proof (split_nonempty sep s) as N.
  destruct (Ascii.eqb_spec c sep) as [-> | _];
    destruct (split sep s) as [| h t]; try congruence.
  - change (join (String sep "") ("" :: h :: t))
      with (String sep (join (String sep "") (h :: t))).
    now rewrite IH.
  - rewrite <- IH. destruct t; reflexivity.
Qed.

Lemma split_whole :
  forall sep s, contains (String sep "") s = false -> split sep s = [s].
Proof.
  intros sep; induction s as [| c s IH]; intros H; [reflexivity |].
  rewrite contains_char_cons in H. apply orb_false_iff in H as [Hc H].
  cbn [split]. rewrite Ascii.eqb_sym, Hc, IH by assumption. reflexivity.
Qed.

Lemma split_at_separator :
  forall sep x rest,
    contains (String sep "") x = false ->
    split sep (x ++ String sep rest) = x :: split sep rest.
Proof.
  intros sep; induction x as [| c x IH]; intros rest H.
  - cbn. now rewrite Ascii.eqb_refl.
  - rewrite contains_char_cons in H. apply orb_false_iff in H as [Hc H].
    cbn [append split]. rewrite Ascii.eqb_sym, Hc, IH by assumption.
    reflexivity.
Qed.

(** Each line is trimmed by [strip]. *)
Lemma strip_trims_each :
  forall pieces, Forall2 trimmed_to pieces (map strip pieces).
Proof.
  induction pieces as [| p pieces IH]; cbn [map]; constructor;
    [apply strip_trims | exact IH].
Qed.

(** Pieces without line feed, joined by line feeds and split again, are
    the pieces. *)
Lemma split_join_pieces :
  forall p pieces,
    Forall (fun piece => contains nl piece = false) (p :: pieces) ->
    split LF (join nl (p :: pieces)) = p :: pieces.
Proof.
  intros p pieces; revert p. induction pieces as [| y pieces IH]; intros p H.
  - apply split_whole. exact (Forall_inv H).
  - change (join nl (p :: y :: pieces))
      with (p ++ String LF (join nl (y :: pieces))).
    rewrite split_at_separator by exact (Forall_inv H).
    f_equal. apply IH. exact (Forall_inv_tail H).
Qed.

Lemma trimmed_to_each :
  forall pieces trimmed,
    Forall2 trimmed_to pieces trimmed -> trimmed = map strip pieces.
Proof.
  intros pieces trimmed H. induction H as [| p t pieces trimmed Hp _ IH];
    [reflexivity |].
  cbn [map]. apply trimmed_to_strip in Hp. now rewrite Hp, IH.
Qed.

(** The lines that the fallback reads are the non-empty trimmed lines of
    the text, and there are no others. *)
Lemma nonempty_trimmed_lines_trims :
  forall text, trimmed_lines text (nonempty_trimmed_lines text).
Proof.
  intros text.
  exists (strip text), (split LF (strip text)),
    (map strip (split LF (strip text))).
  split; [apply strip_trims |].
  split; [symmetry; apply join_split |].
  split; [apply Forall_forall; intros p; apply split_without_separator |].
  split; [apply strip_trims_each | reflexivity].
Qed.

Lemma trimmed_lines_unique :
  forall text lines,
    trimmed_lines text lines -> lines = nonempty_trimmed_lines text.
Proof.
  intros text lines (core & pieces & trimmed & Hc & Hj & Hp & Ht & ->).
  apply trimmed_to_strip in Hc. apply trimmed_to_each in Ht.
  unfold nonempty_trimmed_lines. rewrite Hc, Hj, Ht.
  destruct pieces as [| p pieces]; [reflexivity |].
  now rewrite split_join_pieces.
Qed.
(* ===================================================================== *)
(** ** Properties: the cultural-context classifier *)
(* ===================================================================== *)

(** The key that [_get_cultural_key] returns does not depend on the
    region: [region_lower] is computed and never read. *)
Lemma get_cultural_key_ignores_region :
  forall cultural_context region region',
    GenerateAnalogy._get_cultural_key cultural_context region
    = GenerateAnalogy._get_cultural_key cultural_context region'.
Proof. intros; reflexivity. Qed.

(** C1. On cultural_context "Urban" and region "Tribal Belt" the code
    returns 'urban_india', where the classifier of the specification, which
    also searches the region, gives 'tribal_areas'. *)
Theorem get_cultural_key_urban_tribal_belt :
  GenerateAnalogy._get_cultural_key "Urban" "Tribal Belt" = "urban_india"
  /\ spec_cultural_key "Urban" "Tribal Belt" = "tribal_areas".
Proof. split; reflexivity. Qed.

(** Where the region holds none of the four markers, the code and the
    specification agree. *)
Lemma get_cultural_key_agrees_on_plain_region :
  forall cultural_context region,
    contains "tribal" (lower region) = false ->
    contains "adivasi" (lower region) = false ->
    contains "urban" (lower region) = false ->
    contains "city" (lower region) = false ->
    GenerateAnalogy._get_cultural_key cultural_context region
    = spec_cultural_key cultural_context region.
Proof.
  intros c r Ht Ha Hu Hc.
  unfold GenerateAnalogy._get_cultural_key, spec_cultural_key.
  rewrite Ht, Ha, Hu, Hc.
  now rewrite !orb_false_r.
Qed.

Lemma regional_contexts_has_key :
  forall cultural_context region,
    exists info,
      Dict.get (GenerateAnalogy._get_cultural_key cultural_context region)
        GenerateAnalogy.regional_contexts = Some info.
Proof.
  intros c r. unfold GenerateAnalogy._get_cultural_key.
  destruct (contains "tribal" (lower c) || contains "adivasi" (lower c));
    [| destruct (contains "urban" (lower c) || contains "city" (lower c))];
    eexists; reflexivity.
Qed.

(** C10. The key that the classifier returns is one of the three keys of
    [regional_contexts]; the lookup of the analogy builder finds an entry
    and its default is never the result. *)
Theorem cultural_key_in_regional_contexts :
  forall cultural_context region (default : GenerateAnalogy.RegionalInfo),
    let key := GenerateAnalogy._get_cultural_key cultural_context region in
    In key ["tribal_areas"; "urban_india"; "rural_india"]
    /\ In key (map fst GenerateAnalogy.regional_contexts)
    /\ exists info,
         Dict.get key GenerateAnalogy.regional_contexts = Some info
         /\ Dict.get_default key default GenerateAnalogy.regional_contexts = info.
Proof.
  intros c r default key; subst key.
  unfold GenerateAnalogy._get_cultural_key.
  destruct (contains "tribal" (lower c) || contains "adivasi" (lower c)).
  - cbn; repeat split; auto. eexists; split; reflexivity.
  - destruct (contains "urban" (lower c) || contains "city" (lower c));
      cbn; repeat split; auto; eexists; split; reflexivity.
Qed.

(* ===================================================================== *)
(** ** Properties: the language steps of the analogy service *)
(* ===================================================================== *)

Section LanguageSteps.

Variable model : oracle.

(** The log only grows, by the prompt sent. *)
Lemma generate_content_run :
  forall prompt log,
    generate_content model prompt log
    = (model (List.length log) prompt, (log ++ [prompt])%list).
Proof. reflexivity. Qed.

(** [_translate_response] in full: the call it makes and what it returns
    on each outcome of that call. *)
Lemma translate_response_run :
  forall response preferred_language detected_language log,
    GenerateAnalogy._translate_response model response preferred_language
      detected_language log
    = if negb (lower preferred_language =? "english")
         && negb (lower detected_language =? "english")
      then
        let prompt :=
          GenerateAnalogy.response_translation_prompt response
            preferred_language in
        (Return match model (List.length log) prompt with
                | Return text => strip text
                | Raise _ => response
                end,
         (log ++ [prompt])%list)
      else (Return response, log).
Proof.
  intros response p d log.
  unfold GenerateAnalogy._translate_response, try_except.
  destruct (negb (lower p =? "english") && negb (lower d =? "english")).
  - unfold bind. rewrite generate_content_run.
    destruct (model _ _); reflexivity.
  - reflexivity.
Qed.



End LanguageSteps.

(** C7. The translate-out step sends the translation prompt to the model
    exactly when the lower-cased preferred language and the lower-cased
    detected language both differ from "english"; in every other case it
    sends nothing and returns the answer unchanged, as it does for the
    detected language "English" and the preferred language "Hindi". *)
Theorem translate_response_only_when_both_non_english :
  forall (model : oracle) response preferred_language detected_language log,
    let run :=
      GenerateAnalogy._translate_response model response preferred_language
        detected_language log in
    let prompt :=
      GenerateAnalogy.response_translation_prompt response preferred_language in
    (if negb (lower preferred_language =? "english")
        && negb (lower detected_language =? "english")
     then
       snd run = (log ++ [prompt])%list
       /\ fst run = Return match model (List.length log) prompt with
                           | Return text => strip text
                           | Raise _ => response
                           end
     else run = (Return response, log))
    /\ GenerateAnalogy._translate_response model response "Hindi" "English" log
       = (Return response, log).
Proof.
  intros model response p d log run prompt; subst run prompt.
  split; [| reflexivity].
  rewrite translate_response_run.
  destruct (negb _ && negb _); cbn; auto.
Qed.

(** C8. If the language-detection call raises, or if it answers with a
    language other than English and the translate-in call raises, then
    [_process_question] does not raise: it returns ("English", question).
    The language that the answer names is the answer without the white
    space at its two ends, in any letter case; the translate-in call is
    the one that asks to translate from that language. *)
Theorem process_question_falls_back_to_english :
  forall (model : oracle) question preferred_language log,
    (exists msg,
        model (List.length log) (GenerateAnalogy.detection_prompt question)
        = Raise msg)
    \/ (exists text language msg,
           model (List.length log) (GenerateAnalogy.detection_prompt question)
           = Return text
           /\ trimmed_to text language
           /\ lower language <> "english"
           /\ model (S (List.length log))
                (GenerateAnalogy.translation_prompt language question)
              = Raise msg) ->
    fst (GenerateAnalogy._process_question model question preferred_language log)
    = Return ("English", question).
Proof.
  intros model q p log H.
  unfold GenerateAnalogy._process_question, try_except, bind.
  rewrite generate_content_run.
  destruct H as [[msg H] | (text & language & msg & H1 & T & H2 & H3)].
  - rewrite H. reflexivity.
  - rewrite H1. apply trimmed_to_strip in T. rewrite T.
    apply String.eqb_neq in H2. rewrite H2. cbn [negb].
    rewrite generate_content_run.
    rewrite length_app, Nat.add_comm. cbn [List.length Nat.add].
    rewrite H3. reflexivity.
Qed.

Lemma process_question_falls_back_to_english_witness :
  fst (GenerateAnalogy._process_question model_failing_after_detection
         "ye barish kyu hoti hai?" "hindi" [])
  = Return ("English", "ye barish kyu hoti hai?").
Proof.
  apply (process_question_falls_back_to_english model_failing_after_detection
           "ye barish kyu hoti hai?" "hindi" []).
  right.
  exists (utf8 160 ++ "Hindi" ++ nl), (strip (utf8 160 ++ "Hindi" ++ nl)),
    "503 The model is overloaded".
  split; [reflexivity |]. split; [apply strip_trims |].
  split; [vm_compute; discriminate | reflexivity].
Defined.

(* ===================================================================== *)
(** ** Properties: the prompts *)
(* ===================================================================== *)

Lemma sent_generate_content :
  forall (model : oracle) prompt log,
    sent (generate_content model prompt) log = [prompt].
Proof.
  intros. unfold sent. rewrite generate_content_run. cbn [snd].
  rewrite skipn_app, Nat.sub_diag, skipn_all. reflexivity.
Qed.

(** The lookup of "rural_india" that [_create_analogy] starts with finds
    its entry. *)
Lemma rural_india_present :
  exists info,
    Dict.get "rural_india" GenerateAnalogy.regional_contexts = Some info.
Proof. eexists; reflexivity. Qed.

Lemma create_analogy_run :
  forall (model : oracle) req translated_question log,
    GenerateAnalogy._create_analogy model req translated_question log
    = generate_content model
        (GenerateAnalogy.analogy_prompt req (regional_info_of req)
           translated_question) log.
Proof.
  intros model req tq log.
  unfold GenerateAnalogy._create_analogy, regional_info_of.
  destruct (regional_contexts_has_key
              (GenerateAnalogy.cultural_context (GenerateAnalogy.student_context req))
              (GenerateAnalogy.region (GenerateAnalogy.student_context req)))
    as [info Hinfo].
  unfold GenerateAnalogy.subscript, bind. cbn [Dict.get String.eqb Ascii.eqb Bool.eqb].
  unfold Dict.get_default. rewrite Hinfo. reflexivity.
Qed.

(** C9. The prompt that each service sends is a function of the request
    (and, for the analogy, of the translated question) alone: two runs on
    the same request send the same prompt, whatever the model answers,
    whatever the clock shows and whatever was sent before. *)
Theorem prompt_construction_is_deterministic {interpreter : Json.Interpreter} :
  (forall (model model' : oracle) req translated_question log log',
      sent (GenerateAnalogy._create_analogy model req translated_question) log
      = sent (GenerateAnalogy._create_analogy model' req translated_question) log'
      /\ sent (GenerateAnalogy._create_analogy model req translated_question) log
         = [GenerateAnalogy.analogy_prompt req (regional_info_of req)
              translated_question])
  /\ (forall (model model' : oracle) now now' req log log',
         sent (PersonalizedExercise.generate_exercises model now req) log
         = sent (PersonalizedExercise.generate_exercises model' now' req) log'
         /\ sent (PersonalizedExercise.generate_exercises model now req) log
            = [PersonalizedExercise._create_exercise_prompt req]).
Proof.
  split.
  - intros model model' req tq log log'.
    assert (H : forall (m : oracle) l,
               sent (GenerateAnalogy._create_analogy m req tq) l
               = [GenerateAnalogy.analogy_prompt req (regional_info_of req) tq]).
    { intros m l. unfold sent. rewrite create_analogy_run.
      apply (sent_generate_content m). }
    rewrite !H. auto.
  - intros model model' now now' req log log'.
    assert (H : forall (m : oracle) t l,
               sent (PersonalizedExercise.generate_exercises m t req) l
               = [PersonalizedExercise._create_exercise_prompt req]).
    { intros m t l. unfold sent.
      unfold PersonalizedExercise.generate_exercises, try_except, bind.
      rewrite generate_content_run.
      destruct (m _ _) as [text | msg]; cbn [snd];
        [unfold lift;
         destruct (PersonalizedExercise._parse_exercises_response text req) |];
        cbn [snd ret];
        rewrite skipn_app, Nat.sub_diag, skipn_all; reflexivity. }
    rewrite !H. auto.
Qed.

(* ===================================================================== *)
(** ** Properties: validation of the inbound request *)
(* ===================================================================== *)

(** The analogy endpoint sends nothing to the model. *)
Lemma generate_local_analogy_sends_nothing :
  forall data log, snd (GenerateAnalogy.generate_local_analogy data log) = log.
Proof.
  intros data log. unfold GenerateAnalogy.generate_local_analogy.
  destruct (PyVal.is_empty data || negb (Dict.mem "student_context" data)
            || negb (Dict.mem "question" data)); [reflexivity |].
  destruct (Dict.get "student_context" data) as [[] |]; try reflexivity.
  destruct (GenerateAnalogy.typed_student_context d); [| reflexivity].
  destruct (GenerateAnalogy.typed_analogy_request s data); reflexivity.
Qed.

(** The exercise endpoint sends nothing to the model. *)
Lemma generate_personalized_exercises_sends_nothing :
  forall Response (jsonify : pyval -> result Response) data log,
    snd (PersonalizedExercise.generate_personalized_exercises Response jsonify
           data log) = log.
Proof.
  intros Response jsonify data log.
  unfold PersonalizedExercise.generate_personalized_exercises, try_except, bind,
    lift.
  destruct (PyVal.is_empty data || negb (Dict.mem "student_profile" data)).
  - destruct (jsonify _); [reflexivity |]. destruct (jsonify _); reflexivity.
  - destruct (Dict.get "student_profile" data) as [[] |]; cbn [raise];
      try (destruct (jsonify _); reflexivity).
    destruct (PersonalizedExercise.typed_student_profile d); [| reflexivity].
    destruct (PersonalizedExercise.typed_exercise_request s data); reflexivity.
Qed.

(** A request mapping without 'student_context' or without 'question'
    makes the analogy endpoint return the failure envelope with the message
    "Student context and question are required"; a request mapping without
    'student_profile' makes the exercise endpoint return, with status 400,
    the response that [jsonify] makes of the failure envelope with the
    message "Student profile is required", where [jsonify] returns one.
    Neither sends a prompt to the model: the log of prompts is unchanged. *)
Lemma missing_required_key_is_refused :
  forall (data : Dict.t pyval) (log : Log),
    (Dict.mem "student_context" data = false
     \/ Dict.mem "question" data = false ->
     GenerateAnalogy.generate_local_analogy data log
     = (Return
          (GenerateAnalogy.Envelope
             (PyDict
                [("success", PyBool false);
                 ("error", PyStr "Student context and question are required")])),
        log))
    /\ (forall Response (jsonify : pyval -> result Response) body,
           Dict.mem "student_profile" data = false ->
           jsonify (PyDict [("success", PyBool false);
                            ("error", PyStr "Student profile is required")])
           = Return body ->
           PersonalizedExercise.generate_personalized_exercises Response jsonify
             data log
           = (Return (PersonalizedExercise.Responded body 400), log)).
Proof.
  intros data log; split.
  - intros H. unfold GenerateAnalogy.generate_local_analogy.
    assert (E : PyVal.is_empty data || negb (Dict.mem "student_context" data)
                || negb (Dict.mem "question" data) = true).
    { destruct H as [H | H]; rewrite H; cbn [negb];
        rewrite ?orb_true_r; reflexivity. }
    rewrite E. reflexivity.
  - intros Response jsonify body H J.
    unfold PersonalizedExercise.generate_personalized_exercises, try_except,
      bind, lift.
    rewrite H. cbn [negb]. rewrite orb_true_r, J. reflexivity.
Qed.

Lemma missing_required_key_is_refused_example :
  GenerateAnalogy.generate_local_analogy data_without_question []
  = (Return
       (GenerateAnalogy.Envelope
          (PyDict
             [("success", PyBool false);
              ("error", PyStr "Student context and question are required")])),
     [])
  /\ PersonalizedExercise.generate_personalized_exercises pyval jsonify_payload
       data_without_student_profile []
     = (Return
          (PersonalizedExercise.Responded
             (PyDict [("success", PyBool false);
                      ("error", PyStr "Student profile is required")]) 400),
        []).
Proof.
  destruct (missing_required_key_is_refused data_without_question [])
    as [A _].
  destruct (missing_required_key_is_refused data_without_student_profile [])
    as [_ E].
  split.
  - apply A. right. reflexivity.
  - apply (E pyval jsonify_payload); reflexivity.
Qed.

(** Where [jsonify] raises on the envelope of the refusal, the handler of
    the endpoint calls it again, on the message of the exception: the
    endpoint answers with status 500, or raises if that call raises too.
    No prompt is sent in either case. *)
Lemma missing_profile_when_jsonify_raises :
  forall Response (jsonify : pyval -> result Response) data log msg,
    Dict.mem "student_profile" data = false ->
    jsonify (PyDict [("success", PyBool false);
                     ("error", PyStr "Student profile is required")])
    = Raise msg ->
    PersonalizedExercise.generate_personalized_exercises Response jsonify
      data log
    = (match jsonify (PyDict [("success", PyBool false);
                              ("error", PyStr msg)]) with
       | Return body => Return (PersonalizedExercise.Responded body 500)
       | Raise msg' => Raise msg'
       end,
       log).
Proof.
  intros Response jsonify data log msg H J.
  unfold PersonalizedExercise.generate_personalized_exercises, try_except,
    bind, lift.
  rewrite H. cbn [negb]. rewrite orb_true_r, J.
  destruct (jsonify (PyDict [("success", PyBool false); ("error", PyStr msg)]));
    reflexivity.
Qed.

(** C5. The exercise endpoint on a request mapping without
    'student_profile', where [jsonify] raises, as it does where no
    application context is active: the call on the envelope of the refusal
    raises, the handler of the endpoint calls [jsonify] on the message of
    that exception, and this call raises too.  The endpoint raises: it
    returns no failure envelope.  No prompt is sent. *)
Theorem missing_profile_raises_without_application :
  forall Response (jsonify : pyval -> result Response) data log msg msg',
    Dict.mem "student_profile" data = false ->
    jsonify (PyDict [("success", PyBool false);
                     ("error", PyStr "Student profile is required")])
    = Raise msg ->
    jsonify (PyDict [("success", PyBool false); ("error", PyStr msg)])
    = Raise msg' ->
    PersonalizedExercise.generate_personalized_exercises Response jsonify
      data log
    = (Raise msg', log).
Proof.
  intros Response jsonify data log msg msg' H J J'.
  rewrite (missing_profile_when_jsonify_raises Response jsonify data log msg H J).
  now rewrite J'.
Qed.

Lemma missing_profile_raises_without_application_witness :
  PersonalizedExercise.generate_personalized_exercises pyval
    jsonify_outside_application_context data_without_student_profile []
  = (Raise "Working outside of application context.", []).
Proof.
  apply (missing_profile_raises_without_application pyval
           jsonify_outside_application_context data_without_student_profile []
           "Working outside of application context."
           "Working outside of application context."); reflexivity.
Defined.

(* ===================================================================== *)
(** ** Properties: the orchestrators *)
(* ===================================================================== *)

(** [generate_analogy] step by step: the value of each step that returns
    goes to the next one, and the message of a step that raises goes to
    the failure envelope. *)
Lemma generate_analogy_run :
  forall (model : oracle) now req log,
    let sid := GenerateAnalogy.student_id (GenerateAnalogy.student_context req) in
    GenerateAnalogy.generate_analogy model now req log
    = match GenerateAnalogy._process_question model
              (GenerateAnalogy.question req)
              (GenerateAnalogy.preferred_language req) log with
      | (Raise msg, log1) =>
          (Return (GenerateAnalogy.failure_envelope msg sid), log1)
      | (Return (detected_language, translated_question), log1) =>
          match GenerateAnalogy._create_analogy model req translated_question
                  log1 with
          | (Raise msg, log2) =>
              (Return (GenerateAnalogy.failure_envelope msg sid), log2)
          | (Return analogy_response, log2) =>
              match GenerateAnalogy._translate_response model analogy_response
                      (GenerateAnalogy.preferred_language req)
                      detected_language log2 with
              | (Raise msg, log3) =>
                  (Return (GenerateAnalogy.failure_envelope msg sid), log3)
              | (Return final_response, log3) =>
                  (Return
                     (GenerateAnalogy.success_envelope req detected_language
                        translated_question final_response now),
                   log3)
              end
          end
      end.
Proof.
  intros model now req log sid; subst sid.
  unfold GenerateAnalogy.generate_analogy, try_except, bind.
  destruct (GenerateAnalogy._process_question _ _ _ _) as [[[d tq] | msg] log1];
    [| reflexivity].
  destruct (GenerateAnalogy._create_analogy _ _ _ _) as [[a | msg] log2];
    [| reflexivity].
  destruct (GenerateAnalogy._translate_response _ _ _ _ _) as [[f | msg] log3];
    reflexivity.
Qed.

Lemma generate_exercises_run {interpreter : Json.Interpreter} :
  forall (model : oracle) now req log,
    let sid :=
      PersonalizedExercise.student_id (PersonalizedExercise.student_profile req) in
    let prompt := PersonalizedExercise._create_exercise_prompt req in
    PersonalizedExercise.generate_exercises model now req log
    = (match model (List.length log) prompt with
       | Raise msg => Return (PersonalizedExercise.failure_envelope msg sid)
       | Return text =>
           match PersonalizedExercise._parse_exercises_response text req with
           | Raise msg => Return (PersonalizedExercise.failure_envelope msg sid)
           | Return exercises =>
               Return (PersonalizedExercise.success_envelope req exercises now)
           end
       end,
       (log ++ [prompt])%list).
Proof.
  intros model now req log sid prompt; subst sid prompt.
  unfold PersonalizedExercise.generate_exercises, try_except, bind, lift.
  rewrite generate_content_run.
  destruct (model _ _) as [text | msg]; [| reflexivity].
  destruct (PersonalizedExercise._parse_exercises_response text req);
    reflexivity.
Qed.



(* ===================================================================== *)
(** ** The decoder never runs out of fuel *)
(* ===================================================================== *)

Section Fuel.

Context {interpreter : Json.Interpreter}.

Lemma skip_ws_length :
  forall s, (String.length (Json.skip_ws s) <= String.length s)%nat.
Proof.
  induction s as [| c s IH]; cbn; [lia |].
  destruct (Json.is_ws c); cbn; lia.
Qed.

Lemma drop_length :
  forall n s, String.length (Json.drop n s) = (String.length s - n)%nat.
Proof.
  induction n as [| n IH]; intros [| c s]; cbn; try lia. apply IH.
Qed.

Lemma startswith_length :
  forall p s, startswith p s = true -> (String.length p <= String.length s)%nat.
Proof.
  induction p as [| a p IH]; intros [| b s] H; cbn in *; try lia;
    try discriminate.
  apply andb_prop in H as [_ H]. apply IH in H. lia.
Qed.

Lemma span_digits_length :
  forall s d r,
    Json.span_digits s = (d, r) -> (String.length r <= String.length s)%nat.
Proof.
  induction s as [| c s IH]; intros d r H; cbn in H.
  - injection H as <- <-. cbn; lia.
  - destruct (Json.is_digit c).
    + destruct (Json.span_digits s) as [d' r'] eqn:E.
      injection H as <- <-. specialize (IH _ _ eq_refl). cbn; lia.
    + injection H as <- <-. lia.
Qed.

Lemma match_integer_length :
  forall s i r,
    Json.match_integer s = Some (i, r) -> (String.length r < String.length s)%nat.
Proof.
  intros [| c s] i r H; cbn in H; [discriminate |].
  destruct (Ascii.eqb c "0").
  - injection H as <- <-. cbn; lia.
  - destruct (Json.is_digit c); [| discriminate].
    destruct (Json.span_digits s) as [d' r'] eqn:E.
    injection H as <- <-. apply span_digits_length in E. cbn; lia.
Qed.

Lemma match_frac_length :
  forall s f r,
    Json.match_frac s = (f, r) -> (String.length r <= String.length s)%nat.
Proof.
  intros [| c s] f r H; cbn in H.
  - injection H as <- <-. lia.
  - destruct (Ascii.eqb c ".").
    + destruct (Json.span_digits s) as [d' r'] eqn:E.
      apply span_digits_length in E.
      destruct d'; injection H as <- <-; cbn; lia.
    + injection H as <- <-. lia.
Qed.

Lemma match_sign_length :
  forall s g r,
    Json.match_sign s = (g, r) -> (String.length r <= String.length s)%nat.
Proof.
  intros [| c s] g r H; cbn in H.
  - injection H as <- <-. lia.
  - destruct (Ascii.eqb c "-" || Ascii.eqb c "+"); injection H as <- <-;
      cbn; lia.
Qed.

Lemma match_exp_length :
  forall s e r,
    Json.match_exp s = (e, r) -> (String.length r <= String.length s)%nat.
Proof.
  intros [| c s] e r H; cbn in H.
  - injection H as <- <-. lia.
  - destruct (Ascii.eqb c "e" || Ascii.eqb c "E").
    + destruct (Json.match_sign s) as [g s''] eqn:G.
      apply match_sign_length in G.
      destruct (Json.span_digits s'') as [d' r'] eqn:E.
      apply span_digits_length in E.
      destruct d'; injection H as <- <-; cbn; lia.
    + injection H as <- <-. lia.
Qed.

Lemma match_number_length :
  forall s v r,
    Json.match_number s = Some (v, r) -> (String.length r < String.length s)%nat.
Proof.
  intros s v r H. unfold Json.match_number in H.
  set (p := match s with
            | "" => (false, s)
            | String c s' => if Ascii.eqb c "-" then (true, s') else (false, s)
            end) in H.
  assert (Hp : (String.length (snd p) <= String.length s)%nat).
  { subst p. destruct s as [| c s']; [cbn; lia |].
    destruct (Ascii.eqb c "-"); cbn; lia. }
  destruct p as [neg s1]. cbn [snd] in Hp.
  destruct (Json.match_integer s1) as [[i r1] |] eqn:I; [| discriminate].
  apply match_integer_length in I.
  destruct (Json.match_frac r1) as [f r2] eqn:F. apply match_frac_length in F.
  destruct (Json.match_exp r2) as [e r3] eqn:E. apply match_exp_length in E.
  destruct (String.eqb f "" && String.eqb e ""); injection H as <- <-; lia.
Qed.

Lemma decode_uXXXX_length :
  forall s uni, Json.decode_uXXXX s = Some uni -> (4 <= String.length s)%nat.
Proof.
  intros [| a [| b [| c [| d s]]]] uni H; try discriminate. cbn; lia.
Qed.

(** Every scanning function that returns has read at least one character. *)
Lemma scanstring_consumes :
  forall fuel s acc str r,
    Json.scanstring fuel s acc = Json.Scanned str r ->
    (String.length r < String.length s)%nat.
Proof.
  induction fuel as [| fuel IH]; intros s acc str r H; [discriminate |].
  cbn [Json.scanstring] in H.
  destruct s as [| c s']; [discriminate |]. cbn [String.length].
  destruct (Ascii.eqb c DQ); [injection H as <- <-; lia |].
  destruct (Ascii.eqb c "\").
  - destruct s' as [| esc s'']; [discriminate |]. cbn [String.length].
    destruct (Ascii.eqb esc "u").
    + destruct (Json.decode_uXXXX s'') as [uni |] eqn:U; [| discriminate].
      pose proof (drop_length 4 s'') as D4.
      destruct ((55296 <=? uni)%Z && (uni <=? 56319)%Z
                && startswith "\u" (Json.drop 4 s'')).
      * destruct (Json.decode_uXXXX (Json.drop 2 (Json.drop 4 s'')));
          [| discriminate].
        destruct ((56320 <=? z)%Z && (z <=? 57343)%Z);
          apply IH in H; rewrite ?drop_length in H; lia.
      * apply IH in H. lia.
    + destruct (Json.BACKSLASH esc); [| discriminate].
      apply IH in H. lia.
  - destruct (code c <? 32)%Z; [discriminate |].
    apply IH in H. lia.
Qed.

Lemma scan_consumes :
  forall fuel,
    (forall room s v r,
        Json.scan_once fuel room s = Json.Scanned v r ->
        (String.length r < String.length s)%nat)
    /\ (forall room s pairs v r,
           Json.object_pairs fuel room s pairs = Json.Scanned v r ->
           (String.length r < String.length s)%nat)
    /\ (forall room s values v r,
           Json.array_items fuel room s values = Json.Scanned v r ->
           (String.length r < String.length s)%nat).
Proof.
  induction fuel as [| fuel (IHscan & IHobj & IHarr)];
    [repeat split; intros; discriminate |].
  repeat split.
  - intros room s v r H. cbn [Json.scan_once] in H.
    destruct s as [| c s']; [discriminate |].
    destruct (Ascii.eqb c DQ).
    { destruct (Json.scanstring fuel s' "") as [str r0 | | msg |] eqn:E;
        try discriminate.
      injection H as <- <-. apply scanstring_consumes in E. cbn; lia. }
    destruct (Ascii.eqb c "{").
    { destruct room as [| room']; [discriminate |].
      pose proof (skip_ws_length s') as W.
      destruct (Json.skip_ws s') as [| c1 r1]; [discriminate |].
      cbn [String.length] in *.
      destruct (Ascii.eqb c1 "}"); [injection H as <- <-; lia |].
      destruct (Ascii.eqb c1 DQ); [| discriminate].
      apply IHobj in H. lia. }
    destruct (Ascii.eqb c "[").
    { destruct room as [| room']; [discriminate |].
      pose proof (skip_ws_length s') as W.
      destruct (Json.skip_ws s') as [| c1 r1]; [discriminate |].
      cbn [String.length] in *.
      destruct (Ascii.eqb c1 "]"); [injection H as <- <-; lia |].
      apply IHarr in H. cbn [String.length] in H. lia. }
    destruct (Ascii.eqb c "n" && startswith "null" (String c s')) eqn:N.
    { apply andb_prop in N as [_ N]. apply startswith_length in N.
      replace r with (Json.drop 4 (String c s')) by congruence.
      rewrite drop_length. cbn in *; lia. }
    destruct (Ascii.eqb c "t" && startswith "true" (String c s')) eqn:T.
    { apply andb_prop in T as [_ T]. apply startswith_length in T.
      replace r with (Json.drop 4 (String c s')) by congruence.
      rewrite drop_length. cbn in *; lia. }
    destruct (Ascii.eqb c "f" && startswith "false" (String c s')) eqn:F.
    { apply andb_prop in F as [_ F]. apply startswith_length in F.
      replace r with (Json.drop 5 (String c s')) by congruence.
      rewrite drop_length. cbn in *; lia. }
    destruct (Json.match_number (String c s')) as [[v0 r0] |] eqn:M.
    { apply match_number_length in M.
      destruct v0 as [negative digits | literal];
        [unfold Json.parse_int in H;
         destruct (negb _ && _); [discriminate |] |];
        injection H as <- <-; exact M. }
    destruct (Ascii.eqb c "N" && startswith "NaN" (String c s')) eqn:A.
    { apply andb_prop in A as [_ A]. apply startswith_length in A.
      replace r with (Json.drop 3 (String c s')) by congruence.
      rewrite drop_length. cbn in *; lia. }
    destruct (Ascii.eqb c "I" && startswith "Infinity" (String c s')) eqn:I.
    { apply andb_prop in I as [_ I]. apply startswith_length in I.
      replace r with (Json.drop 8 (String c s')) by congruence.
      rewrite drop_length. cbn in *; lia. }
    destruct (Ascii.eqb c "-" && startswith "-Infinity" (String c s')) eqn:J;
      [| discriminate].
    apply andb_prop in J as [_ J]. apply startswith_length in J.
    replace r with (Json.drop 9 (String c s')) by congruence.
    rewrite drop_length. cbn in *; lia.
  - intros room s pairs v r H. cbn [Json.object_pairs] in H.
    destruct (Json.scanstring fuel s "") as [key r0 | | msg |] eqn:K;
      try discriminate.
    apply scanstring_consumes in K.
    pose proof (skip_ws_length r0) as W0.
    destruct (Json.skip_ws r0) as [| c r1]; [discriminate |].
    destruct (Ascii.eqb c ":"); [| discriminate].
    pose proof (skip_ws_length r1) as W1.
    destruct (Json.scan_once fuel room (Json.skip_ws r1)) as [value r2 | | msg |] eqn:V;
      try discriminate.
    apply IHscan in V.
    pose proof (skip_ws_length r2) as W2.
    destruct (Json.skip_ws r2) as [| c2 r3]; [discriminate |].
    cbn [String.length] in *.
    destruct (Ascii.eqb c2 "}"); [injection H as <- <-; lia |].
    destruct (Ascii.eqb c2 ","); [| discriminate].
    pose proof (skip_ws_length r3) as W3.
    destruct (Json.skip_ws r3) as [| c3 r4]; [discriminate |].
    cbn [String.length] in *.
    destruct (Ascii.eqb c3 DQ); [| discriminate].
    apply IHobj in H. lia.
  - intros room s values v r H. cbn [Json.array_items] in H.
    destruct (Json.scan_once fuel room s) as [value r0 | | msg |] eqn:V; try discriminate.
    apply IHscan in V.
    pose proof (skip_ws_length r0) as W0.
    destruct (Json.skip_ws r0) as [| c r1]; [discriminate |].
    cbn [String.length] in *.
    destruct (Ascii.eqb c "]"); [injection H as <- <-; lia |].
    destruct (Ascii.eqb c ","); [| discriminate].
    pose proof (skip_ws_length r1) as W1.
    apply IHarr in H. lia.
Qed.

Lemma scanstring_has_fuel :
  forall fuel s acc,
    (String.length s < fuel)%nat ->
    Json.scanstring fuel s acc <> Json.OutOfFuel.
Proof.
  induction fuel as [| fuel IH]; intros s acc Hlen; [lia |].
  cbn [Json.scanstring].
  destruct s as [| c s']; [discriminate |]. cbn [String.length] in Hlen.
  destruct (Ascii.eqb c DQ); [discriminate |].
  destruct (Ascii.eqb c "\").
  - destruct s' as [| esc s'']; [discriminate |]. cbn [String.length] in Hlen.
    destruct (Ascii.eqb esc "u").
    + destruct (Json.decode_uXXXX s'') as [uni |]; [| discriminate].
      pose proof (drop_length 4 s'') as D4.
      destruct ((55296 <=? uni)%Z && (uni <=? 56319)%Z
                && startswith "\u" (Json.drop 4 s'')).
      * destruct (Json.decode_uXXXX (Json.drop 2 (Json.drop 4 s'')));
          [| discriminate].
        destruct ((56320 <=? z)%Z && (z <=? 57343)%Z);
          apply IH; rewrite ?drop_length; lia.
      * apply IH. lia.
    + destruct (Json.BACKSLASH esc); [| discriminate].
      apply IH. lia.
  - destruct (code c <? 32)%Z; [discriminate |].
    apply IH. lia.
Qed.

(** With a fuel above twice the length of the text, no scanning function
    stops for want of fuel. *)
Lemma scan_has_fuel :
  forall fuel,
    (forall room s,
        (2 * String.length s + 1 <= fuel)%nat ->
        Json.scan_once fuel room s <> Json.OutOfFuel)
    /\ (forall room s pairs,
           (2 * String.length s + 2 <= fuel)%nat ->
           Json.object_pairs fuel room s pairs <> Json.OutOfFuel)
    /\ (forall room s values,
           (2 * String.length s + 2 <= fuel)%nat ->
           Json.array_items fuel room s values <> Json.OutOfFuel).
Proof.
  induction fuel as [| fuel (IHscan & IHobj & IHarr)];
    [repeat split; intros; lia |].
  destruct (scan_consumes fuel) as (Cscan & Cobj & Carr).
  repeat split.
  - intros room s Hlen. cbn [Json.scan_once].
    destruct s as [| c s']; [discriminate |]. cbn [String.length] in Hlen.
    destruct (Ascii.eqb c DQ).
    { pose proof (scanstring_has_fuel fuel s' "" ltac:(lia)) as F.
      destruct (Json.scanstring fuel s' ""); congruence. }
    destruct (Ascii.eqb c "{").
    { destruct room as [| room']; [discriminate |].
      pose proof (skip_ws_length s') as W.
      destruct (Json.skip_ws s') as [| c1 r1]; [discriminate |].
      cbn [String.length] in W.
      destruct (Ascii.eqb c1 "}"); [discriminate |].
      destruct (Ascii.eqb c1 DQ); [| discriminate].
      apply IHobj. lia. }
    destruct (Ascii.eqb c "[").
    { destruct room as [| room']; [discriminate |].
      pose proof (skip_ws_length s') as W.
      destruct (Json.skip_ws s') as [| c1 r1]; [discriminate |].
      destruct (Ascii.eqb c1 "]"); [discriminate |].
      apply IHarr. lia. }
    destruct (Ascii.eqb c "n" && startswith "null" (String c s'));
      [discriminate |].
    destruct (Ascii.eqb c "t" && startswith "true" (String c s'));
      [discriminate |].
    destruct (Ascii.eqb c "f" && startswith "false" (String c s'));
      [discriminate |].
    destruct (Json.match_number (String c s')) as [[[negative digits | literal] r0] |];
      [unfold Json.parse_int; destruct (negb _ && _); discriminate
      | discriminate |].
    destruct (Ascii.eqb c "N" && startswith "NaN" (String c s'));
      [discriminate |].
    destruct (Ascii.eqb c "I" && startswith "Infinity" (String c s'));
      [discriminate |].
    destruct (Ascii.eqb c "-" && startswith "-Infinity" (String c s'));
      discriminate.
  - intros room s pairs Hlen. cbn [Json.object_pairs].
    pose proof (scanstring_has_fuel fuel s "" ltac:(lia)) as F.
    destruct (Json.scanstring fuel s "") as [key r0 | | msg |] eqn:K;
      [| discriminate | discriminate | congruence].
    apply scanstring_consumes in K.
    pose proof (skip_ws_length r0) as W0.
    destruct (Json.skip_ws r0) as [| c r1]; [discriminate |].
    cbn [String.length] in W0.
    destruct (Ascii.eqb c ":"); [| discriminate].
    pose proof (skip_ws_length r1) as W1.
    pose proof (IHscan room (Json.skip_ws r1) ltac:(lia)) as G.
    destruct (Json.scan_once fuel room (Json.skip_ws r1)) as [value r2 | | msg |] eqn:V;
      [| discriminate | discriminate | congruence].
    apply Cscan in V.
    pose proof (skip_ws_length r2) as W2.
    destruct (Json.skip_ws r2) as [| c2 r3]; [discriminate |].
    cbn [String.length] in W2.
    destruct (Ascii.eqb c2 "}"); [discriminate |].
    destruct (Ascii.eqb c2 ","); [| discriminate].
    pose proof (skip_ws_length r3) as W3.
    destruct (Json.skip_ws r3) as [| c3 r4]; [discriminate |].
    cbn [String.length] in W3.
    destruct (Ascii.eqb c3 DQ); [| discriminate].
    apply IHobj. lia.
  - intros room s values Hlen. cbn [Json.array_items].
    pose proof (IHscan room s ltac:(lia)) as G.
    destruct (Json.scan_once fuel room s) as [value r0 | | msg |] eqn:V;
      [| discriminate | discriminate | congruence].
    apply Cscan in V.
    pose proof (skip_ws_length r0) as W0.
    destruct (Json.skip_ws r0) as [| c r1]; [discriminate |].
    cbn [String.length] in W0.
    destruct (Ascii.eqb c "]"); [discriminate |].
    destruct (Ascii.eqb c ","); [| discriminate].
    pose proof (skip_ws_length r1) as W1.
    apply IHarr. lia.
Qed.

(** With the fuel that [loads] takes, [decode] returns a value or raises
    an exception of the decoder: [loads] gives [DecodeError] only where
    the decoder raises [json.JSONDecodeError]. *)
Lemma scan_complete :
  forall s, Json.decode (2 * String.length s + 2) s <> Json.OutOfFuel.
Proof.
  intros s. unfold Json.decode.
  pose proof (skip_ws_length s) as W.
  destruct (scan_has_fuel (2 * String.length s + 2)) as (F & _ & _).
  specialize (F Json.nesting_limit (Json.skip_ws s) ltac:(lia)).
  destruct (Json.scan_once _ _) as [obj r | | msg |]; [| discriminate | discriminate | congruence].
  destruct (Json.skip_ws r); discriminate.
Qed.

(** More fuel does not change what a scanning function returns. *)
Lemma scanstring_more_fuel :
  forall fuel s acc,
    Json.scanstring fuel s acc <> Json.OutOfFuel ->
    forall fuel', (fuel <= fuel')%nat ->
      Json.scanstring fuel' s acc = Json.scanstring fuel s acc.
Proof.
  induction fuel as [| fuel IH]; intros s acc H fuel' Hle;
    [cbn in H; congruence |].
  destruct fuel' as [| fuel']; [lia |].
  assert (Hle' : (fuel <= fuel')%nat) by lia.
  cbn [Json.scanstring] in H |- *.
  destruct s as [| c s']; [reflexivity |].
  destruct (Ascii.eqb c DQ); [reflexivity |].
  destruct (Ascii.eqb c "\").
  - destruct s' as [| esc s'']; [reflexivity |].
    destruct (Ascii.eqb esc "u").
    + destruct (Json.decode_uXXXX s'') as [uni |]; [| reflexivity].
      destruct ((55296 <=? uni)%Z && (uni <=? 56319)%Z
                && startswith "\u" (Json.drop 4 s'')).
      * destruct (Json.decode_uXXXX (Json.drop 2 (Json.drop 4 s'')));
          [| reflexivity].
        destruct ((56320 <=? z)%Z && (z <=? 57343)%Z); now apply IH.
      * now apply IH.
    + destruct (Json.BACKSLASH esc); [| reflexivity]. now apply IH.
  - destruct (code c <? 32)%Z; [reflexivity |]. now apply IH.
Qed.

Lemma scan_more_fuel :
  forall fuel,
    (forall room s,
        Json.scan_once fuel room s <> Json.OutOfFuel ->
        forall fuel', (fuel <= fuel')%nat ->
          Json.scan_once fuel' room s = Json.scan_once fuel room s)
    /\ (forall room s pairs,
           Json.object_pairs fuel room s pairs <> Json.OutOfFuel ->
           forall fuel', (fuel <= fuel')%nat ->
             Json.object_pairs fuel' room s pairs = Json.object_pairs fuel room s pairs)
    /\ (forall room s values,
           Json.array_items fuel room s values <> Json.OutOfFuel ->
           forall fuel', (fuel <= fuel')%nat ->
             Json.array_items fuel' room s values = Json.array_items fuel room s values).
Proof.
  induction fuel as [| fuel (IHscan & IHobj & IHarr)];
    [repeat split; intros ? **; cbn in *; congruence |].
  repeat split.
  - intros room s H fuel' Hle.
    destruct fuel' as [| fuel']; [lia |].
    assert (Hle' : (fuel <= fuel')%nat) by lia.
    cbn [Json.scan_once] in H |- *.
    destruct s as [| c s']; [reflexivity |].
    destruct (Ascii.eqb c DQ).
    { rewrite (scanstring_more_fuel fuel s' "") by
        (assumption || (intros E; rewrite E in H; congruence)).
      reflexivity. }
    destruct (Ascii.eqb c "{").
    { destruct room as [| room']; [reflexivity |].
      destruct (Json.skip_ws s') as [| c1 r1]; [reflexivity |].
      destruct (Ascii.eqb c1 "}"); [reflexivity |].
      destruct (Ascii.eqb c1 DQ); [| reflexivity].
      now apply IHobj. }
    destruct (Ascii.eqb c "[").
    { destruct room as [| room']; [reflexivity |].
      destruct (Json.skip_ws s') as [| c1 r1]; [reflexivity |].
      destruct (Ascii.eqb c1 "]"); [reflexivity |].
      now apply IHarr. }
    reflexivity.
  - intros room s pairs H fuel' Hle.
    destruct fuel' as [| fuel']; [lia |].
    assert (Hle' : (fuel <= fuel')%nat) by lia.
    cbn [Json.object_pairs] in H |- *.
    rewrite (scanstring_more_fuel fuel s "") by
      (assumption || (intros E; rewrite E in H; congruence)).
    destruct (Json.scanstring fuel s "") as [key r0 | | msg |]; try reflexivity.
    destruct (Json.skip_ws r0) as [| c r1]; [reflexivity |].
    destruct (Ascii.eqb c ":"); [| reflexivity].
    rewrite (IHscan room (Json.skip_ws r1)) by
      (assumption || (intros E; rewrite E in H; congruence)).
    destruct (Json.scan_once fuel room (Json.skip_ws r1)) as [value r2 | | msg |];
      try reflexivity.
    destruct (Json.skip_ws r2) as [| c2 r3]; [reflexivity |].
    destruct (Ascii.eqb c2 "}"); [reflexivity |].
    destruct (Ascii.eqb c2 ","); [| reflexivity].
    destruct (Json.skip_ws r3) as [| c3 r4]; [reflexivity |].
    destruct (Ascii.eqb c3 DQ); [| reflexivity].
    now apply IHobj.
  - intros room s values H fuel' Hle.
    destruct fuel' as [| fuel']; [lia |].
    assert (Hle' : (fuel <= fuel')%nat) by lia.
    cbn [Json.array_items] in H |- *.
    rewrite (IHscan room s) by
      (assumption || (intros E; rewrite E in H; congruence)).
    destruct (Json.scan_once fuel room s) as [value r0 | | msg |]; try reflexivity.
    destruct (Json.skip_ws r0) as [| c r1]; [reflexivity |].
    destruct (Ascii.eqb c "]"); [reflexivity |].
    destruct (Ascii.eqb c ","); [| reflexivity].
    now apply IHarr.
Qed.

(** The value of [decode] is the same for every fuel from the one that
    [loads] takes upwards. *)
Lemma decode_fuel_independent :
  forall s fuel,
    (2 * String.length s + 2 <= fuel)%nat ->
    Json.decode fuel s = Json.decode (2 * String.length s + 2) s.
Proof.
  intros s fuel Hle. unfold Json.decode.
  pose proof (skip_ws_length s) as W.
  destruct (scan_has_fuel (2 * String.length s + 2)) as (F & _ & _).
  specialize (F Json.nesting_limit (Json.skip_ws s) ltac:(lia)).
  destruct (scan_more_fuel (2 * String.length s + 2)) as (M & _ & _).
  now rewrite (M Json.nesting_limit (Json.skip_ws s) F fuel Hle).
Qed.

End Fuel.

(* ===================================================================== *)
(** ** Properties: the fallback exercise parser *)
(* ===================================================================== *)

Section Fallback.

Variable req : PersonalizedExercise.ExerciseRequest.

Lemma emit_from_exhausted :
  forall lines emitted,
    (emitted <? PersonalizedExercise.exercise_count req)%Z = false ->
    emit_from req emitted lines = [].
Proof.
  intros [| line lines] emitted H; cbn; [| rewrite H]; reflexivity.
Qed.

(** The loop of [_create_fallback_exercises], from any state in which
    [current_exercise] is empty. *)
Lemma fallback_loop :
  forall lines st,
    PersonalizedExercise.current_exercise st = [] ->
    PersonalizedExercise.exercises
      (fold_left (PersonalizedExercise.fallback_step req) lines st)
    = (PersonalizedExercise.exercises st
       ++ emit_from req (PersonalizedExercise.count st)
            (filter (fun line => negb (line =? "")) (map strip lines)))%list.
Proof.
  induction lines as [| line lines IH]; intros st Hcur.
  - cbn. now rewrite app_nil_r.
  - cbn [fold_left map filter].
    unfold PersonalizedExercise.fallback_step at 2.
    destruct (negb (strip line =? "")) eqn:Hline; cbn [andb].
    + destruct (PersonalizedExercise.count st
                <? PersonalizedExercise.exercise_count req)%Z eqn:Hcount.
      * rewrite Hcur. cbn [PyVal.is_empty].
        rewrite IH by reflexivity.
        cbn [PersonalizedExercise.exercises PersonalizedExercise.count
             emit_from].
        rewrite Hcount, <- app_assoc. reflexivity.
      * rewrite IH by assumption.
        now rewrite !emit_from_exhausted by assumption.
    + now apply IH.
Qed.

Lemma create_fallback_exercises_emit :
  forall text,
    PersonalizedExercise._create_fallback_exercises text req
    = emit_from req 0 (nonempty_trimmed_lines text).
Proof.
  intros text. unfold PersonalizedExercise._create_fallback_exercises.
  now rewrite fallback_loop.
Qed.

Lemma emit_from_length :
  forall lines emitted,
    List.length (emit_from req emitted lines)
    = Nat.min (List.length lines)
        (Z.to_nat (PersonalizedExercise.exercise_count req - emitted)).
Proof.
  induction lines as [| line lines IH]; intros emitted; [reflexivity |].
  cbn [emit_from List.length].
  destruct (emitted <? PersonalizedExercise.exercise_count req)%Z eqn:H.
  - apply Z.ltb_lt in H. cbn [List.length]. rewrite IH.
    replace (Z.to_nat (PersonalizedExercise.exercise_count req - emitted))
      with (S (Z.to_nat (PersonalizedExercise.exercise_count req
                         - (emitted + 1)))) by lia.
    reflexivity.
  - apply Z.ltb_ge in H.
    replace (Z.to_nat (PersonalizedExercise.exercise_count req - emitted))
      with O by lia.
    reflexivity.
Qed.

Lemma emit_from_nth :
  forall lines emitted k line,
    nth_error lines k = Some line ->
    (emitted + Z.of_nat k < PersonalizedExercise.exercise_count req)%Z ->
    nth_error (emit_from req emitted lines) k
    = Some (PyDict (PersonalizedExercise.fallback_exercise req
                      (emitted + Z.of_nat k) line)).
Proof.
  induction lines as [| l lines IH]; intros emitted k line Hk Hlt.
  - destruct k; discriminate.
  - cbn [emit_from].
    assert (E : (emitted <? PersonalizedExercise.exercise_count req)%Z = true)
      by (apply Z.ltb_lt; lia).
    rewrite E. destruct k as [| k].
    + cbn in Hk |- *. injection Hk as ->. now rewrite Z.add_0_r.
    + cbn [nth_error] in Hk |- *. rewrite (IH (emitted + 1)%Z k line Hk) by lia.
      do 3 f_equal. lia.
Qed.

End Fallback.

(** Without a '{' or without a '}' the parser goes to the fallback. *)
Lemma parse_without_braces {interpreter : Json.Interpreter} :
  forall text req,
    find "{" text = (-1)%Z \/ rfind "}" text = (-1)%Z ->
    PersonalizedExercise._parse_exercises_response text req
    = Return (PyList (PersonalizedExercise._create_fallback_exercises text req)).
Proof.
  intros text req H. unfold PersonalizedExercise._parse_exercises_response.
  destruct H as [H | H]; rewrite H; cbn [Z.eqb negb andb Z.add];
    [reflexivity | now rewrite andb_false_r].
Qed.

(** C4. On a text without a '{' or without a '}' the parser returns the
    records of the fallback.  It reads the non-empty trimmed lines of the
    text: the text is trimmed of the white space at its two ends, what is
    left is cut at its line feeds, each piece is trimmed, and the pieces
    that are then empty are left out.  There is one record for each of
    the first lines, as long as fewer than exercise_count records were
    emitted.  The record of the line of index k has the id k + 1, the line
    as its question, the first requested exercise type (or 'short_answer')
    as its type and the two fixed texts as answer and explanation.  With
    5 lines and exercise_count = 3 there are exactly 3 records. *)
Theorem fallback_synthesizes_one_record_per_line
    {interpreter : Json.Interpreter} :
  forall text req,
    find "{" text = (-1)%Z \/ rfind "}" text = (-1)%Z ->
    exists lines records,
      trimmed_lines text lines
      /\ PersonalizedExercise._parse_exercises_response text req
         = Return (PyList records)
      /\ records = PersonalizedExercise._create_fallback_exercises text req
      /\ List.length records
         = Nat.min (List.length lines)
             (Z.to_nat (PersonalizedExercise.exercise_count req))
      /\ (forall k line,
             nth_error lines k = Some line ->
             (Z.of_nat k < PersonalizedExercise.exercise_count req)%Z ->
             exists record,
               nth_error records k = Some (PyDict record)
               /\ Dict.get "id" record = Some (PyInt (Z.of_nat k + 1))
               /\ Dict.get "question" record = Some (PyStr line)
               /\ Dict.get "type" record
                  = Some (PyStr (hd "short_answer"
                                   (PersonalizedExercise.exercise_types req)))
               /\ Dict.get "correct_answer" record
                  = Some (PyStr "Answer will be provided by teacher")
               /\ Dict.get "explanation" record
                  = Some (PyStr "Detailed explanation will be provided"))
      /\ (List.length lines = 5%nat ->
          PersonalizedExercise.exercise_count req = 3%Z ->
          List.length records = 3%nat).
Proof.
  intros text req H.
  exists (nonempty_trimmed_lines text),
    (PersonalizedExercise._create_fallback_exercises text req).
  split; [apply nonempty_trimmed_lines_trims |].
  split; [now apply parse_without_braces |].
  split; [reflexivity |].
  rewrite create_fallback_exercises_emit, emit_from_length, Z.sub_0_r.
  split; [reflexivity |].
  split.
  - intros k line Hk Hlt.
    exists (PersonalizedExercise.fallback_exercise req (Z.of_nat k) line).
    split.
    + now rewrite (emit_from_nth req _ 0 k line Hk) by lia.
    + unfold PersonalizedExercise.fallback_exercise.
      destruct (PersonalizedExercise.exercise_types req);
        repeat split; reflexivity.
  - intros H5 H3. rewrite H5, H3. reflexivity.
Qed.

Lemma fallback_synthesizes_one_record_per_line_witness :
  exists lines records,
    trimmed_lines five_lines_text lines
    /\ PersonalizedExercise._parse_exercises_response five_lines_text
         (sample_exercise_request 3)
       = Return (PyList records)
    /\ List.length records = 3%nat.
Proof.
  destruct (fallback_synthesizes_one_record_per_line five_lines_text
              (sample_exercise_request 3) (or_introl eq_refl))
    as (lines & records & Hlines & Hrun & _ & _ & _ & H53).
  exists lines, records. split; [exact Hlines |]. split; [exact Hrun |].
  apply H53; [| reflexivity].
  rewrite (trimmed_lines_unique _ _ Hlines). reflexivity.
Defined.

(* ===================================================================== *)
(** ** Properties: the decoder and the exercise parser *)
(* ===================================================================== *)

Section DecoderFacts.

Context {interpreter : Json.Interpreter}.

(** The loop of [JSONObject] returns a [dict]. *)
Lemma object_pairs_dict :
  forall fuel room s pairs v rest,
    Json.object_pairs fuel room s pairs = Json.Scanned v rest ->
    exists d, v = PyDict d.
Proof.
  induction fuel as [| fuel IH]; intros room s pairs v rest H; [discriminate |].
  cbn [Json.object_pairs] in H.
  destruct (Json.scanstring fuel s "") as [key r | | |]; try discriminate.
  destruct (Json.skip_ws r) as [| c r1]; try discriminate.
  destruct (Ascii.eqb c ":"); try discriminate.
  destruct (Json.scan_once fuel room (Json.skip_ws r1)) as [value r2 | | |];
    try discriminate.
  destruct (Json.skip_ws r2) as [| c2 r3]; try discriminate.
  destruct (Ascii.eqb c2 "}").
  - injection H as <- _. eauto.
  - destruct (Ascii.eqb c2 ","); try discriminate.
    destruct (Json.skip_ws r3) as [| c3 r4]; try discriminate.
    destruct (Ascii.eqb c3 DQ); try discriminate.
    eapply IH; eassumption.
Qed.

(** A text that starts with '{' decodes to a [dict] or not at all. *)
Lemma loads_object :
  forall r v,
    Json.loads (String "{" r) = Json.Decoded v -> exists d, v = PyDict d.
Proof.
  intros r v H. unfold Json.loads, Json.decode in H.
  change (Json.skip_ws (String "{" r)) with (String "{" r) in H.
  destruct (2 * String.length (String "{" r) + 2)%nat as [| fuel];
    [discriminate |].
  cbn [Json.scan_once] in H.
  change (Ascii.eqb "{" DQ) with false in H.
  change (Ascii.eqb "{" "{") with true in H.
  cbv iota in H.
  destruct Json.nesting_limit as [| room]; [discriminate |].
  destruct (Json.skip_ws r) as [| c r1]; try discriminate.
  destruct (Ascii.eqb c "}").
  - destruct (Json.skip_ws r1); try discriminate.
    injection H as <-. eauto.
  - destruct (Ascii.eqb c DQ); try discriminate.
    destruct (Json.object_pairs fuel room r1 []) as [obj r2 | | |] eqn:E;
      try discriminate.
    destruct (Json.skip_ws r2); try discriminate.
    injection H as <-. eapply object_pairs_dict; eassumption.
Qed.

Lemma loads_empty : Json.loads "" = Json.DecodeError.
Proof. reflexivity. Qed.

(** The exceptions of the decoder that are not [json.JSONDecodeError]
    are those of the two limits of the interpreter. *)
Lemma scanstring_no_limit_error :
  forall fuel s acc msg, Json.scanstring fuel s acc <> Json.LimitError msg.
Proof.
  induction fuel as [| fuel IH]; intros s acc msg; [discriminate |].
  cbn [Json.scanstring].
  destruct s as [| c s']; [discriminate |].
  destruct (Ascii.eqb c DQ); [discriminate |].
  destruct (Ascii.eqb c "\").
  - destruct s' as [| esc s'']; [discriminate |].
    destruct (Ascii.eqb esc "u").
    + destruct (Json.decode_uXXXX s'') as [uni |]; [| discriminate].
      destruct ((55296 <=? uni)%Z && (uni <=? 56319)%Z
                && startswith "\u" (Json.drop 4 s'')); [| apply IH].
      destruct (Json.decode_uXXXX (Json.drop 2 (Json.drop 4 s'')));
        [| discriminate].
      destruct ((56320 <=? z)%Z && (z <=? 57343)%Z); apply IH.
    + destruct (Json.BACKSLASH esc); [apply IH | discriminate].
  - destruct (code c <? 32)%Z; [discriminate | apply IH].
Qed.

Lemma parse_int_limit_error :
  forall negative digits rest msg,
    Json.parse_int negative digits rest = Json.LimitError msg ->
    limit_message msg.
Proof.
  intros negative digits rest msg H. unfold Json.parse_int in H.
  destruct (negb (Json.int_max_str_digits =? 0)%nat
            && (Json.int_max_str_digits <? String.length digits)%nat) eqn:E;
    [| discriminate].
  injection H as <-. apply andb_prop in E as [E0 E1].
  apply negb_true_iff, Nat.eqb_neq in E0. apply Nat.ltb_lt in E1.
  right. right. exists (String.length digits). split; [lia | reflexivity].
Qed.

Lemma scan_limit_error :
  forall fuel,
    (forall room s msg,
        Json.scan_once fuel room s = Json.LimitError msg -> limit_message msg)
    /\ (forall room s pairs msg,
           Json.object_pairs fuel room s pairs = Json.LimitError msg ->
           limit_message msg)
    /\ (forall room s values msg,
           Json.array_items fuel room s values = Json.LimitError msg ->
           limit_message msg).
Proof.
  induction fuel as [| fuel (IHscan & IHobj & IHarr)];
    [repeat split; intros; discriminate |].
  repeat split.
  - intros room s msg H. cbn [Json.scan_once] in H.
    destruct s as [| c s']; [discriminate |].
    destruct (Ascii.eqb c DQ).
    { pose proof (scanstring_no_limit_error fuel s' "" msg) as N.
      destruct (Json.scanstring fuel s' ""); congruence. }
    destruct (Ascii.eqb c "{").
    { destruct room as [| room']; [injection H as <-; now left |].
      destruct (Json.skip_ws s') as [| c1 r1]; [discriminate |].
      destruct (Ascii.eqb c1 "}"); [discriminate |].
      destruct (Ascii.eqb c1 DQ); [| discriminate].
      eapply IHobj; eassumption. }
    destruct (Ascii.eqb c "[").
    { destruct room as [| room']; [injection H as <-; right; now left |].
      destruct (Json.skip_ws s') as [| c1 r1]; [discriminate |].
      destruct (Ascii.eqb c1 "]"); [discriminate |].
      eapply IHarr; eassumption. }
    destruct (Ascii.eqb c "n" && startswith "null" (String c s'));
      [discriminate |].
    destruct (Ascii.eqb c "t" && startswith "true" (String c s'));
      [discriminate |].
    destruct (Ascii.eqb c "f" && startswith "false" (String c s'));
      [discriminate |].
    destruct (Json.match_number (String c s'))
      as [[[negative digits | literal] r0] |];
      [eapply parse_int_limit_error; eassumption | discriminate |].
    destruct (Ascii.eqb c "N" && startswith "NaN" (String c s'));
      [discriminate |].
    destruct (Ascii.eqb c "I" && startswith "Infinity" (String c s'));
      [discriminate |].
    destruct (Ascii.eqb c "-" && startswith "-Infinity" (String c s'));
      discriminate.
  - intros room s pairs msg H. cbn [Json.object_pairs] in H.
    pose proof (scanstring_no_limit_error fuel s "" msg) as N.
    destruct (Json.scanstring fuel s "") as [key r0 | | m |];
      try discriminate; [| congruence].
    destruct (Json.skip_ws r0) as [| c r1]; [discriminate |].
    destruct (Ascii.eqb c ":"); [| discriminate].
    destruct (Json.scan_once fuel room (Json.skip_ws r1))
      as [value r2 | | m |] eqn:V; try discriminate.
    + destruct (Json.skip_ws r2) as [| c2 r3]; [discriminate |].
      destruct (Ascii.eqb c2 "}"); [discriminate |].
      destruct (Ascii.eqb c2 ","); [| discriminate].
      destruct (Json.skip_ws r3) as [| c3 r4]; [discriminate |].
      destruct (Ascii.eqb c3 DQ); [| discriminate].
      eapply IHobj; eassumption.
    + injection H as <-. eapply IHscan; eassumption.
  - intros room s values msg H. cbn [Json.array_items] in H.
    destruct (Json.scan_once fuel room s) as [value r0 | | m |] eqn:V;
      try discriminate.
    + destruct (Json.skip_ws r0) as [| c r1]; [discriminate |].
      destruct (Ascii.eqb c "]"); [discriminate |].
      destruct (Ascii.eqb c ","); [| discriminate].
      eapply IHarr; eassumption.
    + injection H as <-. eapply IHscan; eassumption.
Qed.

Lemma loads_other_error :
  forall s msg, Json.loads s = Json.OtherError msg -> limit_message msg.
Proof.
  intros s msg H. unfold Json.loads, Json.decode in H.
  destruct (Json.scan_once _ _ _) as [obj r | | m |] eqn:E; try discriminate.
  - destruct (Json.skip_ws r); discriminate.
  - injection H as <-.
    destruct (scan_limit_error (2 * String.length s + 2)) as (L & _ & _).
    eapply L; eassumption.
Qed.

(** The slice that the parser hands to [json.loads] is empty or starts
    with '{'. *)
Lemma slice_from_find :
  forall text e,
    find "{" text <> (-1)%Z ->
    slice text (find "{" text) e = ""
    \/ exists r, slice text (find "{" text) e = String "{" r.
Proof.
  intros text e H. unfold find in *.
  destruct (find_from_split "{" text 0 H ltac:(lia)) as (pre & rest & -> & Hf).
  rewrite Hf. unfold slice.
  remember (Z.of_nat (String.length (pre ++ String "{" rest))) as n.
  assert (Hn : (Z.of_nat (String.length pre) < n)%Z).
  { subst n. rewrite length_append. cbn [String.length]. lia. }
  destruct (Z.ltb_spec (0 + Z.of_nat (String.length pre)) 0); [lia |].
  rewrite (Z.min_l (0 + Z.of_nat (String.length pre))) by lia.
  replace (Z.to_nat (0 + Z.of_nat (String.length pre)))
    with (String.length pre + 0)%nat by lia.
  rewrite substring_skip.
  destruct (Z.to_nat _) as [| m]; [now left | right].
  cbn. eauto.
Qed.

(** What [json.loads] returns on the slice is a [dict]; what it raises,
    where it is not [json.JSONDecodeError], comes from a limit of the
    interpreter. *)
Lemma embedded_json_dict :
  forall text parsed,
    embedded_json text = Some (Return parsed) -> exists d, parsed = PyDict d.
Proof.
  intros text parsed H. unfold embedded_json in H.
  destruct (Z.eqb_spec (find "{" text) (-1)) as [| Hfind]; cbn [negb andb] in H;
    [discriminate |].
  destruct (negb (rfind "}" text + 1 =? 0)%Z); [| discriminate].
  destruct (slice_from_find text (rfind "}" text + 1)%Z Hfind) as [E | [r E]];
    rewrite E in H.
  - rewrite loads_empty in H. discriminate.
  - destruct (Json.loads (String "{" r)) as [v | | m] eqn:L; try discriminate.
    injection H as <-. eapply loads_object; eassumption.
Qed.

Lemma embedded_json_raises :
  forall text msg, embedded_json text = Some (Raise msg) -> limit_message msg.
Proof.
  intros text msg H. unfold embedded_json in H.
  destruct (negb _ && negb _); [| discriminate].
  destruct (Json.loads _) as [v | | m] eqn:L; try discriminate.
  injection H as <-. eapply loads_other_error; eassumption.
Qed.

(** The paths of [_parse_exercises_response]. *)
Lemma parse_exercises_response_paths :
  forall text req,
    PersonalizedExercise._parse_exercises_response text req
    = match embedded_json text with
      | Some (Return (PyDict parsed_data)) =>
          Return (Dict.get_default "exercises" (PyList []) parsed_data)
      | Some (Return parsed_data) => Raise (PyVal.no_attribute_get parsed_data)
      | Some (Raise msg) => Raise msg
      | None =>
          Return (PyList (PersonalizedExercise._create_fallback_exercises
                            text req))
      end.
Proof.
  intros text req.
  unfold PersonalizedExercise._parse_exercises_response, embedded_json.
  destruct (negb (find "{" text =? -1)%Z && negb (rfind "}" text + 1 =? 0)%Z);
    [| reflexivity].
  destruct (Json.loads _); reflexivity.
Qed.

(** On the path of the decoded object the parser hands back what the
    object holds under 'exercises', or the empty list. *)
Lemma parse_on_embedded_object :
  forall text req parsed,
    embedded_json text = Some (Return parsed) ->
    exists parsed_data,
      parsed = PyDict parsed_data
      /\ PersonalizedExercise._parse_exercises_response text req
         = Return (Dict.get_default "exercises" (PyList []) parsed_data).
Proof.
  intros text req parsed E. rewrite parse_exercises_response_paths, E.
  destruct (embedded_json_dict text parsed E) as [d ->]. eauto.
Qed.

End DecoderFacts.

(** C2 fails as it is stated: on an answer that carries two exercises in
    JSON, a request for one exercise gets both. *)
Lemma parse_exceeds_exercise_count :
  PersonalizedExercise._parse_exercises_response two_exercises_text
    (sample_exercise_request 1)
  = Return (PyList [PyDict [("id", PyInt 1)]; PyDict [("id", PyInt 2)]])
  /\ ~ (exists v n,
           PersonalizedExercise._parse_exercises_response two_exercises_text
             (sample_exercise_request 1) = Return v
           /\ py_len v = Some n
           /\ (n <= PersonalizedExercise.exercise_count
                      (sample_exercise_request 1))%Z).
Proof.
  assert (E : PersonalizedExercise._parse_exercises_response two_exercises_text
                (sample_exercise_request 1)
              = Return (PyList [PyDict [("id", PyInt 1)];
                                PyDict [("id", PyInt 2)]]))
    by (vm_compute; reflexivity).
  split; [exact E |].
  intros (v & n & Hv & Hn & Hle). rewrite E in Hv.
  injection Hv as <-. cbn in Hn. injection Hn as <-. cbn in Hle. lia.
Qed.

(** With a negative exercise_count the fallback returns no record, and
    the empty list is longer than the count. *)
Lemma fallback_with_negative_count :
  PersonalizedExercise._parse_exercises_response five_lines_text
    (sample_exercise_request (-1))
  = Return (PyList []).
Proof. vm_compute. reflexivity. Qed.

(** C2, amended.  For a request with exercise_count >= 0 and a text on
    which the parser takes the fallback (the text has no '{', or no '}',
    or the text from its first '{' to its last '}' is not valid JSON), the
    parser returns a list of at most exercise_count records. *)
Theorem parse_length_bounded_on_fallback {interpreter : Json.Interpreter} :
  forall text req,
    (0 <= PersonalizedExercise.exercise_count req)%Z ->
    embedded_json text = None ->
    exists records,
      PersonalizedExercise._parse_exercises_response text req
      = Return (PyList records)
      /\ (Z.of_nat (List.length records)
          <= PersonalizedExercise.exercise_count req)%Z.
Proof.
  intros text req Hcount E. rewrite parse_exercises_response_paths, E.
  eexists; split; [reflexivity |].
  rewrite create_fallback_exercises_emit, emit_from_length. lia.
Qed.

Lemma parse_length_bounded_on_fallback_witness :
  (0 <= PersonalizedExercise.exercise_count (sample_exercise_request 3))%Z
  /\ embedded_json five_lines_text = None
  /\ exists records,
       PersonalizedExercise._parse_exercises_response five_lines_text
         (sample_exercise_request 3)
       = Return (PyList records)
       /\ (Z.of_nat (List.length records)
           <= PersonalizedExercise.exercise_count (sample_exercise_request 3))%Z.
Proof.
  split; [cbn; lia |]. split; [reflexivity |].
  apply (parse_length_bounded_on_fallback five_lines_text
           (sample_exercise_request 3)); [cbn; lia | reflexivity].
Defined.

(** C3 fails as it is stated: a text may hold one JSON object with its
    exercises and, before it, braces that belong to no object.  The slice
    from the first '{' to the last '}' is then not the object,
    [json.loads] refuses it and the parser returns a record of the
    fallback, made of the text, in place of the record of the object. *)
Lemma parse_misses_object_after_stray_braces :
  Json.loads ("{" ++ quoted "exercises" ++ ": [{" ++ quoted "id" ++ ": 1}]}")
  = Json.Decoded (PyDict [("exercises", PyList [PyDict [("id", PyInt 1)]])])
  /\ PersonalizedExercise._parse_exercises_response stray_braces_text
       (sample_exercise_request 5)
     = Return
         (PyList
            [PyDict (PersonalizedExercise.fallback_exercise
                       (sample_exercise_request 5) 0 stray_braces_text)])
  /\ PersonalizedExercise._parse_exercises_response stray_braces_text
       (sample_exercise_request 5)
     <> Return (PyList [PyDict [("id", PyInt 1)]]).
Proof.
  assert (E : PersonalizedExercise._parse_exercises_response stray_braces_text
                (sample_exercise_request 5)
              = Return
                  (PyList
                     [PyDict (PersonalizedExercise.fallback_exercise
                                (sample_exercise_request 5) 0
                                stray_braces_text)]))
    by (vm_compute; reflexivity).
  split; [vm_compute; reflexivity |]. split; [exact E |].
  rewrite E. discriminate.
Qed.

(** C3, amended.  Let the text be made of a prefix without '{', of a JSON
    object that [json.loads] decodes, written from its '{' to its '}', and
    of a suffix without '}'.  If the object has a list under 'exercises',
    the parser returns that list, entry for entry, whatever its length;
    if the object has no 'exercises' key, the parser returns the empty
    list. *)
Theorem parse_returns_embedded_exercises {interpreter : Json.Interpreter} :
  forall pre body suf req parsed_data,
    contains "{" pre = false ->
    contains "}" suf = false ->
    Json.loads ("{" ++ body ++ "}") = Json.Decoded (PyDict parsed_data) ->
    let text := pre ++ "{" ++ body ++ "}" ++ suf in
    (forall records,
        Dict.get "exercises" parsed_data = Some (PyList records) ->
        PersonalizedExercise._parse_exercises_response text req
        = Return (PyList records))
    /\ (Dict.get "exercises" parsed_data = None ->
        PersonalizedExercise._parse_exercises_response text req
        = Return (PyList [])).
Proof.
  intros pre body suf req d Hpre Hsuf Hloads text.
  assert (Hfind : find "{" text = Z.of_nat (String.length pre)).
  { subst text. unfold find. cbn [append].
    now rewrite find_from_first by assumption. }
  assert (Hrfind : rfind "}" text
                   = (Z.of_nat (String.length pre)
                      + Z.of_nat (String.length ("{" ++ body)))%Z).
  { subst text. unfold rfind.
    replace (pre ++ "{" ++ body ++ "}" ++ suf)
      with ((pre ++ "{" ++ body) ++ String "}" suf)
      by (now rewrite !append_assoc).
    rewrite rfind_from_last by (assumption || lia).
    rewrite length_append. lia. }
  assert (Hslice : slice text (find "{" text) (rfind "}" text + 1)
                   = "{" ++ body ++ "}").
  { rewrite Hfind, Hrfind.
    replace (Z.of_nat (String.length pre)
             + Z.of_nat (String.length ("{" ++ body)) + 1)%Z
      with (Z.of_nat (String.length pre)
            + Z.of_nat (String.length ("{" ++ body ++ "}")))%Z
      by (cbn [append String.length]; rewrite length_append;
          cbn [String.length]; lia).
    subst text.
    replace (pre ++ "{" ++ body ++ "}" ++ suf)
      with (pre ++ ("{" ++ body ++ "}") ++ suf)
      by (cbn [append]; now rewrite !append_assoc).
    apply slice_middle. }
  assert (Hrun : PersonalizedExercise._parse_exercises_response text req
                 = Return (Dict.get_default "exercises" (PyList []) d)).
  { unfold PersonalizedExercise._parse_exercises_response.
    rewrite Hslice, Hloads, Hfind, Hrfind.
    destruct (Z.eqb_spec (Z.of_nat (String.length pre)) (-1)); [lia |].
    destruct (Z.eqb_spec (Z.of_nat (String.length pre)
                          + Z.of_nat (String.length ("{" ++ body)) + 1) 0);
      [lia | reflexivity]. }
  rewrite Hrun. unfold Dict.get_default.
  split; [intros records H | intros H]; now rewrite H.
Qed.

Lemma parse_returns_embedded_exercises_witness :
  PersonalizedExercise._parse_exercises_response
    (("Here are the exercises:" ++ nl)
     ++ "{" ++ (quoted "exercises" ++ ": [{" ++ quoted "id" ++ ": 1}, {"
                ++ quoted "id" ++ ": 2}]")
     ++ "}" ++ (nl ++ "Good luck!"))
    (sample_exercise_request 5)
  = Return (PyList [PyDict [("id", PyInt 1)]; PyDict [("id", PyInt 2)]]).
Proof.
  destruct (parse_returns_embedded_exercises (interpreter := cpython)
              ("Here are the exercises:" ++ nl)
              (quoted "exercises" ++ ": [{" ++ quoted "id" ++ ": 1}, {"
               ++ quoted "id" ++ ": 2}]")
              (nl ++ "Good luck!")
              (sample_exercise_request 5)
              [("exercises",
                PyList [PyDict [("id", PyInt 1)]; PyDict [("id", PyInt 2)]])]
              eq_refl eq_refl eq_refl) as [A _].
  apply A. reflexivity.
Defined.

(* ===================================================================== *)
(** ** Runs of the two services *)
(* ===================================================================== *)

(** A question in Hindi: four prompts are sent (detection, translation of
    the question, analogy, translation of the answer) and the envelope
    carries the trimmed answers. *)
Example generate_analogy_in_hindi :
  let run :=
    GenerateAnalogy.generate_analogy model_answering_in_hindi
      "2025-01-01T00:00:00" sample_analogy_request [] in
  fst run
  = Return
      (GenerateAnalogy.success_envelope sample_analogy_request "Hindi"
         "Why does it rain?" "baarish kuen ke paani jaisi hai."
         "2025-01-01T00:00:00")
  /\ snd run
     = [GenerateAnalogy.detection_prompt "ye barish kyu hoti hai?";
        GenerateAnalogy.translation_prompt "Hindi" "ye barish kyu hoti hai?";
        GenerateAnalogy.analogy_prompt sample_analogy_request
          (regional_info_of sample_analogy_request) "Why does it rain?";
        GenerateAnalogy.response_translation_prompt
          "Rain is like the water of the well going up and down." "hindi"].
Proof. split; vm_compute; reflexivity. Qed.

(** An answer in JSON: one prompt is sent and the envelope carries the
    decoded exercises. *)
Example generate_exercises_from_json :
  let run :=
    PersonalizedExercise.generate_exercises model_answering_in_json
      "2025-01-01T00:00:00" (sample_exercise_request 5) [] in
  fst run
  = Return
      (PersonalizedExercise.success_envelope (sample_exercise_request 5)
         (PyList [PyDict [("id", PyInt 1)]; PyDict [("id", PyInt 2)]])
         "2025-01-01T00:00:00")
  /\ snd run
     = [PersonalizedExercise._create_exercise_prompt (sample_exercise_request 5)].
Proof. split; vm_compute; reflexivity. Qed.

(** The fallback on five lines with exercise_count = 3: the first record. *)
Example fallback_first_record :
  nth_error
    (PersonalizedExercise._create_fallback_exercises five_lines_text
       (sample_exercise_request 3)) 0
  = Some
      (PyDict
         [("id", PyInt 1);
          ("type", PyStr "multiple_choice");
          ("question", PyStr "1. What is 2 + 3?");
          ("correct_answer", PyStr "Answer will be provided by teacher");
          ("explanation", PyStr "Detailed explanation will be provided");
          ("difficulty", PyStr "beginner");
          ("learning_objective", PyStr "Practice Basic Operations concepts");
          ("personalization_notes",
           PyStr "Adapted for visual learning style")]).
Proof. vm_compute. reflexivity. Qed.

(** The request that the analogy endpoint builds of the mapping of the
    script, with the defaults of the missing keys. *)
Example generate_local_analogy_builds_request :
  GenerateAnalogy.generate_local_analogy
    (("question", PyStr "ye barish kyu hoti hai?") :: data_without_question) []
  = (Return
       (GenerateAnalogy.Built
          {| GenerateAnalogy.student_context :=
               {| GenerateAnalogy.student_id := "123";
                  GenerateAnalogy.name := "GURU";
                  GenerateAnalogy.grade := 5;
                  GenerateAnalogy.region := "north india";
                  GenerateAnalogy.local_language := "Hindi";
                  GenerateAnalogy.cultural_context := "rural";
                  GenerateAnalogy.familiar_concepts := [] |};
             GenerateAnalogy.question := "ye barish kyu hoti hai?";
             GenerateAnalogy.subject := "environment";
             GenerateAnalogy.topic := "Basic Concepts";
             GenerateAnalogy.complexity_level := "simple";
             GenerateAnalogy.preferred_language := "English" |}),
     []).
Proof. vm_compute. reflexivity. Qed.

(** White space outside ASCII is white space for [strip]: a line of one
    no-break space gives no record, and an em space after a question is
    not in the record. *)
Example fallback_skips_no_break_space :
  questions_of
    (PersonalizedExercise._create_fallback_exercises two_questions_text
       (sample_exercise_request 5))
  = ["Q1"; "Q2"].
Proof. vm_compute. reflexivity. Qed.

(** An answer "english" followed by a no-break space names English:
    one prompt is sent. *)
Example english_before_no_break_space :
  GenerateAnalogy._process_question
    (fun n _ => match n with
                | O => Return ("english" ++ utf8 160)
                | S _ => Raise "503 The model is overloaded"
                end)
    "Why does it rain?" "Hindi" []
  = (Return ("english", "Why does it rain?"),
     [GenerateAnalogy.detection_prompt "Why does it rain?"]).
Proof. vm_compute. reflexivity. Qed.

(** The lower case of the dotted capital I starts with "i": a context
    that ends with "ADIVAS" and that letter holds the marker "adivasi". *)
Example dotted_capital_i_makes_a_marker :
  GenerateAnalogy._get_cultural_key ("City ADIVAS" ++ utf8 304) "Delhi"
  = "tribal_areas".
Proof. vm_compute. reflexivity. Qed.

(** An integer of 4301 digits among the exercises, in an interpreter with
    the limit of 4300: [json.loads] raises [ValueError], the parser lets
    it through and the service returns the failure envelope. *)
Example long_integer_fails_the_service :
  PersonalizedExercise._parse_exercises_response (long_integer_text 4301)
    (sample_exercise_request 5)
  = Raise (Json.int_limit_message 4300 4301)
  /\ fst (PersonalizedExercise.generate_exercises
            (fun _ _ => Return (long_integer_text 4301)) "2025-01-01T00:00:00"
            (sample_exercise_request 5) [])
     = Return (PersonalizedExercise.failure_envelope
                 (Json.int_limit_message 4300 4301) "1234")
  /\ PersonalizedExercise._parse_exercises_response (long_integer_text 4300)
       (sample_exercise_request 5)
     = Return (PyList [PyInt (Json.int_of_digits 0
                                (string_of_list_ascii (repeat "1"%char 4300)))]).
Proof. split; [| split]; vm_compute; reflexivity. Qed.

(** Arrays nested beyond the room of the interpreter: [json.loads] raises
    [RecursionError] and the parser lets it through. *)
Example deep_nesting_fails_the_parser :
  PersonalizedExercise._parse_exercises_response (deep_arrays_text 990)
    (sample_exercise_request 5)
  = Raise (Json.recursion_message "array")
  /\ exists exercises,
       PersonalizedExercise._parse_exercises_response (deep_arrays_text 989)
         (sample_exercise_request 5)
       = Return exercises.
Proof.
  split; [vm_compute; reflexivity |].
  destruct (PersonalizedExercise._parse_exercises_response
              (deep_arrays_text 989) (sample_exercise_request 5))
    as [exercises | msg] eqn:E; [eauto |].
  vm_compute in E. discriminate.
Qed.

(** The white space of [strip], code point by code point: TAB to CR, FS
    to the space, U+0085, U+00A0, U+1680, U+2000 to U+200A, U+2028,
    U+2029, U+202F, U+205F and U+3000 are removed at both ends; the
    characters next to them are kept, among them the zero width space
    U+200B, the Mongolian vowel separator U+180E and the byte order mark
    U+FEFF. *)
Example strip_code_points :
  forallb (fun cp => strip (utf8 cp ++ "x" ++ utf8 cp) =? "x")
    [9; 10; 11; 12; 13; 28; 29; 30; 31; 32; 133; 160; 5760;
     8192; 8193; 8194; 8195; 8196; 8197; 8198; 8199; 8200; 8201; 8202;
     8232; 8233; 8239; 8287; 12288]%Z
  = true
  /\ forallb (fun cp => strip (utf8 cp ++ "x" ++ utf8 cp)
                        =? utf8 cp ++ "x" ++ utf8 cp)
       [8; 14; 27; 33; 132; 134; 159; 161; 5759; 5761; 6158; 8191; 8203;
        8204; 8231; 8234; 8238; 8240; 8286; 8288; 12287; 12289; 65279]%Z
     = true.
Proof. split; vm_compute; reflexivity. Qed.

(* ===================================================================== *)
(** ** Further properties: the classifier *)
(* ===================================================================== *)

(** *** [lower] and the texts in the ASCII range *)

Lemma lower_char_ascii :
  forall c, (code (lower_char c) <? 128)%Z = (code c <? 128)%Z.
Proof.
  intros c. unfold lower_char, in_range.
  destruct ((65 <=? code c)%Z && (code c <=? 90)%Z) eqn:E; [| reflexivity].
  apply andb_prop in E as [E1 E2].
  apply Z.leb_le in E1, E2.
  replace (code c <? 128)%Z with true by (symmetry; apply Z.ltb_lt; lia).
  unfold code in *. rewrite N_ascii_embedding by lia.
  apply Z.ltb_lt. lia.
Qed.

(** The two characters that [lower] does not take byte by byte start
    with bytes outside the ASCII range. *)
Lemma dotted_capital_i_bytes :
  forall a b,
    (String a (String b "") =? utf8 304) = true ->
    (code a <? 128)%Z = false /\ (code b <? 128)%Z = false.
Proof.
  intros a b E. apply String.eqb_eq in E. vm_compute in E.
  injection E as -> ->. split; reflexivity.
Qed.

Lemma kelvin_sign_bytes :
  forall a b c,
    (String a (String b (String c "")) =? utf8 8490) = true ->
    (code a <? 128)%Z = false /\ (code b <? 128)%Z = false
    /\ (code c <? 128)%Z = false.
Proof.
  intros a b c E. apply String.eqb_eq in E. vm_compute in E.
  injection E as -> -> ->. repeat split; reflexivity.
Qed.

(** A byte in the ASCII range is put in lower case on its own. *)
Lemma lower_ascii_head :
  forall c s,
    (code c <? 128)%Z = true ->
    lower (String c s) = String (lower_char c) (lower s).
Proof.
  intros c [| b [| d s]] H; cbn [lower]; [reflexivity | |].
  - destruct (String c (String b "") =? utf8 304) eqn:E; [| reflexivity].
    apply dotted_capital_i_bytes in E as [E _]. congruence.
  - destruct (String c (String b "") =? utf8 304) eqn:E.
    { apply dotted_capital_i_bytes in E as [E _]. congruence. }
    destruct (String c (String b (String d "")) =? utf8 8490) eqn:K;
      [| reflexivity].
    apply kelvin_sign_bytes in K as [K _]. congruence.
Qed.

Lemma lower_ascii_append :
  forall m b, ascii_only m = true -> lower (m ++ b) = lower_ascii m ++ lower b.
Proof.
  induction m as [| c m IH]; intros b H; [reflexivity |].
  cbn in H. apply andb_prop in H as [Hc Hm].
  cbn [append lower_ascii]. rewrite lower_ascii_head by assumption.
  now rewrite IH.
Qed.

(** Before a byte in the ASCII range, [lower] ends what it was reading:
    the lower case of a text is then put before that of the rest. *)
Lemma lower_before_ascii :
  forall a c x,
    (code c <? 128)%Z = true ->
    exists out, lower (a ++ String c x) = out ++ lower (String c x).
Proof.
  induction a as [a IH] using string_length_ind. intros c x H.
  destruct a as [| a0 [| b [| d a3]]].
  - exists "". reflexivity.
  - exists (String (lower_char a0) ""). cbn [append].
    destruct x as [| e x'].
    + assert (U : lower (String a0 (String c ""))
                  = if String a0 (String c "") =? utf8 304
                    then "i" ++ utf8 775 ++ lower ""
                    else String (lower_char a0) (lower (String c "")))
        by reflexivity.
      rewrite U.
      destruct (String a0 (String c "") =? utf8 304) eqn:E; [| reflexivity].
      apply dotted_capital_i_bytes in E as [_ E]. congruence.
    + assert (U : lower (String a0 (String c (String e x')))
                  = if String a0 (String c "") =? utf8 304
                    then "i" ++ utf8 775 ++ lower (String e x')
                    else if String a0 (String c (String e "")) =? utf8 8490
                         then String "k" (lower x')
                         else String (lower_char a0)
                                (lower (String c (String e x'))))
        by reflexivity.
      rewrite U.
      destruct (String a0 (String c "") =? utf8 304) eqn:E.
      { apply dotted_capital_i_bytes in E as [_ E]. congruence. }
      destruct (String a0 (String c (String e "")) =? utf8 8490) eqn:K;
        [| reflexivity].
      apply kelvin_sign_bytes in K as (_ & K & _). congruence.
  - cbn [append].
    change (lower (String a0 (String b (String c x))))
      with (if String a0 (String b "") =? utf8 304
            then "i" ++ utf8 775 ++ lower (String c x)
            else if String a0 (String b (String c "")) =? utf8 8490
                 then String "k" (lower x)
                 else String (lower_char a0) (lower (String b (String c x)))).
    destruct (String a0 (String b "") =? utf8 304) eqn:E.
    { exists ("i" ++ utf8 775). now rewrite append_assoc. }
    destruct (String a0 (String b (String c "")) =? utf8 8490) eqn:K.
    { apply kelvin_sign_bytes in K as (_ & _ & K). congruence. }
    destruct (IH (String b "") ltac:(cbn; lia) c x H) as [out Hout].
    exists (String (lower_char a0) out). cbn [append] in Hout |- *.
    now rewrite Hout.
  - cbn [append].
    change (lower (String a0 (String b (String d (a3 ++ String c x)))))
      with (if String a0 (String b "") =? utf8 304
            then "i" ++ utf8 775 ++ lower (String d (a3 ++ String c x))
            else if String a0 (String b (String d "")) =? utf8 8490
                 then String "k" (lower (a3 ++ String c x))
                 else String (lower_char a0)
                        (lower (String b (String d (a3 ++ String c x))))).
    destruct (String a0 (String b "") =? utf8 304).
    { destruct (IH (String d a3) ltac:(cbn; lia) c x H) as [out Hout].
      exists (("i" ++ utf8 775) ++ out). cbn [append] in Hout.
      rewrite !append_assoc. now rewrite Hout. }
    destruct (String a0 (String b (String d "")) =? utf8 8490).
    { destruct (IH a3 ltac:(cbn; lia) c x H) as [out Hout].
      exists (String "k" out). cbn [append]. now rewrite Hout. }
    destruct (IH (String b (String d a3)) ltac:(cbn; lia) c x H) as [out Hout].
    exists (String (lower_char a0) out). cbn [append] in Hout |- *.
    now rewrite Hout.
Qed.

(** A text whose lower case is in the ASCII range and without "k" is in
    the ASCII range. *)
Lemma lower_ascii_inv :
  forall s,
    ascii_only (lower s) = true ->
    contains "k" (lower s) = false ->
    ascii_only s = true /\ lower s = lower_ascii s.
Proof.
  induction s as [s IH] using string_length_ind. intros Ha Hk.
  assert (Step : forall a s1,
             s = String a s1 ->
             lower s = String (lower_char a) (lower s1) ->
             ascii_only s = true /\ lower s = lower_ascii s).
  { intros a s1 -> E. rewrite E in Ha, Hk |- *.
    cbn [ascii_only all_bytes] in Ha. apply andb_prop in Ha as [Ha0 Ha1].
    rewrite contains_char_cons in Hk. apply orb_false_iff in Hk as [_ Hk1].
    destruct (IH s1 ltac:(cbn; lia) Ha1 Hk1) as [A L].
    rewrite lower_char_ascii in Ha0.
    cbn [ascii_only all_bytes lower_ascii]. fold (ascii_only s1).
    rewrite Ha0, A, L. auto. }
  destruct s as [| a [| b [| d s3]]].
  - auto.
  - apply (Step a ""); reflexivity.
  - assert (U : lower (String a (String b ""))
                = if String a (String b "") =? utf8 304
                  then "i" ++ utf8 775 ++ lower ""
                  else String (lower_char a) (lower (String b "")))
      by reflexivity.
    destruct (String a (String b "") =? utf8 304) eqn:E.
    + rewrite U in Ha. vm_compute in Ha. discriminate.
    + apply (Step a (String b "")); [reflexivity | exact U].
  - assert (U : lower (String a (String b (String d s3)))
                = if String a (String b "") =? utf8 304
                  then "i" ++ utf8 775 ++ lower (String d s3)
                  else if String a (String b (String d "")) =? utf8 8490
                       then String "k" (lower s3)
                       else String (lower_char a)
                              (lower (String b (String d s3))))
      by reflexivity.
    destruct (String a (String b "") =? utf8 304) eqn:E.
    { rewrite U in Ha. cbn in Ha. discriminate. }
    destruct (String a (String b (String d "")) =? utf8 8490) eqn:K.
    { rewrite U, contains_char_cons in Hk. cbn in Hk. discriminate. }
    apply (Step a (String b (String d s3))); [reflexivity | exact U].
Qed.

Lemma startswith_append : forall m b, startswith m (m ++ b) = true.
Proof.
  induction m as [| c m IH]; intros b; cbn; [reflexivity |].
  now rewrite Ascii.eqb_refl, IH.
Qed.

Lemma contains_middle : forall a m b, contains m (a ++ m ++ b) = true.
Proof.
  induction a as [| c a IH]; intros m b.
  - cbn [append]. destruct (m ++ b) eqn:E; cbn [contains];
      rewrite <- E, startswith_append; reflexivity.
  - cbn [append contains]. rewrite IH. apply orb_true_r.
Qed.

(** A word of ASCII letters other than "k" is found in the lower case of
    every text that holds it in any letter case. *)
Lemma lower_holds_marker :
  forall before marker after word,
    lower marker = word ->
    word <> "" ->
    ascii_only word = true ->
    contains "k" word = false ->
    contains word (lower (before ++ marker ++ after)) = true.
Proof.
  intros a m b word E Hne Ha Hk. subst word.
  destruct (lower_ascii_inv m Ha Hk) as [Hm L].
  destruct m as [| c m']; [now cbn in Hne |].
  pose proof Hm as Hc. cbn in Hc. apply andb_prop in Hc as [Hc _].
  cbn [append].
  destruct (lower_before_ascii a c (m' ++ b) Hc) as [out ->].
  change (String c (m' ++ b)) with (String c m' ++ b).
  rewrite lower_ascii_append by assumption. rewrite L.
  apply contains_middle.
Qed.

(** X1. A tribal marker is found anywhere in the cultural context and in any
    letter case, and it wins over every other content of the context
    (an urban marker included) and over the region. *)
Theorem tribal_marker_anywhere_wins :
  forall before marker after region,
    lower marker = "tribal" \/ lower marker = "adivasi" ->
    GenerateAnalogy._get_cultural_key (before ++ marker ++ after) region
    = "tribal_areas".
Proof.
  intros a m b region H. unfold GenerateAnalogy._get_cultural_key.
  destruct H as [H | H];
    rewrite (lower_holds_marker a m b _ H)
      by (discriminate || reflexivity);
    [reflexivity | now rewrite orb_true_r].
Qed.

Lemma tribal_marker_anywhere_wins_witness :
  GenerateAnalogy._get_cultural_key ("Urban, non-" ++ "TRIBAL" ++ " city") "Delhi"
  = "tribal_areas".
Proof.
  apply (tribal_marker_anywhere_wins "Urban, non-" "TRIBAL" " city" "Delhi").
  left. reflexivity.
Defined.

(** X2. An urban marker is found anywhere in the cultural context and in any
    letter case; it decides the key when the lower case of the context
    holds no tribal marker. *)
Theorem urban_marker_without_tribal_marker :
  forall before marker after region,
    lower marker = "urban" \/ lower marker = "city" ->
    contains "tribal" (lower (before ++ marker ++ after)) = false ->
    contains "adivasi" (lower (before ++ marker ++ after)) = false ->
    GenerateAnalogy._get_cultural_key (before ++ marker ++ after) region
    = "urban_india".
Proof.
  intros a m b region H Ht Ha. unfold GenerateAnalogy._get_cultural_key.
  rewrite Ht, Ha. cbn [orb].
  destruct H as [H | H];
    rewrite (lower_holds_marker a m b _ H)
      by (discriminate || reflexivity);
    [reflexivity | now rewrite orb_true_r].
Qed.

Lemma urban_marker_without_tribal_marker_witness :
  GenerateAnalogy._get_cultural_key ("Semi-" ++ "Urban" ++ " town") "Tribal Belt"
  = "urban_india".
Proof.
  apply (urban_marker_without_tribal_marker "Semi-" "Urban" " town"
           "Tribal Belt"); [left |..]; reflexivity.
Defined.

(* ===================================================================== *)
(** ** Further properties: the analogy service *)
(* ===================================================================== *)

Lemma skipn_log :
  forall (log sent_now : list string),
    skipn (List.length log) (log ++ sent_now) = sent_now.
Proof.
  intros. now rewrite skipn_app, Nat.sub_diag, skipn_all.
Qed.

(** [_process_question] in full. *)
Lemma process_question_run :
  forall (model : oracle) question preferred_language log,
    let detection := GenerateAnalogy.detection_prompt question in
    GenerateAnalogy._process_question model question preferred_language log
    = match model (List.length log) detection with
      | Raise _ => (Return ("English", question), (log ++ [detection])%list)
      | Return text =>
          let detected_language := strip text in
          if negb (lower detected_language =? "english") then
            let translation :=
              GenerateAnalogy.translation_prompt detected_language question in
            (Return
               match model (S (List.length log)) translation with
               | Return translated => (detected_language, strip translated)
               | Raise _ => ("English", question)
               end,
             (log ++ [detection; translation])%list)
          else (Return (detected_language, question), (log ++ [detection])%list)
      end.
Proof.
  intros model q p log detection; subst detection.
  unfold GenerateAnalogy._process_question, try_except, bind.
  rewrite generate_content_run.
  destruct (model _ _) as [text | msg]; [| reflexivity].
  destruct (negb (lower (strip text) =? "english")); [| reflexivity].
  rewrite generate_content_run, length_app, Nat.add_comm.
  cbn [List.length Nat.add]. rewrite <- app_assoc. cbn [app].
  destruct (model _ _); reflexivity.
Qed.

(** X3. When the model names English, in any letter case and with any white
    space around, the question is not translated: one prompt is sent and
    the question comes back as it is, with the language as the model
    wrote it, without the white space around it. *)
Theorem english_question_is_not_translated :
  forall (model : oracle) question preferred_language log text word,
    model (List.length log) (GenerateAnalogy.detection_prompt question)
    = Return text ->
    trimmed_to text word ->
    lower word = "english" ->
    GenerateAnalogy._process_question model question preferred_language log
    = (Return (word, question),
       (log ++ [GenerateAnalogy.detection_prompt question])%list).
Proof.
  intros model q p log text word H T E.
  apply trimmed_to_strip in T.
  rewrite process_question_run. cbv zeta. rewrite H, T, E. reflexivity.
Qed.

Lemma english_question_is_not_translated_witness :
  GenerateAnalogy._process_question
    (fun _ _ => Return (utf8 160 ++ " ENGLISH" ++ nl ++ utf8 8232))
    "Why does it rain?" "Hindi" []
  = (Return ("ENGLISH", "Why does it rain?"),
     [GenerateAnalogy.detection_prompt "Why does it rain?"]).
Proof.
  apply (english_question_is_not_translated
           (fun _ _ => Return (utf8 160 ++ " ENGLISH" ++ nl ++ utf8 8232))
           "Why does it rain?" "Hindi" []
           (utf8 160 ++ " ENGLISH" ++ nl ++ utf8 8232)
           (strip (utf8 160 ++ " ENGLISH" ++ nl ++ utf8 8232)));
    [reflexivity | apply strip_trims | reflexivity].
Defined.

Lemma foreign_question_is_translated_aux :
  forall (model : oracle) question preferred_language log text translated,
    model (List.length log) (GenerateAnalogy.detection_prompt question)
    = Return text ->
    lower (strip text) <> "english" ->
    model (S (List.length log))
      (GenerateAnalogy.translation_prompt (strip text) question)
    = Return translated ->
    GenerateAnalogy._process_question model question preferred_language log
    = (Return (strip text, strip translated),
       (log ++ [GenerateAnalogy.detection_prompt question;
                GenerateAnalogy.translation_prompt (strip text) question])%list).
Proof.
  intros model q p log text translated H E T.
  rewrite process_question_run. cbv zeta. rewrite H.
  apply String.eqb_neq in E. rewrite E. cbn [negb]. rewrite T. reflexivity.
Qed.

(** X4. When the model names another language and the translation call
    returns, two prompts are sent, the second asking to translate from the
    language named, and the translation is returned; the language and
    the translation are the two answers without the white space at their
    ends. *)
Theorem foreign_question_is_translated :
  forall (model : oracle) question preferred_language log text language
         translated translation,
    model (List.length log) (GenerateAnalogy.detection_prompt question)
    = Return text ->
    trimmed_to text language ->
    lower language <> "english" ->
    model (S (List.length log))
      (GenerateAnalogy.translation_prompt language question)
    = Return translated ->
    trimmed_to translated translation ->
    GenerateAnalogy._process_question model question preferred_language log
    = (Return (language, translation),
       (log ++ [GenerateAnalogy.detection_prompt question;
                GenerateAnalogy.translation_prompt language question])%list).
Proof.
  intros model q p log text language translated translation H L E T R.
  apply trimmed_to_strip in L, R. subst language translation.
  now apply foreign_question_is_translated_aux.
Qed.

Lemma foreign_question_is_translated_witness :
  GenerateAnalogy._process_question model_answering_in_hindi
    "ye barish kyu hoti hai?" "hindi" []
  = (Return ("Hindi", "Why does it rain?"),
     [GenerateAnalogy.detection_prompt "ye barish kyu hoti hai?";
      GenerateAnalogy.translation_prompt "Hindi" "ye barish kyu hoti hai?"]).
Proof.
  apply (foreign_question_is_translated model_answering_in_hindi
           "ye barish kyu hoti hai?" "hindi" [] (" Hindi" ++ nl)
           (strip (" Hindi" ++ nl))
           ("Why does it rain?" ++ utf8 160)
           (strip ("Why does it rain?" ++ utf8 160)));
    [reflexivity | apply strip_trims | vm_compute; discriminate | reflexivity
    | apply strip_trims].
Defined.

(** X5. What [generate_analogy] sends: the detection prompt of the question
    first, and between two and four prompts in all. *)
Theorem generate_analogy_sends_two_to_four_prompts :
  forall (model : oracle) now req log,
    let prompts := sent (GenerateAnalogy.generate_analogy model now req) log in
    hd_error prompts
    = Some (GenerateAnalogy.detection_prompt (GenerateAnalogy.question req))
    /\ (2 <= List.length prompts <= 4)%nat.
Proof.
  intros model now req log prompts; subst prompts. unfold sent.
  rewrite generate_analogy_run, process_question_run. cbv zeta.
  set (q := GenerateAnalogy.question req).
  set (p := GenerateAnalogy.preferred_language req).
  assert (Step : forall d tq first,
             first <> [] ->
             (List.length first <= 2)%nat ->
             let run :=
               match GenerateAnalogy._create_analogy model req tq
                       (log ++ first)%list with
               | (Return a, log2) =>
                   match GenerateAnalogy._translate_response model a p d log2 with
                   | (Return f, log3) =>
                       (Return (GenerateAnalogy.success_envelope req d tq f now),
                        log3)
                   | (Raise msg, log3) =>
                       (Return (GenerateAnalogy.failure_envelope msg
                                  (GenerateAnalogy.student_id
                                     (GenerateAnalogy.student_context req))),
                        log3)
                   end
               | (Raise msg, log2) =>
                   (Return (GenerateAnalogy.failure_envelope msg
                              (GenerateAnalogy.student_id
                                 (GenerateAnalogy.student_context req))),
                    log2)
               end in
             hd_error (skipn (List.length log) (snd run)) = hd_error first
             /\ (S (List.length first)
                 <= List.length (skipn (List.length log) (snd run))
                 <= S (S (List.length first)))%nat).
  { intros d tq first Hne Hlen run; subst run.
    rewrite create_analogy_run, generate_content_run.
    destruct (model _ _) as [a | msg].
    - rewrite translate_response_run.
      destruct (negb (lower p =? "english") && negb (lower d =? "english"));
        cbn [snd]; rewrite <- !app_assoc, skipn_log, ?length_app;
        cbn [List.length]; (split; [destruct first; [congruence | reflexivity] | lia]).
    - cbn [snd]. rewrite <- !app_assoc, skipn_log, ?length_app.
      cbn [List.length]. split; [destruct first; [congruence | reflexivity] | lia]. }
  destruct (model (List.length log) (GenerateAnalogy.detection_prompt q))
    as [text | msg].
  - destruct (negb (lower (strip text) =? "english")).
    + destruct (model (S (List.length log)) _) as [t | msg].
      * destruct (Step (strip text) (strip t)
                    [GenerateAnalogy.detection_prompt q;
                     GenerateAnalogy.translation_prompt (strip text) q]
                    ltac:(discriminate) ltac:(cbn; lia)) as [A B].
        cbn [List.length] in B. split; [exact A | lia].
      * destruct (Step "English" q
                    [GenerateAnalogy.detection_prompt q;
                     GenerateAnalogy.translation_prompt (strip text) q]
                    ltac:(discriminate) ltac:(cbn; lia)) as [A B].
        cbn [List.length] in B. split; [exact A | lia].
    + destruct (Step (strip text) q [GenerateAnalogy.detection_prompt q]
                  ltac:(discriminate) ltac:(cbn; lia)) as [A B].
      cbn [List.length] in B. split; [exact A | lia].
  - destruct (Step "English" q [GenerateAnalogy.detection_prompt q]
                ltac:(discriminate) ltac:(cbn; lia)) as [A B].
    cbn [List.length] in B. split; [exact A | lia].
Qed.

(** X6. When the detection call raises, or names English, the answer of the
    model goes into the success envelope as it is, for every preferred
    language: two prompts are sent, the detection and the analogy prompt
    on the original question, and no translation is asked for. *)
Theorem english_or_undetected_answer_is_not_translated :
  forall (model : oracle) now req log answer,
    let question := GenerateAnalogy.question req in
    let detection := GenerateAnalogy.detection_prompt question in
    let analogy :=
      GenerateAnalogy.analogy_prompt req (regional_info_of req) question in
    (exists msg, model (List.length log) detection = Raise msg)
    \/ (exists text,
           model (List.length log) detection = Return text
           /\ lower (strip text) = "english") ->
    model (S (List.length log)) analogy = Return answer ->
    exists detected_language,
      GenerateAnalogy.generate_analogy model now req log
      = (Return (GenerateAnalogy.success_envelope req detected_language
                   question answer now),
         (log ++ [detection; analogy])%list).
Proof.
  intros model now req log answer question detection analogy H A.
  subst question detection analogy.
  rewrite generate_analogy_run, process_question_run. cbv zeta.
  assert (Next : forall d,
             lower d = "english" ->
             match GenerateAnalogy._create_analogy model req
                     (GenerateAnalogy.question req)
                     (log ++ [GenerateAnalogy.detection_prompt
                                (GenerateAnalogy.question req)])%list with
             | (Return a, log2) =>
                 match GenerateAnalogy._translate_response model a
                         (GenerateAnalogy.preferred_language req) d log2 with
                 | (Return f, log3) =>
                     (Return (GenerateAnalogy.success_envelope req d
                                (GenerateAnalogy.question req) f now), log3)
                 | (Raise msg, log3) =>
                     (Return (GenerateAnalogy.failure_envelope msg
                                (GenerateAnalogy.student_id
                                   (GenerateAnalogy.student_context req))),
                      log3)
                 end
             | (Raise msg, log2) =>
                 (Return (GenerateAnalogy.failure_envelope msg
                            (GenerateAnalogy.student_id
                               (GenerateAnalogy.student_context req))),
                  log2)
             end
             = (Return (GenerateAnalogy.success_envelope req d
                          (GenerateAnalogy.question req) answer now),
                (log ++ [GenerateAnalogy.detection_prompt
                           (GenerateAnalogy.question req);
                         GenerateAnalogy.analogy_prompt req (regional_info_of req)
                           (GenerateAnalogy.question req)])%list)).
  { intros d Hd.
    rewrite create_analogy_run, generate_content_run, length_app, Nat.add_comm.
    cbn [List.length Nat.add]. rewrite A, translate_response_run, Hd.
    rewrite String.eqb_refl, andb_false_r, <- app_assoc. reflexivity. }
  destruct H as [[msg H] | (text & H & E)]; rewrite H.
  - exists "English". apply Next. reflexivity.
  - rewrite E, String.eqb_refl. cbn [negb].
    exists (strip text). now apply Next.
Qed.

Lemma english_or_undetected_answer_is_not_translated_witness :
  exists detected_language,
    GenerateAnalogy.generate_analogy
      (fun n _ => match n with
                  | O => Raise "500 Internal error"
                  | S _ => Return "  Rain is like the monsoon.  "
                  end)
      "2025-01-01T00:00:00" sample_analogy_request []
    = (Return (GenerateAnalogy.success_envelope sample_analogy_request
                 detected_language "ye barish kyu hoti hai?"
                 "  Rain is like the monsoon.  " "2025-01-01T00:00:00"),
       [GenerateAnalogy.detection_prompt "ye barish kyu hoti hai?";
        GenerateAnalogy.analogy_prompt sample_analogy_request
          (regional_info_of sample_analogy_request) "ye barish kyu hoti hai?"]).
Proof.
  apply (english_or_undetected_answer_is_not_translated
           (fun n _ => match n with
                       | O => Raise "500 Internal error"
                       | S _ => Return "  Rain is like the monsoon.  "
                       end)
           "2025-01-01T00:00:00" sample_analogy_request []
           "  Rain is like the monsoon.  ").
  - left. eexists. reflexivity.
  - reflexivity.
Defined.

(** X7. [generate_analogy] returns the failure envelope exactly when the
    model call that asks for the analogy raises: a failure of the
    detection, of the translation of the question or of the translation of
    the answer never shows in the envelope. *)
Theorem analogy_fails_only_with_the_analogy_call :
  forall (model : oracle) now req log detected_language translated_question log1,
    GenerateAnalogy._process_question model (GenerateAnalogy.question req)
      (GenerateAnalogy.preferred_language req) log
    = (Return (detected_language, translated_question), log1) ->
    ((exists msg,
         fst (GenerateAnalogy.generate_analogy model now req log)
         = Return (GenerateAnalogy.failure_envelope msg
                     (GenerateAnalogy.student_id
                        (GenerateAnalogy.student_context req))))
     <-> exists msg,
           model (List.length log1)
             (GenerateAnalogy.analogy_prompt req (regional_info_of req)
                translated_question)
           = Raise msg).
Proof.
  intros model now req log d tq log1 H.
  rewrite generate_analogy_run, H, create_analogy_run, generate_content_run.
  destruct (model _ _) as [a | msg].
  - rewrite translate_response_run.
    split; [| intros [m Hm]; discriminate].
    intros [m Hm].
    destruct (negb _ && negb _); cbn [fst] in Hm; discriminate.
  - split; intros _; exists msg; reflexivity.
Qed.

Lemma analogy_fails_only_with_the_analogy_call_witness :
  (exists msg,
      fst (GenerateAnalogy.generate_analogy model_failing_on_analogy
             "2025-01-01T00:00:00" sample_analogy_request [])
      = Return (GenerateAnalogy.failure_envelope msg "123"))
  <-> exists msg,
        model_failing_on_analogy 1
          (GenerateAnalogy.analogy_prompt sample_analogy_request
             (regional_info_of sample_analogy_request)
             "ye barish kyu hoti hai?")
        = Raise msg.
Proof.
  apply (analogy_fails_only_with_the_analogy_call model_failing_on_analogy
           "2025-01-01T00:00:00" sample_analogy_request [] "English"
           "ye barish kyu hoti hai?"
           [GenerateAnalogy.detection_prompt "ye barish kyu hoti hai?"]).
  reflexivity.
Defined.

(** X8. The whole path of a question in another language, for a preferred
    language other than English: four prompts are sent, the analogy is
    asked on the translated question, and the envelope carries the
    translation of the answer, or the answer itself when that last call
    raises.  Each answer of the model that is a language name or a
    translation is taken without the white space at its ends. *)
Theorem foreign_question_takes_four_prompts :
  forall (model : oracle) now req log text language translated translation
         answer,
    let n := List.length log in
    let question := GenerateAnalogy.question req in
    let preferred := GenerateAnalogy.preferred_language req in
    let detection := GenerateAnalogy.detection_prompt question in
    let translate_in := GenerateAnalogy.translation_prompt language question in
    let analogy :=
      GenerateAnalogy.analogy_prompt req (regional_info_of req) translation in
    let translate_out :=
      GenerateAnalogy.response_translation_prompt answer preferred in
    model n detection = Return text ->
    trimmed_to text language ->
    lower language <> "english" ->
    model (S n) translate_in = Return translated ->
    trimmed_to translated translation ->
    model (S (S n)) analogy = Return answer ->
    lower preferred <> "english" ->
    snd (GenerateAnalogy.generate_analogy model now req log)
    = (log ++ [detection; translate_in; analogy; translate_out])%list
    /\ (forall final trimmed_final,
           model (S (S (S n))) translate_out = Return final ->
           trimmed_to final trimmed_final ->
           fst (GenerateAnalogy.generate_analogy model now req log)
           = Return (GenerateAnalogy.success_envelope req language translation
                       trimmed_final now))
    /\ (forall msg,
           model (S (S (S n))) translate_out = Raise msg ->
           fst (GenerateAnalogy.generate_analogy model now req log)
           = Return (GenerateAnalogy.success_envelope req language translation
                       answer now)).
Proof.
  intros model now req log text language translated translation answer n
    question preferred detection translate_in analogy translate_out
    H1 L E1 H2 R H3 E2.
  subst n question preferred detection translate_in analogy translate_out.
  apply trimmed_to_strip in L, R. subst language translation.
  rewrite generate_analogy_run.
  rewrite (foreign_question_is_translated_aux model _ _ log text translated
             H1 E1 H2).
  rewrite create_analogy_run, generate_content_run.
  rewrite length_app, Nat.add_comm. cbn [List.length Nat.add]. rewrite H3.
  rewrite translate_response_run.
  apply String.eqb_neq in E1, E2. rewrite E1, E2. cbn [negb andb]. cbv zeta.
  rewrite !length_app. cbn [List.length].
  replace (List.length log + 2 + 1)%nat with (S (S (S (List.length log))))
    by lia.
  rewrite <- !app_assoc. cbn [app fst snd].
  split; [reflexivity |]. split.
  - intros final trimmed_final F T. apply trimmed_to_strip in T.
    now rewrite F, T.
  - intros msg F. now rewrite F.
Qed.

Lemma foreign_question_takes_four_prompts_witness :
  fst (GenerateAnalogy.generate_analogy model_answering_in_hindi
         "2025-01-01T00:00:00" sample_analogy_request [])
  = Return
      (GenerateAnalogy.success_envelope sample_analogy_request "Hindi"
         "Why does it rain?" "baarish kuen ke paani jaisi hai."
         "2025-01-01T00:00:00").
Proof.
  destruct (foreign_question_takes_four_prompts model_answering_in_hindi
              "2025-01-01T00:00:00" sample_analogy_request []
              (" Hindi" ++ nl) (strip (" Hindi" ++ nl))
              ("Why does it rain?" ++ utf8 160)
              (strip ("Why does it rain?" ++ utf8 160))
              "Rain is like the water of the well going up and down.")
    as (_ & F & _);
    [reflexivity | apply strip_trims | vm_compute; discriminate | reflexivity
    | apply strip_trims | reflexivity | vm_compute; discriminate |].
  apply (F (utf8 12288 ++ " baarish kuen ke paani jaisi hai.  " ++ nl)
           (strip (utf8 12288 ++ " baarish kuen ke paani jaisi hai.  " ++ nl)));
    [reflexivity | apply strip_trims].
Defined.

(* ===================================================================== *)
(** ** Further properties: the exercise service *)
(* ===================================================================== *)

(** X9. Whenever the model call returns, one prompt was sent and the
    envelope is decided by the parser.  Whatever the text, JSON or not,
    it is the success envelope with what the parser makes of the text,
    but for one case: where [json.loads] raises, on the text between the
    braces, the [ValueError] or the [RecursionError] of a limit of the
    interpreter, the parser lets the exception through and the envelope
    is the failure envelope with its message. *)
Theorem exercises_succeed_unless_json_limit {interpreter : Json.Interpreter} :
  forall (model : oracle) now req log text,
    model (List.length log) (PersonalizedExercise._create_exercise_prompt req)
    = Return text ->
    match embedded_json text with
    | Some (Raise msg) =>
        limit_message msg
        /\ PersonalizedExercise.generate_exercises model now req log
           = (Return (PersonalizedExercise.failure_envelope msg
                        (PersonalizedExercise.student_id
                           (PersonalizedExercise.student_profile req))),
              (log ++ [PersonalizedExercise._create_exercise_prompt req])%list)
    | _ =>
        exists exercises,
          PersonalizedExercise._parse_exercises_response text req
          = Return exercises
          /\ PersonalizedExercise.generate_exercises model now req log
             = (Return (PersonalizedExercise.success_envelope req exercises now),
                (log ++ [PersonalizedExercise._create_exercise_prompt req])%list)
    end.
Proof.
  intros model now req log text H.
  rewrite generate_exercises_run. cbv zeta.
  rewrite H, parse_exercises_response_paths.
  destruct (embedded_json text) as [[parsed | msg] |] eqn:E.
  - destruct (embedded_json_dict text parsed E) as [d ->]. eauto.
  - split; [now apply (embedded_json_raises text) | reflexivity].
  - eauto.
Qed.

Lemma exercises_succeed_unless_json_limit_witness :
  (exists exercises,
      PersonalizedExercise._parse_exercises_response "not { JSON } at all"
        (sample_exercise_request 5) = Return exercises
      /\ PersonalizedExercise.generate_exercises
           (fun _ _ => Return "not { JSON } at all") "2025-01-01T00:00:00"
           (sample_exercise_request 5) []
         = (Return (PersonalizedExercise.success_envelope
                      (sample_exercise_request 5) exercises
                      "2025-01-01T00:00:00"),
            [PersonalizedExercise._create_exercise_prompt
               (sample_exercise_request 5)]))
  /\ PersonalizedExercise.generate_exercises
       (fun _ _ => Return (long_integer_text 4301)) "2025-01-01T00:00:00"
       (sample_exercise_request 5) []
     = (Return (PersonalizedExercise.failure_envelope
                  (Json.int_limit_message 4300 4301) "1234"),
        [PersonalizedExercise._create_exercise_prompt
           (sample_exercise_request 5)]).
Proof.
  split.
  - exact (exercises_succeed_unless_json_limit (interpreter := cpython)
             (fun _ _ => Return "not { JSON } at all") "2025-01-01T00:00:00"
             (sample_exercise_request 5) [] "not { JSON } at all" eq_refl).
  - pose proof (exercises_succeed_unless_json_limit (interpreter := cpython)
                  (fun _ _ => Return (long_integer_text 4301))
                  "2025-01-01T00:00:00" (sample_exercise_request 5) []
                  (long_integer_text 4301) eq_refl) as W.
    assert (E : embedded_json (long_integer_text 4301)
                = Some (Raise (Json.int_limit_message 4300 4301)))
      by (vm_compute; reflexivity).
    rewrite E in W. exact (proj2 W).
Defined.

(** X10. [generate_exercises] returns the failure envelope exactly when the
    model call raises, or returns a text on which [json.loads] raises an
    exception other than [json.JSONDecodeError]. *)
Theorem exercises_fail_with_model_call_or_json_limit
    {interpreter : Json.Interpreter} :
  forall (model : oracle) now req log,
    (exists msg,
        fst (PersonalizedExercise.generate_exercises model now req log)
        = Return (PersonalizedExercise.failure_envelope msg
                    (PersonalizedExercise.student_id
                       (PersonalizedExercise.student_profile req))))
    <-> (exists msg,
            model (List.length log)
              (PersonalizedExercise._create_exercise_prompt req)
            = Raise msg)
        \/ (exists text msg,
               model (List.length log)
                 (PersonalizedExercise._create_exercise_prompt req)
               = Return text
               /\ embedded_json text = Some (Raise msg)).
Proof.
  intros model now req log. rewrite generate_exercises_run. cbv zeta.
  destruct (model _ _) as [text | msg]; cbn [fst].
  - rewrite parse_exercises_response_paths.
    destruct (embedded_json text) as [[parsed | msg] |] eqn:E.
    + destruct (embedded_json_dict text parsed E) as [d ->].
      split; [intros [m Hm]; discriminate |].
      intros [[m Hm] | (t & m & Ht & Hm)]; [discriminate |].
      injection Ht as <-. congruence.
    + split; [| intros _; exists msg; reflexivity].
      intros _. right. exists text, msg. auto.
    + split; [intros [m Hm]; discriminate |].
      intros [[m Hm] | (t & m & Ht & Hm)]; [discriminate |].
      injection Ht as <-. congruence.
  - split; intros _; [left |]; exists msg; reflexivity.
Qed.



(* ===================================================================== *)
(** ** Further properties: the exercise parser *)
(* ===================================================================== *)

(** X12. What the parser does is one of three things.  It returns the
    records of the fallback.  Or it returns what a JSON object between the
    first '{' and the last '}' holds under 'exercises', of whatever type
    (the empty list when the key is absent): what [json.loads] decodes
    there is always an object, so that [get] is never missing.  Or it
    raises what [json.loads] raises there for a limit of the interpreter:
    the [RecursionError] of a nesting too deep or the [ValueError] of an
    integer too long. *)
Theorem parse_returns_or_raises_json_limit {interpreter : Json.Interpreter} :
  forall text req,
    match embedded_json text with
    | None =>
        PersonalizedExercise._parse_exercises_response text req
        = Return (PyList (PersonalizedExercise._create_fallback_exercises
                            text req))
    | Some (Return parsed) =>
        exists parsed_data,
          parsed = PyDict parsed_data
          /\ PersonalizedExercise._parse_exercises_response text req
             = Return (Dict.get_default "exercises" (PyList []) parsed_data)
    | Some (Raise msg) =>
        limit_message msg
        /\ PersonalizedExercise._parse_exercises_response text req = Raise msg
    end.
Proof.
  intros text req. rewrite parse_exercises_response_paths.
  destruct (embedded_json text) as [[parsed | msg] |] eqn:E.
  - destruct (embedded_json_dict text parsed E) as [d ->]. eauto.
  - split; [now apply (embedded_json_raises text) | reflexivity].
  - reflexivity.
Qed.

Lemma substring_zero : forall n s, substring n 0 s = "".
Proof.
  induction n as [| n IH]; intros [| c s]; cbn; try reflexivity. apply IH.
Qed.

Lemma slice_backwards :
  forall s a b, (0 <= b <= a)%Z -> slice s a b = "".
Proof.
  intros s a b H. unfold slice.
  destruct (Z.ltb_spec a 0); [lia |]. destruct (Z.ltb_spec b 0); [lia |].
  replace (Z.to_nat (Z.min b (Z.of_nat (String.length s))
                     - Z.min a (Z.of_nat (String.length s)))) with O by lia.
  apply substring_zero.
Qed.

(** X13. Where the last '}' stands before the first '{' (or is missing), the
    slice is empty and the parser goes to the fallback: braces in prose
    that do not enclose anything do no harm. *)
Theorem braces_in_reverse_order_give_fallback
    {interpreter : Json.Interpreter} :
  forall text req,
    (rfind "}" text < find "{" text)%Z ->
    PersonalizedExercise._parse_exercises_response text req
    = Return (PyList (PersonalizedExercise._create_fallback_exercises text req)).
Proof.
  intros text req H. unfold PersonalizedExercise._parse_exercises_response.
  destruct (Z.eqb_spec (find "{" text) (-1)) as [| Hf]; cbn [negb andb];
    [reflexivity |].
  destruct (Z.eqb_spec (rfind "}" text + 1) 0) as [| He]; cbn [negb];
    [reflexivity |].
  pose proof (rfind_from_range "}" text 0 ltac:(lia)) as R. fold (rfind "}" text) in R.
  rewrite slice_backwards by lia. reflexivity.
Qed.

Lemma braces_in_reverse_order_give_fallback_witness :
  PersonalizedExercise._parse_exercises_response reversed_braces_text
    (sample_exercise_request 5)
  = Return
      (PyList (PersonalizedExercise._create_fallback_exercises
                 reversed_braces_text (sample_exercise_request 5))).
Proof.
  apply (braces_in_reverse_order_give_fallback reversed_braces_text
           (sample_exercise_request 5)).
  vm_compute. reflexivity.
Defined.

(* ===================================================================== *)
(** ** Further properties: the fallback *)
(* ===================================================================== *)

Lemma emit_from_in :
  forall req lines emitted record,
    In record (emit_from req emitted lines) ->
    exists line k,
      In line lines
      /\ record = PyDict (PersonalizedExercise.fallback_exercise req k line).
Proof.
  intros req; induction lines as [| l lines IH]; intros emitted record H;
    [destruct H |].
  cbn [emit_from] in H.
  destruct (emitted <? PersonalizedExercise.exercise_count req)%Z;
    [| destruct H].
  destruct H as [<- | H].
  - exists l, emitted. split; [now left | reflexivity].
  - destruct (IH _ _ H) as (line & k & Hin & ->).
    exists line, k. split; [now right | reflexivity].
Qed.

(** The lines that the fallback reads are lines that it keeps. *)
Lemma nonempty_trimmed_lines_kept :
  forall text, Forall kept_line (nonempty_trimmed_lines text).
Proof.
  intros text. apply Forall_forall. intros line Hin.
  unfold nonempty_trimmed_lines in Hin.
  apply filter_In in Hin as [Hin Hne].
  apply in_map_iff in Hin as (raw & <- & Hraw).
  destruct (strip_trims raw) as (_ & Hs & He).
  repeat split; try assumption.
  - intros E. rewrite E in Hne. discriminate.
  - apply strip_without. eapply split_without_separator; eassumption.
Qed.

(** X14. Every record of the fallback carries a question that is not empty,
    neither starts nor ends with a white space character, of ASCII or
    not, and holds no line feed. *)
Theorem fallback_questions_are_trimmed_lines :
  forall text req record,
    In record (PersonalizedExercise._create_fallback_exercises text req) ->
    exists fields question,
      record = PyDict fields
      /\ Dict.get "question" fields = Some (PyStr question)
      /\ question <> ""
      /\ ~ starts_with_space question
      /\ ~ ends_with_space question
      /\ contains nl question = false.
Proof.
  intros text req record H.
  rewrite create_fallback_exercises_emit in H.
  apply emit_from_in in H as (line & k & Hin & ->).
  pose proof (nonempty_trimmed_lines_kept text) as K.
  rewrite Forall_forall in K. specialize (K line Hin).
  do 2 eexists. split; [reflexivity |]. split; [reflexivity | exact K].
Qed.

Lemma fallback_questions_are_trimmed_lines_witness :
  exists fields question,
    PyDict (PersonalizedExercise.fallback_exercise (sample_exercise_request 3) 1
              "Q2")
    = PyDict fields
    /\ Dict.get "question" fields = Some (PyStr question)
    /\ question <> ""
    /\ ~ starts_with_space question
    /\ ~ ends_with_space question
    /\ contains nl question = false.
Proof.
  apply (fallback_questions_are_trimmed_lines two_questions_text
           (sample_exercise_request 3)).
  vm_compute. right. left. reflexivity.
Defined.

Lemma white_join :
  forall pieces, Forall white pieces -> white (join nl pieces).
Proof.
  intros pieces H. induction H as [| p pieces Hp Hps IH]; [constructor |].
  destruct pieces as [| q pieces]; [exact Hp |].
  change (join nl (p :: q :: pieces)) with (p ++ nl ++ join nl (q :: pieces)).
  apply white_app; [exact Hp |]. constructor; [| exact IH].
  apply isspace_spaces. reflexivity.
Qed.

(** A text has no non-empty line exactly when it is white space. *)
Lemma nonempty_trimmed_lines_nil :
  forall text, nonempty_trimmed_lines text = [] <-> white text.
Proof.
  intros text. unfold nonempty_trimmed_lines. split.
  - intros E.
    assert (W : white (strip text)).
    { rewrite <- (join_split LF (strip text)). apply white_join.
      apply Forall_forall. intros p Hp. apply strip_empty.
      destruct (strip p =? "") eqn:S; [now apply String.eqb_eq in S |].
      assert (Hin : In (strip p)
                      (filter (fun line => negb (line =? ""))
                         (map strip (split LF (strip text)))))
        by (apply filter_In; split; [now apply in_map | now rewrite S]).
      rewrite E in Hin. destruct Hin. }
    destruct (strip_trims text) as [(l & r & Hl & Hr & Et) _].
    rewrite Et. apply white_app; [exact Hl |]. now apply white_app.
  - intros W. now rewrite (strip_white text W).
Qed.

(** X15. The fallback returns no record exactly when the text is white
    space from end to end, line feeds and the white space of Unicode
    included, or when exercise_count is zero or negative. *)
Theorem fallback_is_empty_iff :
  forall text req,
    PersonalizedExercise._create_fallback_exercises text req = []
    <-> white text \/ (PersonalizedExercise.exercise_count req <= 0)%Z.
Proof.
  intros text req. rewrite <- nonempty_trimmed_lines_nil.
  rewrite create_fallback_exercises_emit. split.
  - intros E. apply (f_equal (@List.length pyval)) in E.
    rewrite emit_from_length, Z.sub_0_r in E. cbn in E.
    destruct (nonempty_trimmed_lines text); [now left | right].
    cbn [List.length] in E. lia.
  - intros [E | E]; [now rewrite E |].
    apply emit_from_exhausted. apply Z.ltb_ge. lia.
Qed.

Lemma emit_from_prefix :
  forall req n m lines emitted,
    (n <= m)%Z ->
    emit_from (with_count req n) emitted lines
    = firstn (Z.to_nat (n - emitted)) (emit_from (with_count req m) emitted lines).
Proof.
  intros req n m; induction lines as [| l lines IH]; intros emitted H.
  - cbn. now rewrite firstn_nil.
  - cbn [emit_from with_count PersonalizedExercise.exercise_count].
    destruct (emitted <? n)%Z eqn:En.
    + apply Z.ltb_lt in En.
      assert (Em : (emitted <? m)%Z = true) by (apply Z.ltb_lt; lia).
      rewrite Em.
      replace (Z.to_nat (n - emitted))
        with (S (Z.to_nat (n - (emitted + 1)))) by lia.
      cbn [firstn]. f_equal. now apply IH.
    + apply Z.ltb_ge in En.
      replace (Z.to_nat (n - emitted)) with O by lia. reflexivity.
Qed.

(** X16. Asking for more exercises only adds records at the end: the records
    for a count n are the first n of the records for any greater count. *)
Theorem fallback_for_smaller_count_is_a_prefix :
  forall text req n m,
    (n <= m)%Z ->
    PersonalizedExercise._create_fallback_exercises text (with_count req n)
    = firstn (Z.to_nat n)
        (PersonalizedExercise._create_fallback_exercises text
           (with_count req m)).
Proof.
  intros text req n m H.
  rewrite !create_fallback_exercises_emit.
  rewrite (emit_from_prefix req n m _ 0 H). now rewrite Z.sub_0_r.
Qed.

Lemma fallback_for_smaller_count_is_a_prefix_witness :
  PersonalizedExercise._create_fallback_exercises five_lines_text
    (with_count (sample_exercise_request 0) 2)
  = firstn 2
      (PersonalizedExercise._create_fallback_exercises five_lines_text
         (with_count (sample_exercise_request 0) 4)).
Proof.
  apply (fallback_for_smaller_count_is_a_prefix five_lines_text
           (sample_exercise_request 0) 2 4).
  lia.
Defined.

Lemma in_firstn :
  forall (A : Type) (n : nat) (l : list A) (x : A), In x (firstn n l) -> In x l.
Proof.
  intros A n l x H. rewrite <- (firstn_skipn n l). apply in_or_app. now left.
Qed.

(** The text of the lines joined starts with the first line, and ends
    with the last one after a line feed. *)
Lemma join_starts :
  forall q qs,
    exists rest,
      join nl (q :: qs) = q ++ rest
      /\ (rest = "" \/ exists rest', rest = String LF rest').
Proof.
  intros q [| y qs].
  - exists "". split; [symmetry; apply append_nil_r | now left].
  - exists (nl ++ join nl (y :: qs)). split; [reflexivity | right].
    eexists. reflexivity.
Qed.

Lemma join_ends :
  forall q qs,
    exists a b,
      join nl (q :: qs) = a ++ b /\ In b (q :: qs)
      /\ (a = "" \/ exists a', a = a' ++ nl).
Proof.
  intros q qs; revert q. induction qs as [| y qs IH]; intros q.
  - exists "", q. split; [reflexivity |]. split; [now left | now left].
  - destruct (IH y) as (a & b & E & Hin & Ha).
    exists (q ++ nl ++ a), b.
    change (join nl (q :: y :: qs)) with (q ++ nl ++ join nl (y :: qs)).
    split; [now rewrite E, !append_assoc |]. split; [now right |].
    right. destruct Ha as [-> | [a' ->]].
    + exists q. now rewrite append_nil_r.
    + exists (q ++ nl ++ a'). now rewrite !append_assoc.
Qed.

Lemma strip_join :
  forall qs, Forall kept_line qs -> strip (join nl qs) = join nl qs.
Proof.
  intros [| q qs] H; [reflexivity |].
  apply strip_fixed.
  - intros (w & x & Hw & E).
    destruct (Forall_inv H) as (Hne & Hs & _).
    destruct (join_starts q qs) as (rest & Ej & Hrest). rewrite Ej in E.
    symmetry in E.
    destruct (append_eq_cases _ _ _ _ E) as [(e & Eq & _) | (e & Ew & Er)].
    + apply Hs. exists w, e. auto.
    + destruct e as [| c e].
      * rewrite append_nil_r in Ew. subst w. apply Hs. exists q, "".
        split; [exact Hw | symmetry; apply append_nil_r].
      * destruct Hrest as [-> | [rest' ->]]; [discriminate |].
        cbn [append] in Er. injection Er as <- _.
        destruct (space_with_line_feed _ _ _ Hw Ew) as [Eq _]. congruence.
  - intros (l & w & Hw & E).
    destruct (join_ends q qs) as (a & b & Ej & Hin & Ha). rewrite Ej in E.
    rewrite Forall_forall in H. destruct (H b Hin) as (Hne & _ & He & _).
    destruct (append_eq_cases _ _ _ _ E) as [(e & _ & Eb) | (e & Ea & Ew)].
    + apply He. exists e, w. auto.
    + destruct e as [| c e].
      * cbn [append] in Ew. subst w. apply He. exists "", b. auto.
      * destruct Ha as [-> | [a' ->]]; [destruct l; discriminate |].
        assert (Ee : exists e', String c e = e' ++ nl).
        { destruct (append_eq_cases _ _ _ _ Ea) as [(f & _ & Ef) | (f & _ & Ef)].
          - destruct f as [| x f]; [exists ""; symmetry; exact Ef |].
            cbn in Ef. injection Ef as _ Ef. destruct f; discriminate.
          - eauto. }
        destruct Ee as [e' Ee]. rewrite Ee, append_assoc in Ew.
        destruct (space_with_line_feed _ _ _ Hw Ew) as [_ Eb]. congruence.
Qed.

Lemma split_join :
  forall q qs,
    Forall kept_line (q :: qs) -> split LF (join nl (q :: qs)) = q :: qs.
Proof.
  intros q qs H. apply split_join_pieces.
  eapply Forall_impl; [| exact H]. now intros line (_ & _ & _ & ?).
Qed.

(** The lines that the fallback reads in the lines it kept, joined, are
    those lines. *)
Lemma nonempty_trimmed_lines_join :
  forall qs,
    Forall kept_line qs -> nonempty_trimmed_lines (join nl qs) = qs.
Proof.
  intros qs H. unfold nonempty_trimmed_lines. rewrite strip_join by assumption.
  destruct qs as [| q qs]; [reflexivity |].
  rewrite split_join by assumption.
  induction H as [| x l Hx Hl IH]; [reflexivity |].
  cbn [map filter]. destruct Hx as (Hne & Hs & He & _).
  rewrite (strip_fixed x Hs He).
  apply String.eqb_neq in Hne. rewrite Hne. cbn [negb]. now rewrite IH.
Qed.

Lemma questions_of_emit_from :
  forall req lines emitted,
    questions_of (emit_from req emitted lines)
    = firstn (Z.to_nat (PersonalizedExercise.exercise_count req - emitted)) lines.
Proof.
  intros req; induction lines as [| l lines IH]; intros emitted.
  - cbn. now rewrite firstn_nil.
  - cbn [emit_from].
    destruct (emitted <? PersonalizedExercise.exercise_count req)%Z eqn:E.
    + apply Z.ltb_lt in E.
      replace (Z.to_nat (PersonalizedExercise.exercise_count req - emitted))
        with (S (Z.to_nat (PersonalizedExercise.exercise_count req
                           - (emitted + 1)))) by lia.
      cbn [firstn]. unfold questions_of in *. cbn [flat_map].
      rewrite IH. reflexivity.
    + apply Z.ltb_ge in E.
      replace (Z.to_nat (PersonalizedExercise.exercise_count req - emitted))
        with O by lia.
      reflexivity.
Qed.

Lemma emit_from_firstn :
  forall req lines emitted,
    emit_from req emitted
      (firstn (Z.to_nat (PersonalizedExercise.exercise_count req - emitted))
         lines)
    = emit_from req emitted lines.
Proof.
  intros req; induction lines as [| l lines IH]; intros emitted.
  - now rewrite firstn_nil.
  - destruct (emitted <? PersonalizedExercise.exercise_count req)%Z eqn:E.
    + pose proof E as E'. apply Z.ltb_lt in E'.
      replace (Z.to_nat (PersonalizedExercise.exercise_count req - emitted))
        with (S (Z.to_nat (PersonalizedExercise.exercise_count req
                           - (emitted + 1)))) by lia.
      cbn [firstn emit_from]. rewrite E, IH. reflexivity.
    + now rewrite !emit_from_exhausted.
Qed.

(** X17. The questions of the records are the first exercise_count
    non-empty trimmed lines of the text, and the fallback reads them back:
    run on its own questions, one per line, it returns the same
    records. *)
Theorem fallback_reads_back_its_questions :
  forall text req,
    let records := PersonalizedExercise._create_fallback_exercises text req in
    (exists lines,
        trimmed_lines text lines
        /\ questions_of records
           = firstn (Z.to_nat (PersonalizedExercise.exercise_count req)) lines)
    /\ PersonalizedExercise._create_fallback_exercises
         (join nl (questions_of records)) req
       = records.
Proof.
  intros text req records; subst records.
  rewrite !create_fallback_exercises_emit.
  rewrite questions_of_emit_from, Z.sub_0_r. split.
  { exists (nonempty_trimmed_lines text).
    split; [apply nonempty_trimmed_lines_trims | reflexivity]. }
  rewrite nonempty_trimmed_lines_join.
  - rewrite <- (Z.sub_0_r (PersonalizedExercise.exercise_count req)) at 1.
    apply emit_from_firstn.
  - apply Forall_forall. intros line Hin. apply in_firstn in Hin.
    pose proof (nonempty_trimmed_lines_kept text) as K.
    rewrite Forall_forall in K. auto.
Qed.

(* ===================================================================== *)
(** ** Further properties: the endpoints *)
(* ===================================================================== *)

Lemma str_list_map : forall l, PyVal.str_list (map PyStr l) = Some l.
Proof.
  induction l as [| s l IH]; cbn; [| rewrite IH]; reflexivity.
Qed.

Lemma get_present :
  forall (V : Type) k (d : Dict.t V) v,
    Dict.get k d = Some v -> PyVal.is_empty d = false /\ Dict.mem k d = true.
Proof.
  intros V k d v H. unfold Dict.mem. rewrite H.
  destruct d; [discriminate | auto].
Qed.

(** X18. The analogy endpoint rebuilds a request of its payload, field for
    field: every request can be handed in as the mapping that the
    docstring describes. *)
Theorem analogy_endpoint_reads_back_payload :
  forall req log,
    GenerateAnalogy.generate_local_analogy (analogy_payload req) log
    = (Return (GenerateAnalogy.Built req), log).
Proof.
  intros [[i n g r l c f] q s t x p] log.
  unfold GenerateAnalogy.generate_local_analogy, analogy_payload.
  cbn -[PyVal.str_list map]. unfold PyVal.get_str_list. cbn -[PyVal.str_list map].
  rewrite (str_list_map f). reflexivity.
Qed.

(** X19. The exercise endpoint rebuilds a request of its payload, field for
    field, without a call to [jsonify]. *)
Theorem exercise_endpoint_reads_back_payload :
  forall Response (jsonify : pyval -> result Response) req log,
    PersonalizedExercise.generate_personalized_exercises Response jsonify
      (exercise_payload req) log
    = (Return (PersonalizedExercise.Built req), log).
Proof.
  intros Response jsonify [[i n g l s w t p] u o d c e] log.
  unfold PersonalizedExercise.generate_personalized_exercises, exercise_payload,
    try_except.
  cbn -[PyVal.str_list map].
  unfold PersonalizedExercise.typed_student_profile,
    PersonalizedExercise.typed_exercise_request, PyVal.get_str_list.
  cbn -[PyVal.str_list map].
  rewrite (str_list_map w), (str_list_map t). cbn -[PyVal.str_list map].
  rewrite (str_list_map e). reflexivity.
Qed.

(** X20. The defaults of the analogy endpoint: with a student context and a
    question of the declared types and none of the other keys, the request
    takes grade 1, region "Rural India", local language "Hindi", cultural
    context "rural", no familiar concept, subject "General", topic "Basic
    Concepts", complexity "simple" and preferred language "English". *)
Theorem analogy_endpoint_defaults :
  forall data context_data question log,
    Dict.get "student_context" data = Some (PyDict context_data) ->
    Dict.get "question" data = Some (PyStr question) ->
    (forall k,
        In k ["subject"; "topic"; "complexity_level"; "preferred_language"] ->
        Dict.get k data = None) ->
    (forall k,
        In k ["student_id"; "name"; "grade"; "region"; "local_language";
              "cultural_context"; "familiar_concepts"] ->
        Dict.get k context_data = None) ->
    GenerateAnalogy.generate_local_analogy data log
    = (Return
         (GenerateAnalogy.Built
            {| GenerateAnalogy.student_context :=
                 {| GenerateAnalogy.student_id := "";
                    GenerateAnalogy.name := "";
                    GenerateAnalogy.grade := 1;
                    GenerateAnalogy.region := "Rural India";
                    GenerateAnalogy.local_language := "Hindi";
                    GenerateAnalogy.cultural_context := "rural";
                    GenerateAnalogy.familiar_concepts := [] |};
               GenerateAnalogy.question := question;
               GenerateAnalogy.subject := "General";
               GenerateAnalogy.topic := "Basic Concepts";
               GenerateAnalogy.complexity_level := "simple";
               GenerateAnalogy.preferred_language := "English" |}),
       log).
Proof.
  intros data ctx q log Hc Hq Hd Hx.
  unfold GenerateAnalogy.generate_local_analogy.
  destruct (get_present _ _ _ _ Hc) as [E M]. rewrite E, M.
  destruct (get_present _ _ _ _ Hq) as [_ M']. rewrite M'. cbn [negb orb].
  rewrite Hc.
  unfold GenerateAnalogy.typed_student_context,
    GenerateAnalogy.typed_analogy_request,
    PyVal.get_str, PyVal.get_int, PyVal.get_str_list.
  rewrite !Hx by (cbn; tauto). rewrite Hq, !Hd by (cbn; tauto).
  reflexivity.
Qed.

Lemma analogy_endpoint_defaults_witness :
  GenerateAnalogy.generate_local_analogy
    [("question", PyStr "Why does it rain?"); ("student_context", PyDict [])] []
  = (Return
       (GenerateAnalogy.Built
          {| GenerateAnalogy.student_context :=
               {| GenerateAnalogy.student_id := "";
                  GenerateAnalogy.name := "";
                  GenerateAnalogy.grade := 1;
                  GenerateAnalogy.region := "Rural India";
                  GenerateAnalogy.local_language := "Hindi";
                  GenerateAnalogy.cultural_context := "rural";
                  GenerateAnalogy.familiar_concepts := [] |};
             GenerateAnalogy.question := "Why does it rain?";
             GenerateAnalogy.subject := "General";
             GenerateAnalogy.topic := "Basic Concepts";
             GenerateAnalogy.complexity_level := "simple";
             GenerateAnalogy.preferred_language := "English" |}),
     []).
Proof.
  apply (analogy_endpoint_defaults
           [("question", PyStr "Why does it rain?");
            ("student_context", PyDict [])] [] "Why does it rain?" []);
    try reflexivity;
    intros k H; cbn in H; repeat destruct H as [<- | H]; try reflexivity;
    destruct H.
Defined.

(** X21. The defaults of the exercise endpoint: with a student profile and
    none of the other keys, the request takes grade 1, level "beginner",
    style "visual", no weakness, no strength, language "English", subject
    "Mathematics", topic "Basic Operations", difficulty "beginner", five
    exercises of type 'multiple_choice'. *)
Theorem exercise_endpoint_defaults :
  forall Response (jsonify : pyval -> result Response) data profile_data log,
    Dict.get "student_profile" data = Some (PyDict profile_data) ->
    (forall k,
        In k ["subject"; "topic"; "difficulty_level"; "exercise_count";
              "exercise_types"] ->
        Dict.get k data = None) ->
    (forall k,
        In k ["student_id"; "name"; "grade"; "learning_level"; "learning_style";
              "weaknesses"; "strengths"; "language_preference"] ->
        Dict.get k profile_data = None) ->
    PersonalizedExercise.generate_personalized_exercises Response jsonify
      data log
    = (Return
         (PersonalizedExercise.Built
            {| PersonalizedExercise.student_profile :=
                 {| PersonalizedExercise.student_id := "";
                    PersonalizedExercise.name := "";
                    PersonalizedExercise.grade := 1;
                    PersonalizedExercise.learning_level := "beginner";
                    PersonalizedExercise.learning_style := "visual";
                    PersonalizedExercise.weaknesses := [];
                    PersonalizedExercise.strengths := [];
                    PersonalizedExercise.language_preference := "English" |};
               PersonalizedExercise.subject := "Mathematics";
               PersonalizedExercise.topic := "Basic Operations";
               PersonalizedExercise.difficulty_level := "beginner";
               PersonalizedExercise.exercise_count := 5;
               PersonalizedExercise.exercise_types := ["multiple_choice"] |}),
       log).
Proof.
  intros Response jsonify data prof log Hp Hd Hx.
  unfold PersonalizedExercise.generate_personalized_exercises, try_except.
  destruct (get_present _ _ _ _ Hp) as [E M]. rewrite E, M. cbn [negb orb].
  rewrite Hp.
  unfold PersonalizedExercise.typed_student_profile,
    PersonalizedExercise.typed_exercise_request,
    PyVal.get_str, PyVal.get_int, PyVal.get_str_list.
  rewrite !Hx by (cbn; tauto). rewrite !Hd by (cbn; tauto).
  reflexivity.
Qed.

Lemma exercise_endpoint_defaults_witness :
  PersonalizedExercise.generate_personalized_exercises pyval jsonify_payload
    [("student_profile", PyDict [])] []
  = (Return
       (PersonalizedExercise.Built
          {| PersonalizedExercise.student_profile :=
               {| PersonalizedExercise.student_id := "";
                  PersonalizedExercise.name := "";
                  PersonalizedExercise.grade := 1;
                  PersonalizedExercise.learning_level := "beginner";
                  PersonalizedExercise.learning_style := "visual";
                  PersonalizedExercise.weaknesses := [];
                  PersonalizedExercise.strengths := [];
                  PersonalizedExercise.language_preference := "English" |};
             PersonalizedExercise.subject := "Mathematics";
             PersonalizedExercise.topic := "Basic Operations";
             PersonalizedExercise.difficulty_level := "beginner";
             PersonalizedExercise.exercise_count := 5;
             PersonalizedExercise.exercise_types := ["multiple_choice"] |}),
     []).
Proof.
  apply (exercise_endpoint_defaults pyval jsonify_payload
           [("student_profile", PyDict [])] [] []);
    try reflexivity;
    intros k H; cbn in H; repeat destruct H as [<- | H]; try reflexivity;
    destruct H.
Defined.

(** X22. A student context that is not a mapping makes the analogy endpoint
    raise: the endpoint has no handler, and the caller gets the
    [AttributeError] of the [get] that the value does not have. *)
Theorem analogy_endpoint_raises_on_other_context :
  forall data v log,
    Dict.get "student_context" data = Some v ->
    (forall context_data, v <> PyDict context_data) ->
    Dict.mem "question" data = true ->
    GenerateAnalogy.generate_local_analogy data log
    = (Raise ("'" ++ PyVal.type_name v ++ "' object has no attribute 'get'"),
       log).
Proof.
  intros data v log Hc Hv Hq.
  unfold GenerateAnalogy.generate_local_analogy.
  destruct (get_present _ _ _ _ Hc) as [E M]. rewrite E, M, Hq. cbn [negb orb].
  rewrite Hc. destruct v; try reflexivity.
  now destruct (Hv d).
Qed.

Lemma analogy_endpoint_raises_on_other_context_witness :
  GenerateAnalogy.generate_local_analogy data_with_list_context []
  = (Raise "'list' object has no attribute 'get'", []).
Proof.
  apply (analogy_endpoint_raises_on_other_context data_with_list_context
           (PyList [PyStr "GURU"]) []);
    [reflexivity | discriminate | reflexivity].
Defined.

(** X23. The exercise endpoint does not raise there: its handler answers with
    status 500 and the message of the [AttributeError], through [jsonify];
    only an exception of that [jsonify] call reaches the caller. *)
Theorem exercise_endpoint_answers_500_on_other_profile :
  forall Response (jsonify : pyval -> result Response) data v log,
    Dict.get "student_profile" data = Some v ->
    (forall profile_data, v <> PyDict profile_data) ->
    PersonalizedExercise.generate_personalized_exercises Response jsonify
      data log
    = (match jsonify
               (PyDict
                  [("success", PyBool false);
                   ("error",
                    PyStr ("'" ++ PyVal.type_name v
                           ++ "' object has no attribute 'get'"))]) with
       | Return body => Return (PersonalizedExercise.Responded body 500)
       | Raise msg => Raise msg
       end,
       log).
Proof.
  intros Response jsonify data v log Hp Hv.
  unfold PersonalizedExercise.generate_personalized_exercises, try_except,
    bind, lift.
  destruct (get_present _ _ _ _ Hp) as [E M]. rewrite E, M. cbn [negb orb].
  rewrite Hp.
  destruct v; try (now destruct (Hv d)); cbn [raise];
    unfold PyVal.no_attribute_get;
    match goal with
    | |- context [jsonify ?x] => destruct (jsonify x); reflexivity
    end.
Qed.

Lemma exercise_endpoint_answers_500_on_other_profile_witness :
  PersonalizedExercise.generate_personalized_exercises pyval jsonify_payload
    data_with_list_profile []
  = (Return
       (PersonalizedExercise.Responded
          (PyDict [("success", PyBool false);
                   ("error", PyStr "'list' object has no attribute 'get'")])
          500),
     []).
Proof.
  apply (exercise_endpoint_answers_500_on_other_profile pyval jsonify_payload
           data_with_list_profile (PyList [PyStr "GURU"]) []);
    [reflexivity | discriminate].
Defined.
